(** * Geotagging images from a GPX track: model and verified properties

    A shallow embedding of [python/geotag_from_gpx.py]: the bearing
    normaliser, the track loader, the EXIF capture-time reader, the
    sub-second time estimator, the tag writer and the batch loop of the
    script's entry point.

    Conventions.
    - A [datetime] is an integer count of microseconds since a fixed epoch
      and a [timedelta] an integer count of microseconds, which is the
      resolution and the exact arithmetic of Python's [datetime] module.
    - A Python float is idealised as the rational it denotes ([Q]).
    - Python exceptions are values of [exception]; a computation that can
      raise, print or touch image files lives in the monad [M].
    - The functions imported from [lib.geo] are not part of the two scripts
      and are taken as parameters of the development, as is the built-in
      [int] on text. *)

From Stdlib Require Import ZArith QArith Qabs Qround Qminmax Lia Lqa List.
From Stdlib Require Import Ascii String.
From Stdlib Require Import Permutation Sorted DecimalString.
From stdpp Require Import gmap strings list.

Local Open Scope Z_scope.

(** ** Python numerics *)

(** [x % m] on floats for a positive modulus [m]: the result has the sign of
    the divisor, [x - m * floor (x / m)]. *)
Definition float_mod (x m : Q) : Q :=
  (x - m * inject_Z (Qfloor (x / m)))%Q.

(** [int(x)] on a float: truncation towards zero. *)
Definition int_of_float (x : Q) : Z :=
  Z.quot (Qnum x) (Z.pos (Qden x)).

(** Rounding to the nearest integer, ties to even. *)
Definition round_half_even (x : Q) : Z :=
  let f := Qfloor x in
  let r := (x - inject_Z f)%Q in
  match (r ?= 1 # 2)%Q with
  | Lt => f
  | Gt => f + 1
  | Eq => if Z.even f then f else f + 1
  end.

Definition datetime := Z.
Definition timedelta := Z.

(** [datetime.timedelta(seconds=x)]: microseconds, rounded to the nearest.
    No property below depends on how a tie is broken. *)
Definition timedelta_seconds (x : Q) : timedelta :=
  round_half_even (x * 1000000)%Q.

(** [datetime.timedelta(milliseconds=k)] for an integer [k]. *)
Definition timedelta_milliseconds (k : Z) : timedelta := 1000 * k.

(** [delta / 2] on a [timedelta]: division by an integer stays at
    microsecond resolution; it is the floor under Python 2, the interpreter
    pyexiv2 binds to.  The estimator only halves a width that is not
    negative. *)
Definition timedelta_half (d : timedelta) : timedelta := d / 2.

(** [pyexiv2.utils.make_fraction(n, d)] with a positive literal denominator. *)
Definition make_fraction (n : Z) (d : positive) : Q := n # d.

(** ** Bearing normaliser *)

(** [add_bearing_offset(bearing, offset)], lines 69-78. *)
Definition add_bearing_offset (bearing offset : Q) : Q :=
  let r := (bearing + offset)%Q in
  if Qle_bool 0 r && negb (Qle_bool 360 r) then r
  else if Qle_bool 360 r then float_mod r 360
  else (- float_mod (- r) 360)%Q.

(** ** Exceptions, printed messages and the file store *)

(** The exceptions that occur, each with the text it carries. *)
Inductive exception :=
| ValueError (msg : string)
| KeyError (key : string)
| TypeError (msg : string)
| UnboundLocalError (name : string)
| IndexError (msg : string)
| IOError (msg : string)
| SystemExit (code : Z).

Inductive outcome (A : Type) :=
| Ret (a : A)
| Raise (e : exception).
Arguments Ret {A} a.
Arguments Raise {A} e.

(** The values pyexiv2 hands out and accepts for a tag; [ExifInvalid] is a
    stored value it cannot convert, whose [.value] raises [ValueError]. *)
Inductive exif_value :=
| ExifDatetime (t : datetime)
| ExifText (s : string)
| ExifInt (n : Z)
| ExifFraction (q : Q)
| ExifTriple (a b c : Q)
| ExifInvalid (msg : string).

(** One line of standard output, with the arguments of its format string:
    - [MsgSkipping]: "Skipping {0}: {1}" (file name, exception);
    - [MsgAdded]: "Added geodata to: {} time {} lat {} lon {} alt {}
      bearing {}";
    - [MsgExifValueError]: "Error reading EXIF at {0}: {1}";
    - [MsgExifKeyError]: "Error reading {0}: {1}";
    - [MsgIntervalIncompatible]: "Interval not compatible with EXIF times";
    - the others are the progress lines of the entry point. *)
Inductive message :=
| MsgSkipping (filename reason : string)
| MsgAdded (filename : string) (time : datetime) (lat lon : Q)
           (elevation : option Q) (bearing : Q)
| MsgExifValueError (filename reason : string)
| MsgExifKeyError (filename reason : string)
| MsgIntervalIncompatible
| MsgLocalTimezone
| MsgReadingFileList
| MsgEstimating
| MsgReadingGpx
| MsgStarting (n : nat) (gpx_file : string)
| MsgDone (n : nat).

(** The image files with their metadata, and what has been printed. *)
Record world := World {
  files : gmap string (gmap string exif_value);
  stdout : list message
}.

Definition M (A : Type) : Type := world -> outcome A * world.

Definition ret {A} (a : A) : M A := fun w => (Ret a, w).

Definition raise {A} (e : exception) : M A := fun w => (Raise e, w).

Definition bind {A B} (m : M A) (k : A -> M B) : M B :=
  fun w =>
    match m w with
    | (Ret a, w') => k a w'
    | (Raise e, w') => (Raise e, w')
    end.

Notation "x <- m ;; k" := (bind m (fun x => k))
  (at level 100, m at next level, right associativity).
Notation "m ;;; k" := (bind m (fun _ => k))
  (at level 100, right associativity).

Definition lift {A} (o : outcome A) : M A := fun w => (o, w).

Definition print (m : message) : M unit :=
  fun w => (Ret tt, World (files w) (stdout w ++ [m])).

(** [pyexiv2.ImageMetadata(filename)] followed by [read()]. *)
Definition read_metadata (filename : string) : M (gmap string exif_value) :=
  fun w =>
    match files w !! filename with
    | Some md => (Ret md, w)
    | None => (Raise (IOError filename), w)
    end.

(** [metadata.write()]. *)
Definition write_metadata (filename : string) (md : gmap string exif_value)
  : M unit :=
  fun w => (Ret tt, World (<[filename := md]> (files w)) (stdout w)).

(** [m[key].value]. *)
Definition tag_value (md : gmap string exif_value) (key : string)
  : outcome exif_value :=
  match md !! key with
  | None => Raise (KeyError key)
  | Some (ExifInvalid msg) => Raise (ValueError msg)
  | Some v => Ret v
  end.

(** [try: body except ValueError as e: handler(e)]; any other exception
    passes through, and what the body did before raising stays done. *)
Definition try_except_ValueError {A} (body : M A) (handler : string -> M A)
  : M A :=
  fun w =>
    match body w with
    | (Raise (ValueError msg), w') => handler msg w'
    | r => r
    end.

(** [for x in l: body(x)]. *)
Fixpoint for_each {A} (l : list A) (body : A -> M unit) : M unit :=
  match l with
  | [] => ret tt
  | x :: l' => body x ;;; for_each l' body
  end.

(** [[f(x) for x in l]]. *)
Fixpoint map_M {A B} (f : A -> M B) (l : list A) : M (list B) :=
  match l with
  | [] => ret []
  | x :: l' => y <- f x ;; ys <- map_M f l' ;; ret (y :: ys)
  end.

(** ** The GPS track *)

(** What gpxpy yields for a parsed file. *)
Record gpx_point := GpxPoint {
  time : datetime;
  latitude : Q;
  longitude : Q;
  elevation : option Q
}.

Record gpx_segment := GpxSegment { points : list gpx_point }.

Record gpx_track := GpxTrack { segments : list gpx_segment }.

Record gpx := Gpx {
  tracks : list gpx_track;
  waypoints : list gpx_point
}.

(** The tuples [(time, lat, lon, elevation)] the loader returns. *)
Definition sample : Type := datetime * Q * Q * option Q.

Definition sample_time (s : sample) : datetime :=
  let '(t, _, _, _) := s in t.

(** Ordering of an optional elevation: [None] sorts before every number
    (the ordering of Python 2). *)
Definition elevation_compare (a b : option Q) : comparison :=
  match a, b with
  | None, None => Eq
  | None, Some _ => Lt
  | Some _, None => Gt
  | Some x, Some y => (x ?= y)%Q
  end.

(** [a < b] on tuples: the first component that differs decides. *)
Definition sample_lt (a b : sample) : bool :=
  let '(ta, lata, lona, ea) := a in
  let '(tb, latb, lonb, eb) := b in
  match ta ?= tb with
  | Lt => true
  | Gt => false
  | Eq =>
      match (lata ?= latb)%Q with
      | Lt => true
      | Gt => false
      | Eq =>
          match (lona ?= lonb)%Q with
          | Lt => true
          | Gt => false
          | Eq =>
              match elevation_compare ea eb with
              | Lt => true
              | _ => false
              end
          end
      end
  end.

(** [list.sort()] is a stable sort by [<]; on a strict weak order every
    stable sort returns the same list, here computed by insertion. *)
Fixpoint sort_insert (x : sample) (l : list sample) : list sample :=
  match l with
  | [] => [x]
  | y :: l' => if sample_lt y x then y :: sort_insert x l' else x :: l
  end.

Definition list_sort (l : list sample) : list sample :=
  foldr sort_insert [] l.

(** ** Command line arguments *)

Record arguments := Args {
  gpx_file : string;
  time_offset : Q;
  interval : Q;
  localtime : bool;
  verbose : bool;
  bearing_offset : Q
}.

Definition onesecond : timedelta := 1000000.

(** ** Python text *)

(** [str(k)] on an integer: its decimal digits, with a minus sign when
    negative. *)
Definition str_of_int (k : Z) : string :=
  NilZero.string_of_int (Z.to_int k).

(** [c.lower()] on one character: the ASCII capitals move to small
    letters. *)
Definition lower_ascii (c : ascii) : ascii :=
  let n := nat_of_ascii c in
  if ((65 <=? n) && (n <=? 90))%nat then ascii_of_nat (n + 32) else c.

(** [s.lower()]. *)
Fixpoint lower (s : string) : string :=
  match s with
  | EmptyString => EmptyString
  | String c s' => String (lower_ascii c) (lower s')
  end.

(** [s.endswith(suffix)]. *)
Definition endswith (s suffix : string) : bool :=
  let n := String.length s in
  let k := String.length suffix in
  (k <=? n)%nat && String.eqb (substring (n - k) k s) suffix.

(** [str(q)] on a fraction: lowest terms, the denominator left out when it
    is one. *)
Definition str_of_fraction (q : Q) : string :=
  let r := Qred q in
  if (Qden r =? 1)%positive then str_of_int (Qnum r)
  else (str_of_int (Qnum r) ++ "/" ++ str_of_int (Z.pos (Qden r)))%string.

(** ** Assigning EXIF values *)

(** The [ValueError] of pyexiv2 for a fraction that a tag of the unsigned
    EXIF type Rational cannot hold. *)
Definition invalid_rational (q : Q) : exception :=
  ValueError
    ("Invalid value for EXIF type [Rational]: [" ++ str_of_fraction q ++ "]").

(** [metadata[key] = value] on the GPS tags: the fractions of these tags
    are of EXIF type Rational, which holds no fraction below zero; the
    fractions of a tuple are converted in order and the first one below zero
    is the one reported.  Text and integers are taken as they come. *)
Definition set_tag (metadata : gmap string exif_value) (key : string)
    (value : exif_value) : outcome (gmap string exif_value) :=
  match value with
  | ExifFraction q =>
      if Qle_bool 0 q then Ret (<[key := value]> metadata)
      else Raise (invalid_rational q)
  | ExifTriple d m s =>
      if Qle_bool 0 d then
        if Qle_bool 0 m then
          if Qle_bool 0 s then Ret (<[key := value]> metadata)
          else Raise (invalid_rational s)
        else Raise (invalid_rational m)
      else Raise (invalid_rational d)
  | _ => Ret (<[key := value]> metadata)
  end.

(** [datetime.timedelta(seconds=n)] for an integer [n]. *)
Definition timedelta_whole_seconds (n : Z) : timedelta := 1000000 * n.

(** ** The date-fixing script

    [python/add_fix_dates.py]: every image found under a path gets a
    capture time, a start time plus a running offset.  The module has its
    own output lines and its own failures; image files are as above. *)

Module FixDates.

Inductive failure :=
| NameError (name : string)
| ValueError (msg : string)
| IOError (msg : string).

Inductive result (A : Type) :=
| Done (a : A)
| Failed (e : failure).
Arguments Done {A} a.
Arguments Failed {A} e.

(** A printed line:
    - [MsgSetting]: "setting {0} time to {1} due to offset {2}";
    - [MsgSkipping]: "Skipping {0}: {1}";
    - [MsgNotFound]: "ERROR: {} is neither a JPEG file nor a directory.",
      on standard error. *)
Inductive message :=
| MsgSetting (filename : string) (t : datetime) (offset : Q)
| MsgSkipping (filename reason : string)
| MsgNotFound (path : string).

Record world := World {
  files : gmap string (gmap string exif_value);
  stdout : list message;
  stderr : list message
}.

Record arguments := Args {
  recurse : bool;
  verbose : bool;
  images_path : string;
  start_time : string;
  increment : Q
}.

(** [add_exif_using_timestamp(filename, start_time, offset_time, verbose)],
    lines 15-31.  Assigning a datetime and a text to the two tags does not
    raise, so the handler of the [try] is never entered.  The remainder and
    the product under [int] are exact here, where the float product can
    fall on the next millisecond: the theorems on a stamp with a fraction
    state distances, not the millisecond cut. *)
Definition add_exif_using_timestamp (filename : string)
    (start_time : datetime) (offset_time : Q) (verbose : bool) (w : world)
  : result unit * world :=
  match files w !! filename with
  | None => (Failed (IOError filename), w)
  | Some metadata =>
      let t :=
        start_time + timedelta_whole_seconds (int_of_float offset_time) in
      let w :=
        if verbose
        then World (files w)
               (stdout w ++ [MsgSetting filename t offset_time]) (stderr w)
        else w in
      let metadata :=
        <["Exif.Photo.DateTimeOriginal" := ExifDatetime t]> metadata in
      let metadata :=
        <["Exif.Photo.SubSecTimeOriginal" :=
            ExifText
              (str_of_int (int_of_float (float_mod offset_time 1 * 1000)))]>
          metadata in
      (Done tt,
       World (<[filename := metadata]> (files w)) (stdout w) (stderr w))
  end.

(** [file_list.sort()] on file names: a stable sort by [<] on text, which
    compares character codes. *)
Fixpoint sort_insert (x : string) (l : list string) : list string :=
  match l with
  | [] => [x]
  | y :: l' => if String.ltb y x then y :: sort_insert x l' else x :: l
  end.

Definition list_sort (l : list string) : list string :=
  foldr sort_insert [] l.

(** The loop of lines 85-87, with the running offset [inc], summed
    exactly. *)
Fixpoint stamp_all (file_list : list string) (start_time_dt : datetime)
    (inc time_offset : Q) (verbose : bool) (w : world)
  : result unit * world :=
  match file_list with
  | [] => (Done tt, w)
  | filepath :: rest =>
      match add_exif_using_timestamp filepath start_time_dt inc verbose w with
      | (Done _, w') =>
          stamp_all rest start_time_dt (inc + time_offset)%Q time_offset
            verbose w'
      | (Failed e, w') => (Failed e, w')
      end
  end.

(** The script body, lines 63-87.  [isdir] is whether the path is a
    directory, [found] the image files the walk or the listing of that
    directory yields, and [strptime] the parser of the start time, giving
    whole seconds, or nothing where it raises. *)
Definition main (strptime : string -> option Z) (isdir : bool)
    (found : list string) (a : arguments) (w : world)
  : result unit * world :=
  let path := images_path a in
  let '(file_list, w) :=
    if endswith (lower path) ".jpg" then (Some [path], w)
    else if isdir then (Some found, w)
    else (None,
          World (files w) (stdout w) (stderr w ++ [MsgNotFound path])) in
  let inc := 0%Q in
  match file_list with
  | None => (Failed (NameError "file_list"), w)
  | Some file_list =>
      let file_list := list_sort file_list in
      match strptime (start_time a) with
      | None => (Failed (ValueError (start_time a)), w)
      | Some seconds =>
          let start_time_dt := timedelta_whole_seconds seconds in
          stamp_all file_list start_time_dt inc (increment a) (verbose a) w
      end
  end.

(** The running offset before the image of index [k]: the increment added
    [k] times to zero. *)
Fixpoint offset_at (time_offset : Q) (k : nat) : Q :=
  match k with
  | O => 0%Q
  | S k' => (offset_at time_offset k' + time_offset)%Q
  end.

(** What stamping with the offset [inc] leaves in an image's two time
    tags. *)
Definition stamped_with (start : datetime) (inc : Q)
    (md : gmap string exif_value) : Prop :=
  md !! "Exif.Photo.DateTimeOriginal" =
    Some (ExifDatetime
            (start + timedelta_whole_seconds (int_of_float inc))) /\
  md !! "Exif.Photo.SubSecTimeOriginal" =
    Some (ExifText (str_of_int (int_of_float (float_mod inc 1 * 1000)))).

End FixDates.

(** ** The specification's vocabulary

    Definitions that follow the words of the specification rather than the
    code; the theorems below compare the code with them. *)

Module Spec.

(** The largest and the smallest entry of a list, undefined on [[]]. *)
Definition maximum (l : list Z) : option Z :=
  match l with
  | [] => None
  | x :: xs => Some (fold_right Z.max x xs)
  end.

Definition minimum (l : list Z) : option Z :=
  match l with
  | [] => None
  | x :: xs => Some (fold_right Z.min x xs)
  end.

(** [m_i - i * interval] for the images from index [i] on. *)
Fixpoint offsets (T : timedelta) (i : nat) (ms : list datetime) : list Z :=
  match ms with
  | [] => []
  | m :: ms' => (m - Z.of_nat i * T) :: offsets T (S i) ms'
  end.

(** [lowerBound = max over i of (m_i - i * interval)]. *)
Definition lowerBound (T : timedelta) (ms : list datetime) : option Z :=
  maximum (offsets T 0 ms).

(** [upperBound = min over i of (m_i - i * interval + 1s)]. *)
Definition upperBound (T : timedelta) (ms : list datetime) : option Z :=
  minimum (map (fun o => o + onesecond) (offsets T 0 ms)).

(** The feasibility window is empty: [lowerBound > upperBound]. *)
Definition window_empty (T : timedelta) (ms : list datetime) : Prop :=
  exists lo hi,
    lowerBound T ms = Some lo /\ upperBound T ms = Some hi /\ lo > hi.

(** A time truncated to whole seconds. *)
Definition floor_second (t : datetime) : datetime :=
  onesecond * (t / onesecond).

(** Recorded times [floor (base + i * interval)] for [i = 0 .. n-1]. *)
Definition synthetic_times (base : datetime) (T : timedelta) (n : nat)
  : list datetime :=
  map (fun i => floor_second (base + Z.of_nat i * T)) (seq 0 n).

(** The same bounds with the interval as the real number of seconds it is
    given as, every term in microseconds: [m_i - i * interval]. *)
Fixpoint real_offsets (interval : Q) (i : nat) (ms : list datetime)
  : list Q :=
  match ms with
  | [] => []
  | m :: ms' =>
      (inject_Z m - inject_Z (Z.of_nat i) * (interval * inject_Z onesecond))%Q
      :: real_offsets interval (S i) ms'
  end.

Definition real_maximum (l : list Q) : option Q :=
  match l with
  | [] => None
  | x :: xs => Some (fold_right Qmax x xs)
  end.

Definition real_minimum (l : list Q) : option Q :=
  match l with
  | [] => None
  | x :: xs => Some (fold_right Qmin x xs)
  end.

Definition real_lowerBound (interval : Q) (ms : list datetime) : option Q :=
  real_maximum (real_offsets interval 0 ms).

Definition real_upperBound (interval : Q) (ms : list datetime) : option Q :=
  real_minimum
    (map (fun o => (o + inject_Z onesecond)%Q) (real_offsets interval 0 ms)).

Definition real_window_empty (interval : Q) (ms : list datetime) : Prop :=
  exists lo hi,
    real_lowerBound interval ms = Some lo /\
    real_upperBound interval ms = Some hi /\ (hi < lo)%Q.

(** Recorded times [floor (base + i * step)] for [i = 0 .. n-1], the base
    and the step real numbers of seconds. *)
Definition floor_times (base step : Q) (n : nat) : list datetime :=
  map (fun i => onesecond * Qfloor (base + inject_Z (Z.of_nat i) * step))
      (seq 0 n).

(** All recorded track-segment points followed by all waypoints. *)
Definition all_points (g : gpx) : list gpx_point :=
  concat (map points (concat (map segments (tracks g)))) ++ waypoints g.

(** A point as a sample, its time passed through [convert]. *)
Definition to_sample (convert : datetime -> datetime) (p : gpx_point)
  : sample :=
  (convert (time p), latitude p, longitude p, elevation p).

(** Non-decreasing in time. *)
Definition time_le (a b : sample) : Prop := sample_time a <= sample_time b.

End Spec.

(** ** Sample collaborators and inputs *)

Module Sample.

(** Text made of ASCII decimal digits, read as a number. *)
Definition digit (c : ascii) : option Z :=
  let n := Z.of_nat (nat_of_ascii c) in
  if (48 <=? n) && (n <=? 57) then Some (n - 48) else None.

Fixpoint digits (acc : Z) (s : string) : option Z :=
  match s with
  | EmptyString => Some acc
  | String c s' =>
      match digit c with
      | Some d => digits (10 * acc + d) s'
      | None => None
      end
  end.

Definition int_of_text (s : string) : option Z :=
  match s with
  | EmptyString => None
  | _ => digits 0 s
  end.

(** A host whose local time is two hours ahead of UTC. *)
Definition utc_to_localtime (t : datetime) : datetime := t + 7200 * onesecond.

(** An interpolator that knows one position and refuses times outside the
    track. *)
Definition interpolate_lat_lon (pts : list sample) (t : datetime)
  : outcome (Q * Q * Q * option Q) :=
  match pts with
  | [] => Raise (IndexError "list index out of range")
  | p :: _ =>
      if (t <? sample_time p) || (sample_time (List.last pts p) <? t)
      then Raise (ValueError "Time t not in scope of gpx file.")
      else let '(_, lat, lon, ele) := p in Ret (lat, lon, 0%Q, ele)
  end.

Definition decimal_to_dms (value : Q) (neg pos : string)
  : Z * Q * Q * string :=
  let a := Qabs value in
  let deg := int_of_float a in
  let t1 := ((a - inject_Z deg) * 60)%Q in
  let mint := int_of_float t1 in
  let sec := ((t1 - inject_Z mint) * 60)%Q in
  (deg, inject_Z mint, sec,
   if Qle_bool value 0 then (if Qle_bool 0 value then "" else neg) else pos).

(** The same interpolator for a camera that looks 90.567 degrees from
    north. *)
Definition interpolate_heading (pts : list sample) (t : datetime)
  : outcome (Q * Q * Q * option Q) :=
  match interpolate_lat_lon pts t with
  | Ret (lat, lon, _, ele) => Ret (lat, lon, 90567 # 1000, ele)
  | Raise e => Raise e
  end.

(** An image whose capture time is the whole second [t]. *)
Definition image_at (seconds : Z) : gmap string exif_value :=
  {[ "Exif.Photo.DateTimeOriginal" := ExifDatetime (seconds * onesecond);
     "Exif.Photo.SubSecTimeOriginal" := ExifText "0" ]}.

(** An image with a capture time and no sub-second field. *)
Definition image_without_subsec (seconds : Z) : gmap string exif_value :=
  {[ "Exif.Photo.DateTimeOriginal" := ExifDatetime (seconds * onesecond) ]}.

(** An image with no capture time at all. *)
Definition image_without_time : gmap string exif_value := ∅.

(** Three images recorded at seconds 0, 0 and 5. *)
Definition burst : world :=
  World {[ "a.jpg" := image_at 0; "b.jpg" := image_at 0;
           "c.jpg" := image_at 5 ]} [].

(** Six images recorded at seconds 0, 0, 0, 1, 1 and 2. *)
Definition drift : world :=
  World {[ "a.jpg" := image_at 0; "b.jpg" := image_at 0;
           "c.jpg" := image_at 0; "d.jpg" := image_at 1;
           "e.jpg" := image_at 1; "f.jpg" := image_at 2 ]} [].

Definition drift_files : list string :=
  ["a.jpg"; "b.jpg"; "c.jpg"; "d.jpg"; "e.jpg"; "f.jpg"].

Definition drift_times : list datetime :=
  [0; 0; 0; 1000000; 1000000; 2000000].

(** Shots 0.33333345 seconds apart. *)
Definition drift_interval : Q := 33333345 # 100000000.

(** Three images recorded at seconds 10, 12 and 14. *)
Definition steady : world :=
  World {[ "a.jpg" := image_at 10; "b.jpg" := image_at 12;
           "c.jpg" := image_at 14 ]} [].

(** One image without a sub-second field, one without a capture time. *)
Definition partial : world :=
  World {[ "a.jpg" := image_without_subsec 10;
           "b.jpg" := image_without_time ]} [].

(** A track of two segments and one waypoint, recorded out of order. *)
Definition track_file : gpx :=
  Gpx [GpxTrack [GpxSegment [GpxPoint (20 * onesecond) 10 20 (Some 100%Q);
                             GpxPoint (30 * onesecond) 11 21 None];
                 GpxSegment [GpxPoint (5 * onesecond) 9 19 (Some 90%Q)]]]
      [GpxPoint (25 * onesecond) 12 22 None].

(** A track file with neither tracks nor waypoints. *)
Definition empty_track_file : gpx := Gpx [] [].

Definition options : arguments :=
  Args "track.gpx" 0 0 false false 0.

(** Options for a camera mounted backwards. *)
Definition options_reversed : arguments :=
  Args "track.gpx" 0 0 false false (-180).

(** An image taken at second 10 with the sub-second field "250". *)
Definition image_with_subsec : gmap string exif_value :=
  {[ "Exif.Photo.DateTimeOriginal" := ExifDatetime (10 * onesecond);
     "Exif.Photo.SubSecTimeOriginal" := ExifText "250" ]}.

Definition precise : world := World {[ "a.jpg" := image_with_subsec ]} [].

(** A track file whose points are in the order of their times. *)
Definition ordered_track_file : gpx :=
  Gpx [GpxTrack [GpxSegment [GpxPoint (5 * onesecond) 9 19 None;
                             GpxPoint (20 * onesecond) 10 20 None]]]
      [GpxPoint (25 * onesecond) 12 22 None].

(** Options that ask for refinement with shots two seconds apart. *)
Definition options_interval : arguments :=
  Args "track.gpx" 0 2 false false 0.

(** Two untagged images for the date-fixing script, found in the order
    "b.jpg", "a.jpg". *)
Definition untagged : FixDates.world :=
  FixDates.World {[ "a.jpg" := (∅ : gmap string exif_value);
                    "b.jpg" := (∅ : gmap string exif_value) ]} [] [].

Definition found : list string := ["b.jpg"; "a.jpg"].

(** A start time parser that knows one start time, second 1000. *)
Definition strptime (s : string) : option Z :=
  if String.eqb s "2014-11-27 13:01:01" then Some 1000 else None.

(** Dates for a directory, one image every second and a half. *)
Definition fix_options : FixDates.arguments :=
  FixDates.Args false false "photos" "2014-11-27 13:01:01" 1.5.

End Sample.

Section Geotag.

#[local] Set Default Proof Using "Type".

(** [lib.geo.utc_to_localtime]. *)
Variable utc_to_localtime : datetime -> datetime.

(** [lib.geo.interpolate_lat_lon(points, t)], returning
    [(lat, lon, bearing, elevation)] or raising. *)
Variable interpolate_lat_lon :
  list sample -> datetime -> outcome (Q * Q * Q * option Q).

(** [lib.geo.decimal_to_dms(value, [neg, pos])], returning
    [(degrees, minutes, seconds, hemisphere)]. *)
Variable decimal_to_dms : Q -> string -> string -> Z * Q * Q * string.

(** The built-in [int] on text; [None] where it raises [ValueError]. *)
Variable int_of_text : string -> option Z.

(** *** Track loader *)

(** [get_lat_lon_time(gpx_file, use_localtime)], lines 47-66, on the parsed
    file. *)
Definition get_lat_lon_time (g : gpx) (use_localtime : bool) : list sample :=
  let append (pts : list sample) (point : gpx_point) : list sample :=
    if use_localtime
    then pts ++ [(utc_to_localtime (time point), latitude point,
                  longitude point, elevation point)]
    else pts ++ [(time point, latitude point, longitude point,
                  elevation point)] in
  let pts : list sample := [] in
  let pts :=
    if (0 <? length (tracks g))%nat
    then fold_left (fun pts track =>
           fold_left (fun pts segment =>
             fold_left append (points segment) pts)
             (segments track) pts)
           (tracks g) pts
    else pts in
  let pts :=
    if (0 <? length (waypoints g))%nat
    then fold_left append (waypoints g) pts
    else pts in
  list_sort pts.

(** *** Capture time reader *)

(** [int(v)] on a tag value. *)
Definition py_int (v : exif_value) : outcome Z :=
  match v with
  | ExifText s =>
      match int_of_text s with
      | Some k => Ret k
      | None =>
          Raise (ValueError ("invalid literal for int() with base 10: " ++ s))
      end
  | ExifInt n => Ret n
  | ExifFraction q => Ret (int_of_float q)
  | _ => Raise (TypeError "int() argument must be a string or a number")
  end.

(** [exif_time(filename)], lines 130-145.  The local [image_time] is
    unbound ([None]) until its assignment has run. *)
Definition exif_time (filename : string) : M datetime :=
  m <- read_metadata filename ;;
  let '(image_time, image_millisec, raised) :=
    match tag_value m "Exif.Photo.DateTimeOriginal" with
    | Raise e => (None, 0, Some e)
    | Ret v =>
        match
          match tag_value m "Exif.Photo.SubSecTimeOriginal" with
          | Raise e => Raise e
          | Ret s => py_int s
          end
        with
        | Raise e => (Some v, 0, Some e)
        | Ret k => (Some v, k, None)
        end
    end in
  match raised with
  | None => ret tt
  | Some (ValueError msg) => print (MsgExifValueError filename msg)
  | Some (KeyError key) => print (MsgExifKeyError filename key)
  | Some e => raise e
  end ;;;
  match image_time with
  | None => raise (UnboundLocalError "image_time")
  | Some (ExifDatetime t) => ret (t + timedelta_milliseconds image_millisec)
  | Some _ => raise (TypeError "unsupported operand type(s) for +")
  end.

(** *** Sub-second time estimator *)

(** The loop of lines 161-169.  [bounds] holds the locals [smin] and
    [smax], unbound ([None]) before the first iteration. *)
Fixpoint window_loop (T : timedelta) (i : nat) (fs : list string)
    (bounds : option (datetime * datetime))
  : M (option (datetime * datetime)) :=
  match fs with
  | [] => ret bounds
  | f :: fs' =>
      m <- exif_time f ;;
      bounds' <-
        (if (i =? 0)%nat
         then ret (m, m + onesecond)
         else
           match bounds with
           | None => raise (UnboundLocalError "smin")
           | Some (smin, smax) =>
               let m0 := m - T * Z.of_nat i in
               ret (Z.max smin m0, Z.min smax (m0 + onesecond))
           end) ;;
      window_loop T (S i) fs' (Some bounds')
  end.

(** [estimate_sub_second_time(files, interval)], lines 148-176; the Python
    [None] it returns on failure is [None] here. *)
Definition estimate_sub_second_time (fs : list string) (interval : Q)
  : M (option (list datetime)) :=
  if Qle_bool interval 0
  then ts <- map_M exif_time fs ;; ret (Some ts)
  else
    let T := timedelta_seconds interval in
    bounds <- window_loop T 0 fs None ;;
    match bounds with
    | None => raise (UnboundLocalError "smin")
    | Some (smin, smax) =>
        if smax <? smin
        then print MsgIntervalIncompatible ;;; ret None
        else
          let s := smin + timedelta_half (smax - smin) in
          ret (Some (map (fun i => s + T * Z.of_nat i) (seq 0 (length fs))))
    end.

(** *** Tag writer *)

(** [add_exif_using_timestamp], lines 81-127.  Inside the [try] the
    interpolator can raise, and so can every assignment of a fraction to a
    tag; the handler takes any [ValueError].  The products that [int] cuts
    are exact products here, where a float product can fall on the next
    whole number: the theorems on the written direction and altitude state
    ranges and distances, not the digit cut. *)
Definition add_exif_using_timestamp (filename : string) (time : datetime)
    (points : list sample) (offset_time : Q) (bearing_offset : Q)
    (verbose : bool) : M unit :=
  metadata <- read_metadata filename ;;
  let t := time - timedelta_seconds offset_time in
  try_except_ValueError
    (fix_ <- lift (interpolate_lat_lon points t) ;;
     let '(lat, lon, bearing, elevation) := fix_ in
     let bearing := add_bearing_offset bearing bearing_offset in
     let '(lat_d, lat_m, lat_s, lat_ref) := decimal_to_dms lat "S" "N" in
     let '(lon_d, lon_m, lon_s, lon_ref) := decimal_to_dms lon "W" "E" in
     let exiv_lat :=
       ExifTriple (make_fraction lat_d 1)
                  (make_fraction (int_of_float lat_m) 1)
                  (make_fraction (int_of_float (lat_s * 1000000)) 1000000) in
     let exiv_lon :=
       ExifTriple (make_fraction lon_d 1)
                  (make_fraction (int_of_float lon_m) 1)
                  (make_fraction (int_of_float (lon_s * 1000000)) 1000000) in
     let exiv_bearing := make_fraction (int_of_float (bearing * 100)) 100 in
     metadata <- lift (set_tag metadata "Exif.GPSInfo.GPSLatitude" exiv_lat) ;;
     metadata <- lift (set_tag metadata "Exif.GPSInfo.GPSLatitudeRef"
                         (ExifText lat_ref)) ;;
     metadata <- lift (set_tag metadata "Exif.GPSInfo.GPSLongitude"
                         exiv_lon) ;;
     metadata <- lift (set_tag metadata "Exif.GPSInfo.GPSLongitudeRef"
                         (ExifText lon_ref)) ;;
     metadata <- lift (set_tag metadata "Exif.Image.GPSTag" (ExifInt 654)) ;;
     metadata <- lift (set_tag metadata "Exif.GPSInfo.GPSMapDatum"
                         (ExifText "WGS-84")) ;;
     metadata <- lift (set_tag metadata "Exif.GPSInfo.GPSVersionID"
                         (ExifText "2 0 0 0")) ;;
     metadata <- lift (set_tag metadata "Exif.GPSInfo.GPSImgDirection"
                         (ExifFraction exiv_bearing)) ;;
     metadata <- lift (set_tag metadata "Exif.GPSInfo.GPSImgDirectionRef"
                         (ExifText "T")) ;;
     metadata <-
       match elevation with
       | Some e =>
           let exiv_elevation :=
             make_fraction (Z.abs (int_of_float (e * 10))) 10 in
           metadata <- lift (set_tag metadata "Exif.GPSInfo.GPSAltitude"
                               (ExifFraction exiv_elevation)) ;;
           lift (set_tag metadata "Exif.GPSInfo.GPSAltitudeRef"
                   (ExifText (if Qle_bool 0 e then "0" else "1")))
       | None => ret metadata
       end ;;
     write_metadata filename metadata ;;;
     if verbose
     then print (MsgAdded filename time lat lon elevation bearing)
     else ret tt)
    (fun e => print (MsgSkipping filename e)).

(** *** Entry point *)

(** The batch loop of lines 247-248. *)
Definition tag_images (a : arguments) (track : list sample)
    (batch : list (string * datetime)) : M unit :=
  for_each batch (fun '(filepath, filetime) =>
    add_exif_using_timestamp filepath filetime track
      (time_offset a) (bearing_offset a) (verbose a)).

(** The script body, lines 213-250, given the file list found under the
    path and the parsed track file. *)
Definition main (a : arguments) (file_list : list string) (g : gpx)
  : M unit :=
  (if localtime a then print MsgLocalTimezone else ret tt) ;;;
  print MsgReadingFileList ;;;
  print MsgEstimating ;;;
  sub_second_times <- estimate_sub_second_time file_list (interval a) ;;
  match sub_second_times with
  | None | Some [] => raise (SystemExit 1)
  | Some times =>
      print MsgReadingGpx ;;;
      let use_localtime := if localtime a then true else false in
      let track := get_lat_lon_time g use_localtime in
      print (MsgStarting (length file_list) (gpx_file a)) ;;;
      tag_images a track (combine file_list times) ;;;
      print (MsgDone (length file_list))
  end.

(** *** Vocabulary of the statements *)

(** A computation that leaves the image files alone and only adds lines to
    the output. *)
Definition prints_only {A} (m : M A) : Prop :=
  forall fs out,
    m (World fs out) =
    (fst (m (World fs [])), World fs (out ++ stdout (snd (m (World fs []))))).

(** The capture times [ms] are what [exif_time] reads from the images [fs],
    in order, in the world [w]. *)
Definition recorded (w : world) (fs : list string) (ms : list datetime)
  : Prop :=
  Forall2 (fun f m => fst (exif_time f w) = Ret m) fs ms.

(** The time at which the track is asked for an image's position. *)
Definition query_time (a : arguments) (t : datetime) : datetime :=
  t - timedelta_seconds (time_offset a).

(** One turn of the batch loop. *)
Definition tag_image (a : arguments) (track : list sample) (f : string)
    (t : datetime) : M unit :=
  add_exif_using_timestamp f t track
    (time_offset a) (bearing_offset a) (verbose a).

(** The estimator gives up: it returns [None] after printing that the
    interval does not fit. *)
Definition signals_failure (r : outcome (option (list datetime)) * world)
  : Prop :=
  fst r = Ret None /\ last (stdout (snd r)) = Some MsgIntervalIncompatible.

(** The world once the entry point has printed its opening lines. *)
Definition announced (a : arguments) (w : world) : world :=
  snd (((if localtime a then print MsgLocalTimezone else ret tt) ;;;
        print MsgReadingFileList ;;;
        print MsgEstimating) w).

(** The sub-second field of an image cannot be read as a number: it is
    missing, pyexiv2 cannot convert it, or it is text that [int] refuses. *)
Definition subsec_unreadable (md : gmap string exif_value) : Prop :=
  md !! "Exif.Photo.SubSecTimeOriginal" = None \/
  (exists msg,
     md !! "Exif.Photo.SubSecTimeOriginal" = Some (ExifInvalid msg)) \/
  (exists s,
     md !! "Exif.Photo.SubSecTimeOriginal" = Some (ExifText s) /\
     int_of_text s = None).

(** A printed line that names the image [f] and a reason for a problem
    with its capture time. *)
Definition reports_problem (f : string) (m : message) : Prop :=
  exists reason, m = MsgExifKeyError f reason \/ m = MsgExifValueError f reason.

(** A sample with its time passed through [convert]. *)
Definition shift_time (convert : datetime -> datetime) (s : sample) : sample :=
  let '(t, lat, lon, ele) := s in (convert t, lat, lon, ele).

(** Every point is recorded strictly later than the points before it, once
    its time has gone through [convert]. *)
Definition strictly_later (convert : datetime -> datetime)
    (ps : list gpx_point) : Prop :=
  StronglySorted (fun p q => convert (time p) < convert (time q)) ps.

(** The time conversion keeps earlier before later. *)
Definition order_preserving (convert : datetime -> datetime) : Prop :=
  forall s t, s < t -> convert s < convert t.

(** The capture time of an image cannot be had: the tag is missing or
    pyexiv2 cannot convert it. *)
Definition capture_time_unreadable (md : gmap string exif_value) : Prop :=
  md !! "Exif.Photo.DateTimeOriginal" = None \/
  exists msg, md !! "Exif.Photo.DateTimeOriginal" = Some (ExifInvalid msg).

(** The tags the tag writer may assign. *)
Definition gps_keys : list string :=
  ["Exif.GPSInfo.GPSLatitude"; "Exif.GPSInfo.GPSLatitudeRef";
   "Exif.GPSInfo.GPSLongitude"; "Exif.GPSInfo.GPSLongitudeRef";
   "Exif.Image.GPSTag"; "Exif.GPSInfo.GPSMapDatum";
   "Exif.GPSInfo.GPSVersionID"; "Exif.GPSInfo.GPSImgDirection";
   "Exif.GPSInfo.GPSImgDirectionRef"; "Exif.GPSInfo.GPSAltitude";
   "Exif.GPSInfo.GPSAltitudeRef"].

(** The image files named in a batch. *)
Definition batch_files (batch : list (string * datetime)) : list string :=
  map fst batch.


(** The degrees, minutes and seconds of a coordinate, as [decimal_to_dms]
    gives them, are not negative. *)
Definition unsigned_dms (r : Z * Q * Q * string) : Prop :=
  let '(d, m, s, _) := r in 0 <= d /\ (0 <= m)%Q /\ (0 <= s)%Q.
(** ** Bearing normaliser: properties *)

Lemma float_mod_range (x m : Q) :
  (0 < m)%Q -> (0 <= float_mod x m)%Q /\ (float_mod x m < m)%Q.
Proof.
  intros Hm. unfold float_mod.
  pose proof (Qfloor_le (x / m)) as Hlo.
  pose proof (Qlt_floor (x / m)) as Hhi.
  rewrite inject_Z_plus in Hhi.
  set (f := inject_Z (Qfloor (x / m))) in *.
  assert (Hx : (x == m * (x / m))%Q) by (field; lra).
  assert (H1 : (m * f <= m * (x / m))%Q)
    by (apply Qmult_le_l; assumption).
  assert (H2 : (m * (x / m) < m * (f + inject_Z 1))%Q)
    by (apply Qmult_lt_l; assumption).
  change (inject_Z 1) with 1%Q in H2.
  split; lra.
Qed.

(** A sum already in range is returned as it is; a sum of 360 or more is
    reduced into range. *)
Lemma add_bearing_offset_nonnegative_sum (bearing offset : Q) :
  (0 <= bearing + offset)%Q ->
  (0 <= add_bearing_offset bearing offset)%Q /\
  (add_bearing_offset bearing offset < 360)%Q.
Proof.
  intros Hr. unfold add_bearing_offset.
  destruct (Qle_bool 0 (bearing + offset)) eqn:H0.
  - destruct (Qle_bool 360 (bearing + offset)) eqn:H360; simpl.
    + apply float_mod_range. reflexivity.
    + split; [assumption|].
      apply Qnot_le_lt. intros Hle. apply Qle_bool_iff in Hle. congruence.
  - apply Qle_bool_iff in Hr. congruence.
Qed.

(** A negative sum comes back negated twice around the modulus: the result
    lies in (-360, 0]. *)
Lemma add_bearing_offset_negative_sum (bearing offset : Q) :
  (bearing + offset < 0)%Q ->
  (-360 < add_bearing_offset bearing offset)%Q /\
  (add_bearing_offset bearing offset <= 0)%Q.
Proof.
  intros Hr. unfold add_bearing_offset.
  destruct (Qle_bool 0 (bearing + offset)) eqn:H0.
  - apply Qle_bool_iff in H0. lra.
  - simpl. destruct (Qle_bool 360 (bearing + offset)) eqn:H360.
    + apply Qle_bool_iff in H360. lra.
    + destruct (float_mod_range (- (bearing + offset)) 360) as [Ha Hb];
        [reflexivity|]. split; lra.
Qed.

(** C1: for the bearing 90 and the offset -180 the negative sum -90 is
    returned unchanged, so the result is not in [0, 360); the in-range value
    is 270. *)
Theorem add_bearing_offset_leaves_range :
  (add_bearing_offset 90 (-180) == -90)%Q /\
  ~ (0 <= add_bearing_offset 90 (-180))%Q /\
  ~ (add_bearing_offset (-90) 360 == add_bearing_offset (-90) 0)%Q.
Proof.
  repeat split; vm_compute; congruence.
Qed.

(** ** Track loader: properties *)

Lemma sample_lt_true_time (a b : sample) :
  sample_lt a b = true -> sample_time a <= sample_time b.
Proof.
  destruct a as [[[ta la] oa] ea], b as [[[tb lb] ob] eb]; simpl.
  destruct (Z.compare_spec ta tb); intros; try lia; discriminate.
Qed.

Lemma sample_lt_false_time (a b : sample) :
  sample_lt a b = false -> sample_time b <= sample_time a.
Proof.
  destruct a as [[[ta la] oa] ea], b as [[[tb lb] ob] eb]; simpl.
  destruct (Z.compare_spec ta tb); intros; try lia; discriminate.
Qed.

Lemma sort_insert_Permutation (x : sample) (l : list sample) :
  Permutation (sort_insert x l) (x :: l).
Proof.
  induction l as [|y l IH]; simpl.
  - reflexivity.
  - destruct (sample_lt y x).
    + rewrite IH. apply perm_swap.
    + reflexivity.
Qed.

Lemma list_sort_Permutation (l : list sample) : Permutation (list_sort l) l.
Proof.
  induction l as [|x l IH]; simpl.
  - reflexivity.
  - rewrite sort_insert_Permutation. now constructor.
Qed.

Lemma sort_insert_sorted (x : sample) (l : list sample) :
  StronglySorted Spec.time_le l ->
  StronglySorted Spec.time_le (sort_insert x l).
Proof.
  induction 1 as [|y l Hs IH Hy]; simpl.
  - repeat constructor.
  - destruct (sample_lt y x) eqn:E.
    + constructor; [exact IH|].
      rewrite List.Forall_forall.
      intros z Hz. apply (Permutation_in _ (sort_insert_Permutation x l)) in Hz.
      destruct Hz as [<-|Hz].
      * now apply sample_lt_true_time.
      * rewrite List.Forall_forall in Hy. now apply Hy.
    + apply sample_lt_false_time in E.
      constructor; [now constructor|].
      constructor; [exact E|].
      eapply List.Forall_impl; [|exact Hy].
      unfold Spec.time_le in *. intros; lia.
Qed.

Lemma list_sort_sorted (l : list sample) :
  StronglySorted Spec.time_le (list_sort l).
Proof.
  induction l as [|x l IH]; simpl.
  - constructor.
  - now apply sort_insert_sorted.
Qed.

Lemma fold_left_append {A B} (f : A -> B) (l : list A) (acc : list B) :
  fold_left (fun pts p => pts ++ [f p]) l acc = acc ++ map f l.
Proof.
  revert acc. induction l as [|x l IH]; intros acc; simpl.
  - now rewrite app_nil_r.
  - rewrite IH, <- app_assoc. reflexivity.
Qed.

Lemma fold_left_segments {A B} (f : A -> B) (ss : list (list A))
    (acc : list B) :
  fold_left (fun pts s => fold_left (fun pts p => pts ++ [f p]) s pts) ss acc
  = acc ++ map f (concat ss).
Proof.
  revert acc. induction ss as [|s ss IH]; intros acc; simpl.
  - now rewrite app_nil_r.
  - rewrite IH, fold_left_append, map_app, app_assoc. reflexivity.
Qed.

(** The list the loader sorts: every point of every segment of every track,
    then every waypoint, each converted the same way. *)
Lemma get_lat_lon_time_unfold (g : gpx) (use_localtime : bool) :
  get_lat_lon_time g use_localtime =
  list_sort
    (map (Spec.to_sample (if use_localtime then utc_to_localtime else id))
         (Spec.all_points g)).
Proof.
  unfold get_lat_lon_time, Spec.all_points. f_equal.
  set (f := Spec.to_sample (if use_localtime then utc_to_localtime else id)).
  assert (Happ : forall (l : list gpx_point) (acc : list sample),
    fold_left (fun pts point =>
      if use_localtime
      then pts ++ [(utc_to_localtime (time point), latitude point,
                    longitude point, elevation point)]
      else pts ++ [(time point, latitude point, longitude point,
                    elevation point)]) l acc = acc ++ map f l).
  { intros l acc. rewrite <- fold_left_append. subst f.
    destruct use_localtime; reflexivity. }
  assert (Htracks : forall (ts : list gpx_track) (acc : list sample),
    fold_left (fun pts track =>
      fold_left (fun pts segment =>
        fold_left (fun pts point =>
          if use_localtime
          then pts ++ [(utc_to_localtime (time point), latitude point,
                        longitude point, elevation point)]
          else pts ++ [(time point, latitude point, longitude point,
                        elevation point)]) (points segment) pts)
        (segments track) pts) ts acc
    = acc ++ map f (concat (map points (concat (map segments ts))))).
  { induction ts as [|t ts IH]; intros acc; simpl.
    - now rewrite app_nil_r.
    - rewrite IH. rewrite map_app, concat_app, map_app, app_assoc. f_equal.
      generalize (segments t) as ss. intros ss. revert acc.
      induction ss as [|s ss IHs]; intros acc; simpl.
      + now rewrite app_nil_r.
      + rewrite IHs, Happ, map_app, app_assoc. reflexivity. }
  rewrite map_app.
  destruct (tracks g) as [|t ts] eqn:Et;
    destruct (waypoints g) as [|p ps] eqn:Ew;
    cbn [length Nat.ltb Nat.leb]; try reflexivity.
  - rewrite Happ. reflexivity.
  - rewrite Htracks. simpl. now rewrite app_nil_r.
  - rewrite Happ, Htracks. reflexivity.
Qed.

(** C7: the loader returns the track-segment points followed by the
    waypoints, reordered only (a permutation of the concatenation) into a
    sequence whose times never decrease; with the local-time flag every
    point's time goes through the UTC-to-local conversion, without it none
    does. *)
Theorem get_lat_lon_time_sorted_concatenation (g : gpx) (use_localtime : bool) :
  let convert := if use_localtime then utc_to_localtime else id in
  let loaded := get_lat_lon_time g use_localtime in
  loaded = list_sort (map (Spec.to_sample convert) (Spec.all_points g)) /\
  Permutation loaded (map (Spec.to_sample convert) (Spec.all_points g)) /\
  StronglySorted Spec.time_le loaded.
Proof.
  cbv zeta. rewrite get_lat_lon_time_unfold.
  split; [reflexivity|]. split.
  - apply list_sort_Permutation.
  - apply list_sort_sorted.
Qed.

(** C2 (amended): a track source without any point makes the loader return
    the empty sequence; the loader raises nothing. *)
Theorem get_lat_lon_time_empty (g : gpx) (use_localtime : bool) :
  Spec.all_points g = [] -> get_lat_lon_time g use_localtime = [].
Proof.
  intros Hnone. rewrite get_lat_lon_time_unfold, Hnone. reflexivity.
Qed.

(** ** The monad: stepping through a sequence *)

Lemma bind_Ret {A B} (m : M A) (k : A -> M B) (w w' : world) (a : A) :
  m w = (Ret a, w') -> bind m k w = k a w'.
Proof. intros H. unfold bind. now rewrite H. Qed.

Lemma bind_Raise {A B} (m : M A) (k : A -> M B) (w w' : world) e :
  m w = (Raise e, w') -> bind m k w = (Raise e, w').
Proof. intros H. unfold bind. now rewrite H. Qed.

(** Step over [read_metadata] for a file known, by [H], to exist. *)
Ltac read_file H :=
  erewrite bind_Ret by (unfold read_metadata; now rewrite H).

Lemma prints_only_ret {A} (a : A) : prints_only (ret a).
Proof. intros fs out. unfold ret. simpl. now rewrite app_nil_r. Qed.

Lemma prints_only_raise {A} e : prints_only (@raise A e).
Proof. intros fs out. unfold raise. simpl. now rewrite app_nil_r. Qed.

Lemma prints_only_print (m : message) : prints_only (print m).
Proof. intros fs out. reflexivity. Qed.

Lemma prints_only_bind {A B} (m : M A) (k : A -> M B) :
  prints_only m -> (forall a, prints_only (k a)) -> prints_only (bind m k).
Proof.
  intros Hm Hk fs out. unfold bind.
  rewrite (Hm fs out).
  destruct (m (World fs [])) as [[a|e] [fs1 out1]] eqn:E; simpl.
  - rewrite (Hm fs []) in E. simpl in E. injection E as _ <- _.
    rewrite (Hk a fs (out ++ out1)), (Hk a fs out1). simpl.
    now rewrite app_assoc.
  - rewrite (Hm fs []) in E. simpl in E. now injection E as _ <- _.
Qed.

Lemma prints_only_read_metadata (f : string) : prints_only (read_metadata f).
Proof.
  intros fs out. unfold read_metadata. simpl.
  destruct (fs !! f); simpl; now rewrite app_nil_r.
Qed.

Lemma prints_only_exif_time (f : string) : prints_only (exif_time f).
Proof.
  unfold exif_time. apply prints_only_bind.
  - apply prints_only_read_metadata.
  - intros md.
    destruct (tag_value md "Exif.Photo.DateTimeOriginal") as [v|e].
    + destruct (tag_value md "Exif.Photo.SubSecTimeOriginal") as [s|e].
      * destruct (py_int s) as [k|e]; apply prints_only_bind;
          try (intros _; destruct v);
          try destruct e;
          auto using @prints_only_ret, @prints_only_raise, prints_only_print.
      * apply prints_only_bind;
          try (intros _; destruct v);
          try destruct e;
          auto using @prints_only_ret, @prints_only_raise, prints_only_print.
    + apply prints_only_bind; try intros _; try destruct e;
        auto using @prints_only_ret, @prints_only_raise, prints_only_print.
Qed.

(** What a step yields does not depend on what was printed before. *)
Lemma prints_only_fst {A} (m : M A) (w w' : world) :
  prints_only m -> files w = files w' -> fst (m w) = fst (m w').
Proof.
  intros Hm Hf. destruct w as [fs out], w' as [fs' out'].
  simpl in Hf. subst fs'.
  now rewrite (Hm fs out), (Hm fs out').
Qed.

Lemma prints_only_run {A} (m : M A) (w : world) :
  prints_only m ->
  exists msgs, m w = (fst (m w), World (files w) (stdout w ++ msgs)).
Proof.
  intros Hm. destruct w as [fs out]. exists (stdout (snd (m (World fs [])))).
  rewrite (Hm fs out). reflexivity.
Qed.

Lemma recorded_files (w w' : world) fs ms :
  files w = files w' -> recorded w fs ms -> recorded w' fs ms.
Proof.
  intros Hf H. induction H; constructor; auto.
  rewrite <- H. symmetry.
  apply prints_only_fst; auto using prints_only_exif_time.
Qed.

Lemma exif_time_recorded (w : world) f m :
  fst (exif_time f w) = Ret m ->
  exists msgs, exif_time f w = (Ret m, World (files w) (stdout w ++ msgs)).
Proof.
  intros H. destruct (prints_only_run (exif_time f) w) as [msgs E];
    [apply prints_only_exif_time|].
  exists msgs. now rewrite E, H.
Qed.

(** ** Sub-second estimator: properties *)

Lemma fold_left_max (xs : list Z) (a : Z) :
  fold_left Z.max xs a = fold_right Z.max a xs.
Proof.
  revert a. induction xs as [|x xs IH]; intros a; simpl; [reflexivity|].
  rewrite IH. clear IH. induction xs as [|y ys IH]; simpl; lia.
Qed.

Lemma fold_left_min (xs : list Z) (a : Z) :
  fold_left Z.min xs a = fold_right Z.min a xs.
Proof.
  revert a. induction xs as [|x xs IH]; intros a; simpl; [reflexivity|].
  rewrite IH. clear IH. induction xs as [|y ys IH]; simpl; lia.
Qed.

Lemma fold_right_max_bound (xs : list Z) (a : Z) :
  let m := fold_right Z.max a xs in
  In m (a :: xs) /\ List.Forall (fun x => x <= m) (a :: xs).
Proof.
  induction xs as [|x xs IH]; simpl.
  - split; [now left|]. repeat constructor. lia.
  - destruct IH as [Hin Hall]. inversion Hall as [|? ? Ha Hxs]; subst.
    split.
    + destruct (Z.max_spec x (fold_right Z.max a xs)) as [[_ ->]|[_ ->]].
      * destruct Hin as [<-|Hin]; [now left|now right; right].
      * now right; left.
    + constructor; [lia|]. constructor; [lia|].
      eapply List.Forall_impl; [|exact Hxs]. simpl. intros; lia.
Qed.

Lemma fold_right_min_bound (xs : list Z) (a : Z) :
  let m := fold_right Z.min a xs in
  In m (a :: xs) /\ List.Forall (fun x => m <= x) (a :: xs).
Proof.
  induction xs as [|x xs IH]; simpl.
  - split; [now left|]. repeat constructor. lia.
  - destruct IH as [Hin Hall]. inversion Hall as [|? ? Ha Hxs]; subst.
    split.
    + destruct (Z.min_spec x (fold_right Z.min a xs)) as [[_ ->]|[_ ->]].
      * now right; left.
      * destruct Hin as [<-|Hin]; [now left|now right; right].
    + constructor; [lia|]. constructor; [lia|].
      eapply List.Forall_impl; [|exact Hxs]. simpl. intros; lia.
Qed.

(** [Spec.maximum] is the greatest entry and [Spec.minimum] the least. *)
Lemma maximum_greatest (l : list Z) (m : Z) :
  Spec.maximum l = Some m -> In m l /\ List.Forall (fun x => x <= m) l.
Proof.
  destruct l as [|a xs]; simpl; [discriminate|].
  intros [= <-]. apply fold_right_max_bound.
Qed.

Lemma minimum_least (l : list Z) (m : Z) :
  Spec.minimum l = Some m -> In m l /\ List.Forall (fun x => m <= x) l.
Proof.
  destruct l as [|a xs]; simpl; [discriminate|].
  intros [= <-]. apply fold_right_min_bound.
Qed.

Lemma positive_interval (interval : Q) :
  (0 < interval)%Q -> Qle_bool interval 0 = false.
Proof.
  intros H. destruct (Qle_bool interval 0) eqn:E; [|reflexivity].
  apply Qle_bool_iff in E. lra.
Qed.

(** The loop from a later image on: a running maximum and minimum over the
    remaining offsets. *)
Lemma window_loop_recorded (T : timedelta) (w : world) fs ms :
  recorded w fs ms ->
  forall (i : nat) (lo hi : datetime) (w' : world),
    files w' = files w -> i <> 0%nat ->
    exists msgs,
      window_loop T i fs (Some (lo, hi)) w' =
      (Ret (Some (fold_left Z.max (Spec.offsets T i ms) lo,
                  fold_left Z.min
                    (map (fun o => o + onesecond) (Spec.offsets T i ms)) hi)),
       World (files w') (stdout w' ++ msgs)).
Proof.
  induction 1 as [|f m fs ms Hf Hrest IH]; intros i lo hi w' Hw Hi.
  - exists []. simpl. unfold ret. rewrite app_nil_r. now destruct w'.
  - assert (Hf' : fst (exif_time f w') = Ret m).
    { rewrite <- Hf. apply prints_only_fst;
        auto using prints_only_exif_time. }
    destruct (exif_time_recorded _ _ _ Hf') as [msgs1 E1].
    cbn [window_loop Spec.offsets map fold_left].
    rewrite (bind_Ret _ _ _ _ _ E1).
    destruct (Nat.eqb_spec i 0) as [->|_]; [contradiction|].
    unfold ret at 1.
    erewrite bind_Ret by reflexivity.
    destruct (IH (S i) (Z.max lo (m - T * Z.of_nat i))
                (Z.min hi (m - T * Z.of_nat i + onesecond))
                (World (files w') (stdout w' ++ msgs1)))
      as [msgs2 E2]; [assumption|lia|].
    exists (msgs1 ++ msgs2). etransitivity; [exact E2|]. simpl.
    rewrite (Z.mul_comm (Z.of_nat i) T), app_assoc. reflexivity.
Qed.

(** The whole loop on a non-empty batch ends with the two bounds of the
    specification. *)
Lemma window_loop_bounds (T : timedelta) (w : world) fs ms :
  recorded w fs ms -> fs <> [] ->
  exists lo hi msgs,
    Spec.lowerBound T ms = Some lo /\
    Spec.upperBound T ms = Some hi /\
    window_loop T 0 fs None w =
    (Ret (Some (lo, hi)), World (files w) (stdout w ++ msgs)).
Proof.
  intros Hrec Hne. destruct Hrec as [|f m fs ms Hf Hrest]; [contradiction|].
  destruct (exif_time_recorded _ _ _ Hf) as [msgs1 E1].
  destruct (window_loop_recorded T w fs ms Hrest 1 m (m + onesecond)
              (World (files w) (stdout w ++ msgs1))) as [msgs2 E2];
    [reflexivity|lia|].
  exists (fold_left Z.max (Spec.offsets T 1 ms) m),
         (fold_left Z.min
            (map (fun o => o + onesecond) (Spec.offsets T 1 ms))
            (m + onesecond)),
         (msgs1 ++ msgs2).
  split; [|split].
  - unfold Spec.lowerBound. simpl. rewrite fold_left_max.
    do 2 f_equal. lia.
  - unfold Spec.upperBound. simpl. rewrite fold_left_min.
    do 2 f_equal. lia.
  - cbn [window_loop]. rewrite (bind_Ret _ _ _ _ _ E1).
    cbn [Nat.eqb]. unfold ret at 1. erewrite bind_Ret by reflexivity.
    etransitivity; [exact E2|]. simpl. now rewrite app_assoc.
Qed.

(** With refinement requested on a non-empty batch the estimator computes
    the two bounds and then either gives up or spreads the images from the
    middle of the window. *)
Lemma estimate_with_bounds (w : world) fs ms (interval : Q) :
  (0 < interval)%Q -> recorded w fs ms -> fs <> [] ->
  let T := timedelta_seconds interval in
  exists lo hi msgs,
    Spec.lowerBound T ms = Some lo /\
    Spec.upperBound T ms = Some hi /\
    estimate_sub_second_time fs interval w =
    if hi <? lo
    then (Ret None,
          World (files w) ((stdout w ++ msgs) ++ [MsgIntervalIncompatible]))
    else (Ret (Some (map (fun i => lo + (hi - lo) / 2 + Z.of_nat i * T)
                         (seq 0 (length fs)))),
          World (files w) (stdout w ++ msgs)).
Proof.
  intros Hpos Hrec Hne T.
  destruct (window_loop_bounds T w fs ms Hrec Hne)
    as (lo & hi & msgs & Hlo & Hhi & Hloop).
  exists lo, hi, msgs. split; [assumption|]. split; [assumption|].
  unfold estimate_sub_second_time. rewrite (positive_interval _ Hpos).
  fold T. rewrite (bind_Ret _ _ _ _ _ Hloop).
  destruct (hi <? lo).
  - reflexivity.
  - unfold ret, timedelta_half. do 3 f_equal.
    apply map_ext. intros i. lia.
Qed.

Lemma recorded_nil_iff (w : world) fs ms :
  recorded w fs ms -> (fs = [] <-> ms = []).
Proof. destruct 1; split; intros; congruence. Qed.

Lemma recorded_length (w : world) fs ms :
  recorded w fs ms -> length fs = length ms.
Proof. induction 1; simpl; congruence. Qed.

(** [datetime.timedelta(seconds=x)] is the whole number of microseconds
    nearest to [x] seconds. *)
Lemma timedelta_seconds_nearest (x : Q) :
  (Qabs (inject_Z (timedelta_seconds x) - x * 1000000) <= 1 # 2)%Q.
Proof.
  clear utc_to_localtime interpolate_lat_lon decimal_to_dms int_of_text.
  unfold timedelta_seconds, round_half_even.
  set (y := (x * 1000000)%Q). clearbody y.
  pose proof (Qfloor_le y) as Hlo. pose proof (Qlt_floor y) as Hhi.
  rewrite inject_Z_plus in Hhi. change (inject_Z 1) with 1%Q in Hhi.
  destruct (y - inject_Z (Qfloor y) ?= 1 # 2)%Q eqn:E.
  - apply Qeq_alt in E. destruct (Z.even (Qfloor y)).
    + apply Qabs_Qle_condition. split; lra.
    + rewrite inject_Z_plus. apply Qabs_Qle_condition.
      change (inject_Z 1) with 1%Q. split; lra.
  - apply Qlt_alt in E. apply Qabs_Qle_condition. split; lra.
  - apply Qgt_alt in E. rewrite inject_Z_plus.
    change (inject_Z 1) with 1%Q.
    apply Qabs_Qle_condition. split; lra.
Qed.

Lemma timedelta_seconds_close (x : Q) :
  (Qabs (inject_Z (timedelta_seconds x) - x * 1000000) < 1)%Q.
Proof.
  eapply Qle_lt_trans; [apply timedelta_seconds_nearest|reflexivity].
Qed.

(** A whole number less than one away from a whole number is that
    number. *)
Lemma whole_within_one (T k : Z) (x : Q) :
  (x == inject_Z k)%Q -> (Qabs (inject_Z T - x) < 1)%Q -> T = k.
Proof.
  clear utc_to_localtime interpolate_lat_lon decimal_to_dms int_of_text.
  intros Hx Hpin. apply Qabs_Qlt_condition in Hpin. destruct Hpin as [H1 H2].
  rewrite Hx in H1, H2.
  assert (Hlo : (inject_Z k < inject_Z (T + 1))%Q).
  { rewrite inject_Z_plus. change (inject_Z 1) with 1%Q. lra. }
  assert (Hhi : (inject_Z T < inject_Z (k + 1))%Q).
  { rewrite inject_Z_plus. change (inject_Z 1) with 1%Q. lra. }
  rewrite <- Zlt_Qlt in Hlo, Hhi. lia.
Qed.

(** The estimator at the interval its [timedelta] holds. *)
Lemma estimate_fails_at_timedelta (w : world) fs ms (interval : Q) :
  (0 < interval)%Q -> recorded w fs ms ->
  signals_failure (estimate_sub_second_time fs interval w) <->
  Spec.window_empty (timedelta_seconds interval) ms.
Proof.
  intros Hpos Hrec. destruct fs as [|f fs].
  - inversion Hrec; subst. unfold signals_failure, Spec.window_empty.
    unfold estimate_sub_second_time. rewrite (positive_interval _ Hpos).
    simpl. split.
    + intros [H _]. discriminate.
    + intros (lo & hi & H & _). discriminate.
  - destruct (estimate_with_bounds w (f :: fs) ms interval Hpos Hrec)
      as (lo & hi & msgs & Hlo & Hhi & E); [discriminate|].
    rewrite E. unfold signals_failure, Spec.window_empty. split.
    + intros [H _]. exists lo, hi. repeat split; try assumption.
      destruct (Z.ltb_spec hi lo); [lia|discriminate].
    + intros (lo' & hi' & Hlo' & Hhi' & Hgt).
      rewrite Hlo in Hlo'. rewrite Hhi in Hhi'.
      injection Hlo' as <-. injection Hhi' as <-.
      destruct (Z.ltb_spec hi lo); [|lia].
      simpl. split; [reflexivity|]. apply last_snoc.
Qed.

(** C3 (amended): for every interval above zero there is a whole number of
    microseconds [T] less than one microsecond from it, the interval as the
    estimator's [timedelta] holds it, such that on every sequence of
    recorded times the estimator gives up, returning no sequence and saying
    so, exactly when the largest [m_i - i * T] exceeds the smallest
    [m_i - i * T + 1s]. *)
Theorem estimate_fails_iff_timedelta_window_empty (interval : Q) :
  (0 < interval)%Q ->
  exists T : timedelta,
    (Qabs (inject_Z T - interval * 1000000) < 1)%Q /\
    forall (w : world) fs ms,
      recorded w fs ms ->
      signals_failure (estimate_sub_second_time fs interval w) <->
      Spec.window_empty T ms.
Proof.
  intros Hpos. exists (timedelta_seconds interval).
  split; [apply timedelta_seconds_close|].
  intros w fs ms Hrec. now apply estimate_fails_at_timedelta.
Qed.

Lemma estimate_midpoint_at_timedelta (w : world) fs ms (interval : Q)
    (lo hi : datetime) :
  (0 < interval)%Q -> recorded w fs ms ->
  let T := timedelta_seconds interval in
  Spec.lowerBound T ms = Some lo ->
  Spec.upperBound T ms = Some hi ->
  lo <= hi ->
  let base := lo + (hi - lo) / 2 in
  let refined := map (fun i => base + Z.of_nat i * T) (seq 0 (length fs)) in
  fst (estimate_sub_second_time fs interval w) = Ret (Some refined) /\
  length refined = length fs /\
  2 * base <= lo + hi <= 2 * base + 1.
Proof.
  intros Hpos Hrec T Hlo Hhi Hle base refined.
  assert (Hne : fs <> []).
  { intros Hnil. apply (recorded_nil_iff _ _ _ Hrec) in Hnil. subst ms.
    discriminate. }
  destruct (estimate_with_bounds w fs ms interval Hpos Hrec Hne)
    as (lo' & hi' & msgs & Hlo' & Hhi' & E).
  fold T in Hlo', Hhi'. rewrite Hlo in Hlo'. rewrite Hhi in Hhi'.
  injection Hlo' as <-. injection Hhi' as <-.
  rewrite E. destruct (Z.ltb_spec hi lo); [lia|].
  split; [reflexivity|]. split.
  - unfold refined. now rewrite length_map, length_seq.
  - unfold base. clear - Hle. Z.div_mod_to_equations. lia.
Qed.

(** C4 (amended): for every interval above zero there is a whole number of
    microseconds [T] less than one microsecond from it, the interval as the
    estimator's [timedelta] holds it, such that on every non-empty sequence
    of recorded times whose window [[lowerBound, upperBound]], taken with
    [T], is not empty, the estimator returns [base + i * T] for image [i] in
    the given order, [base] the middle of the window (to the microsecond,
    the resolution of a timestamp); one entry per image. *)
Theorem estimate_timedelta_midpoint_sequence (interval : Q) :
  (0 < interval)%Q ->
  exists T : timedelta,
    (Qabs (inject_Z T - interval * 1000000) < 1)%Q /\
    forall (w : world) fs ms (lo hi : datetime),
      recorded w fs ms ->
      Spec.lowerBound T ms = Some lo ->
      Spec.upperBound T ms = Some hi ->
      lo <= hi ->
      let base := lo + (hi - lo) / 2 in
      let refined :=
        map (fun i => base + Z.of_nat i * T) (seq 0 (length fs)) in
      fst (estimate_sub_second_time fs interval w) = Ret (Some refined) /\
      length refined = length fs /\
      2 * base <= lo + hi <= 2 * base + 1.
Proof.
  intros Hpos. exists (timedelta_seconds interval).
  split; [apply timedelta_seconds_close|].
  intros w fs ms lo hi Hrec Hlo Hhi Hle.
  now apply (estimate_midpoint_at_timedelta w fs ms interval lo hi).
Qed.

(** C5: with an interval of zero or less the estimator returns the
    recorded times as they are. *)
Theorem estimate_without_interval (w : world) fs ms (interval : Q) :
  (interval <= 0)%Q -> recorded w fs ms ->
  fst (estimate_sub_second_time fs interval w) = Ret (Some ms).
Proof.
  intros Hle Hrec. unfold estimate_sub_second_time.
  apply Qle_bool_iff in Hle. rewrite Hle.
  assert (Hmap : forall w', files w' = files w ->
            exists msgs, map_M exif_time fs w' =
                         (Ret ms, World (files w') (stdout w' ++ msgs))).
  { induction Hrec as [|f m fs ms Hf Hrest IH]; intros w' Hw.
    - exists []. simpl. unfold ret. rewrite app_nil_r. now destruct w'.
    - assert (Hf' : fst (exif_time f w') = Ret m).
      { rewrite <- Hf. apply prints_only_fst;
          auto using prints_only_exif_time. }
      destruct (exif_time_recorded _ _ _ Hf') as [msgs1 E1].
      destruct (IH (World (files w') (stdout w' ++ msgs1)) Hw)
        as [msgs2 E2].
      exists (msgs1 ++ msgs2). cbn [map_M].
      rewrite (bind_Ret _ _ _ _ _ E1), (bind_Ret _ _ _ _ _ E2).
      unfold ret. simpl. now rewrite app_assoc. }
  destruct (Hmap w eq_refl) as [msgs E].
  now rewrite (bind_Ret _ _ _ _ _ E).
Qed.

(** C10: on the empty image sequence with a positive interval the
    estimator returns nothing: reading the never assigned [smin] raises. *)
Theorem estimate_empty_unbound (w : world) (interval : Q) :
  (0 < interval)%Q ->
  estimate_sub_second_time [] interval w =
  (Raise (UnboundLocalError "smin"), w).
Proof.
  intros Hpos. unfold estimate_sub_second_time.
  rewrite (positive_interval _ Hpos). reflexivity.
Qed.

Lemma floor_second_bounds (t : datetime) :
  t - onesecond < Spec.floor_second t <= t.
Proof.
  clear utc_to_localtime interpolate_lat_lon decimal_to_dms int_of_text.
  unfold Spec.floor_second, onesecond. Z.div_mod_to_equations. lia.
Qed.

(** Every offset of a synthetic sequence lies within one second below the
    true base. *)
Lemma offsets_synthetic (base : datetime) (T : timedelta) (k i : nat) :
  List.Forall (fun o => base - onesecond < o <= base)
    (Spec.offsets T i
       (map (fun j => Spec.floor_second (base + Z.of_nat j * T)) (seq i k))).
Proof.
  revert i. induction k as [|k IH]; intros i; simpl; constructor.
  - pose proof (floor_second_bounds (base + Z.of_nat i * T)). lia.
  - apply IH.
Qed.

Lemma synthetic_window (base : datetime) (T : timedelta) (n : nat)
    (lo hi : datetime) :
  Spec.lowerBound T (Spec.synthetic_times base T n) = Some lo ->
  Spec.upperBound T (Spec.synthetic_times base T n) = Some hi ->
  lo <= base < hi /\ hi <= lo + onesecond.
Proof.
  unfold Spec.lowerBound, Spec.upperBound, Spec.synthetic_times.
  intros Hlo Hhi.
  pose proof (offsets_synthetic base T n 0) as Hall.
  apply maximum_greatest in Hlo. destruct Hlo as [Hlo_in Hlo_all].
  apply minimum_least in Hhi. destruct Hhi as [Hhi_in Hhi_all].
  rewrite List.Forall_forall in Hall, Hlo_all, Hhi_all.
  apply in_map_iff in Hhi_in. destruct Hhi_in as (o & <- & Ho).
  pose proof (Hall _ Hlo_in). pose proof (Hall _ Ho).
  assert (o + onesecond <= lo + onesecond).
  { apply Hhi_all. apply in_map_iff. now exists lo. }
  lia.
Qed.

Lemma floor_unique (x : Q) (z : Z) :
  (inject_Z z <= x)%Q -> (x < inject_Z z + 1)%Q -> Qfloor x = z.
Proof.
  clear utc_to_localtime interpolate_lat_lon decimal_to_dms int_of_text.
  intros Hlo Hhi. apply Z.le_antisymm.
  - apply Z.lt_succ_r. rewrite Zlt_Qlt. unfold Z.succ.
    rewrite inject_Z_plus. change (inject_Z 1) with 1%Q.
    pose proof (Qfloor_le x). lra.
  - apply Qfloor_resp_le in Hlo. now rewrite Qfloor_Z in Hlo.
Qed.

(** A floor of whole seconds does not see what a time has below the
    microsecond. *)
Lemma floor_times_microseconds (base : Q) (T : timedelta) (n : nat) :
  Spec.floor_times base (inject_Z T / inject_Z onesecond) n =
  Spec.synthetic_times (Qfloor (base * inject_Z onesecond)) T n.
Proof.
  clear utc_to_localtime interpolate_lat_lon decimal_to_dms int_of_text.
  unfold Spec.floor_times, Spec.synthetic_times, Spec.floor_second.
  apply map_ext. intros i. f_equal.
  assert (Hs : (inject_Z onesecond == 1000000)%Q) by reflexivity.
  pose proof (Qfloor_le (base * inject_Z onesecond)) as Hlo.
  pose proof (Qlt_floor (base * inject_Z onesecond)) as Hhi.
  rewrite inject_Z_plus in Hhi. change (inject_Z 1) with 1%Q in Hhi.
  set (b := Qfloor (base * inject_Z onesecond)) in *. clearbody b.
  set (k := Z.of_nat i * T).
  assert (Hq : onesecond * ((b + k) / onesecond) <= b + k /\
               b + k + 1 <= onesecond * ((b + k) / onesecond) + onesecond).
  { unfold onesecond. Z.div_mod_to_equations. lia. }
  set (q := (b + k) / onesecond) in *. clearbody q.
  destruct Hq as [Hq1 Hq2]. rewrite Zle_Qle in Hq1, Hq2.
  rewrite inject_Z_mult, inject_Z_plus in Hq1.
  rewrite !inject_Z_plus, inject_Z_mult in Hq2.
  change (inject_Z 1) with 1%Q in Hq2.
  assert (Hk : (base + inject_Z (Z.of_nat i) * (inject_Z T / inject_Z onesecond)
                == (base * 1000000 + inject_Z k) / 1000000)%Q).
  { unfold k. rewrite inject_Z_mult, Hs. field. }
  rewrite (Qfloor_comp _ _ Hk). rewrite Hs in *.
  set (c := inject_Z k) in *. clearbody c. clear Hk k Hs.
  set (bq := inject_Z b) in *. set (qq := inject_Z q) in *.
  apply floor_unique; fold qq.
  - apply Qle_shift_div_l; [reflexivity|]. clearbody bq qq. lra.
  - apply Qlt_shift_div_r; [reflexivity|]. clearbody bq qq. lra.
Qed.

(** The estimator on times made with the interval its [timedelta] holds. *)
Lemma estimate_recovers_at_timedelta (w : world) fs (base : Q)
    (interval : Q) (n : nat) :
  (0 < interval)%Q -> (1 <= n)%nat ->
  let T := timedelta_seconds interval in
  recorded w fs (Spec.floor_times base (inject_Z T / inject_Z onesecond) n) ->
  exists (base' : datetime) (refined : list datetime),
    fst (estimate_sub_second_time fs interval w) = Ret (Some refined) /\
    refined = map (fun i => base' + Z.of_nat i * T) (seq 0 n) /\
    (Qabs (inject_Z base' / inject_Z onesecond - base) <= 1 # 2)%Q /\
    forall (i : nat) (a b : datetime),
      refined !! i = Some a -> refined !! S i = Some b -> b - a = T.
Proof.
  intros Hpos Hn T Hrec. rewrite floor_times_microseconds in Hrec.
  set (b0 := Qfloor (base * inject_Z onesecond)) in *.
  assert (Hlen : length fs = n).
  { rewrite (recorded_length _ _ _ Hrec). unfold Spec.synthetic_times.
    now rewrite length_map, length_seq. }
  assert (Hne : fs <> []) by (destruct fs; simpl in Hlen; [lia|discriminate]).
  destruct (estimate_with_bounds w fs _ interval Hpos Hrec Hne)
    as (lo & hi & msgs & Hlo & Hhi & E).
  fold T in Hlo, Hhi, E.
  destruct (synthetic_window b0 T n lo hi Hlo Hhi) as [Hbase Hwidth].
  exists (lo + (hi - lo) / 2),
         (map (fun i => lo + (hi - lo) / 2 + Z.of_nat i * T) (seq 0 n)).
  rewrite E. destruct (Z.ltb_spec hi lo) as [H|H]; [lia|]. rewrite Hlen.
  split; [reflexivity|]. split; [reflexivity|]. split.
  - assert (Hz : b0 <= lo + (hi - lo) / 2 + 499999 /\
                 lo + (hi - lo) / 2 <= b0 + 500000).
    { clear - Hbase Hwidth H. unfold onesecond in *.
      Z.div_mod_to_equations. lia. }
    pose proof (Qfloor_le (base * inject_Z onesecond)) as Hfl.
    pose proof (Qlt_floor (base * inject_Z onesecond)) as Hfu.
    fold b0 in Hfl, Hfu. rewrite inject_Z_plus in Hfu.
    destruct Hz as [Hz1 Hz2].
    set (mid := lo + (hi - lo) / 2) in *. clearbody mid.
    rewrite Zle_Qle in Hz1, Hz2.
    rewrite inject_Z_plus in Hz1, Hz2.
    assert (Hs : (inject_Z onesecond == 1000000)%Q) by reflexivity.
    change (inject_Z 1) with 1%Q in Hfu.
    change (inject_Z 499999) with 499999%Q in Hz1.
    change (inject_Z 500000) with 500000%Q in Hz2.
    rewrite Hs in *.
    set (c := inject_Z mid) in *. clearbody c.
    set (bq := inject_Z b0) in *. clearbody bq.
    clear - Hz1 Hz2 Hfl Hfu.
    apply Qabs_Qle_condition. split.
    + apply Qle_minus_iff.
      assert (Heq : (c / 1000000 - base + - - (1 # 2)
                     == (c - base * 1000000 + 500000) / 1000000)%Q) by field.
      rewrite Heq. apply Qle_shift_div_l; [reflexivity|]. lra.
    + apply Qle_minus_iff.
      assert (Heq : ((1 # 2) + - (c / 1000000 - base)
                     == (500000 - (c - base * 1000000)) / 1000000)%Q) by field.
      rewrite Heq. apply Qle_shift_div_l; [reflexivity|]. lra.
  - intros i a b Ha Hb.
    rewrite list_lookup_fmap in Ha, Hb.
    destruct (seq 0 n !! i) as [x|] eqn:Ex; [|discriminate].
    destruct (seq 0 n !! S i) as [y|] eqn:Ey; [|discriminate].
    apply lookup_seq in Ex, Ey. simpl in Ha, Hb.
    injection Ha as <-. injection Hb as <-. lia.
Qed.

(** C6 (amended): for every interval above zero there is a whole number of
    microseconds [T] less than one microsecond from it, the interval as the
    estimator's [timedelta] holds it, such that for every base time and
    every [n >= 1], recorded times made as [floor (base + i * T)] for
    [i = 0 .. n-1] make the estimator succeed with [base' + i * T] where
    [base'] is within half a second of [base], neighbouring entries exactly
    [T] apart. *)
Theorem estimate_recovers_real_base (interval : Q) :
  (0 < interval)%Q ->
  exists T : timedelta,
    (Qabs (inject_Z T - interval * 1000000) < 1)%Q /\
    forall (w : world) fs (base : Q) (n : nat),
      (1 <= n)%nat ->
      recorded w fs
        (Spec.floor_times base (inject_Z T / inject_Z onesecond) n) ->
      exists (base' : datetime) (refined : list datetime),
        fst (estimate_sub_second_time fs interval w) = Ret (Some refined) /\
        refined = map (fun i => base' + Z.of_nat i * T) (seq 0 n) /\
        (Qabs (inject_Z base' / inject_Z onesecond - base) <= 1 # 2)%Q /\
        forall (i : nat) (a b : datetime),
          refined !! i = Some a -> refined !! S i = Some b -> b - a = T.
Proof.
  intros Hpos. exists (timedelta_seconds interval).
  split; [apply timedelta_seconds_close|].
  intros w fs base n Hn Hrec.
  now apply (estimate_recovers_at_timedelta w fs base interval n).
Qed.

(** ** Tag writer: properties *)

Section TagWriter.

Variables (a : arguments) (track : list sample).

(** An image whose query time the interpolator refuses with a
    [ValueError]: one line of output, no file touched, normal return. *)
Lemma add_exif_skips (w : world) (f : string) (t : datetime) reason :
  is_Some (files w !! f) ->
  interpolate_lat_lon track (query_time a t) = Raise (ValueError reason) ->
  tag_image a track f t w =
  (Ret tt, World (files w) (stdout w ++ [MsgSkipping f reason])).
Proof.
  intros [md Hmd] Hint. unfold tag_image, add_exif_using_timestamp.
  read_file Hmd.
  unfold try_except_ValueError, bind, lift. fold (query_time a t).
  rewrite Hint. reflexivity.
Qed.

(** Any other exception of the interpolator leaves the tag writer. *)
Lemma add_exif_propagates (w : world) (f : string) (t : datetime) e :
  is_Some (files w !! f) ->
  interpolate_lat_lon track (query_time a t) = Raise e ->
  (forall reason, e <> ValueError reason) ->
  tag_image a track f t w = (Raise e, w).
Proof.
  intros [md Hmd] Hint Hother. unfold tag_image, add_exif_using_timestamp.
  read_file Hmd.
  unfold try_except_ValueError, bind, lift. fold (query_time a t).
  rewrite Hint. destruct e; try reflexivity.
  now destruct (Hother msg).
Qed.

(** A position found: the image is either rewritten, with one line of
    output when verbose, or skipped with one line of output because a
    fraction cannot be assigned; the writer returns either way. *)
Lemma add_exif_position (w : world) (f : string) (t : datetime) position :
  is_Some (files w !! f) ->
  interpolate_lat_lon track (query_time a t) = Ret position ->
  exists fs' msgs,
    tag_image a track f t w = (Ret tt, World fs' (stdout w ++ msgs)) /\
    (fs' = files w \/ exists md, fs' = <[f := md]> (files w)).
Proof.
  intros [md Hmd] Hint. unfold tag_image, add_exif_using_timestamp.
  read_file Hmd.
  unfold try_except_ValueError, bind, lift. fold (query_time a t).
  rewrite Hint. destruct position as [[[lat lon] bearing] ele].
  destruct (decimal_to_dms lat "S" "N") as [[[lat_d lat_m] lat_s] lat_ref].
  destruct (decimal_to_dms lon "W" "E") as [[[lon_d lon_m] lon_s] lon_ref].
  unfold set_tag, invalid_rational, write_metadata, print, ret.
  repeat match goal with
         | |- context [Qle_bool 0 (make_fraction ?n ?d)] =>
             destruct (Qle_bool 0 (make_fraction n d))
         end;
    try (eexists; eexists; split; [reflexivity|left; reflexivity]);
    destruct ele as [e|];
    repeat match goal with
           | |- context [Qle_bool 0 (make_fraction ?n ?d)] =>
               destruct (Qle_bool 0 (make_fraction n d))
           end;
    try (eexists; eexists; split; [reflexivity|left; reflexivity]);
    destruct (verbose a); simpl;
    try (eexists; eexists; split; [reflexivity|right; eexists; reflexivity]).
  all: eexists; exists []; rewrite app_nil_r;
    (split; [reflexivity|right; eexists; reflexivity]).
Qed.

(** The tag writer never removes an image file. *)
Lemma add_exif_keeps_files (w w' : world) (f : string) (t : datetime) r :
  tag_image a track f t w = (r, w') ->
  forall g, is_Some (files w !! g) -> is_Some (files w' !! g).
Proof.
  intros Hrun g Hg.
  destruct (files w !! f) as [md|] eqn:Hmd.
  - destruct (interpolate_lat_lon track (query_time a t))
      as [position|e] eqn:Hint.
    + destruct (add_exif_position w f t position)
        as (fs' & msgs & E & [->|[md' ->]]);
        [now rewrite Hmd|assumption| |];
        rewrite E in Hrun; injection Hrun as _ <-; simpl;
        [assumption|now apply lookup_insert_is_Some'; right].
    + assert (Hcases : (exists reason, e = ValueError reason) \/
                       (forall reason, e <> ValueError reason)).
      { destruct e; try (right; discriminate). left. now eexists. }
      destruct Hcases as [[reason ->]|Hother].
      * rewrite (add_exif_skips w f t reason) in Hrun;
          [|now rewrite Hmd|assumption].
        now injection Hrun as _ <-.
      * rewrite (add_exif_propagates w f t e) in Hrun;
          [|now rewrite Hmd|assumption|assumption].
        now injection Hrun as _ <-.
  - unfold tag_image, add_exif_using_timestamp in Hrun.
    erewrite bind_Raise in Hrun
      by (unfold read_metadata; now rewrite Hmd).
    now injection Hrun as _ <-.
Qed.

Lemma tag_images_keeps_files (batch : list (string * datetime))
    (w w' : world) r :
  tag_images a track batch w = (r, w') ->
  forall g, is_Some (files w !! g) -> is_Some (files w' !! g).
Proof.
  revert w. induction batch as [|[f t] batch IH]; intros w Hrun g Hg.
  - unfold tag_images in Hrun. simpl in Hrun. unfold ret in Hrun.
    now injection Hrun as _ <-.
  - unfold tag_images in Hrun. cbn [for_each] in Hrun. unfold bind in Hrun.
    fold (tag_image a track f t) in Hrun.
    destruct (tag_image a track f t w) as [[[]|e] w1] eqn:E1.
    + apply (IH w1); [exact Hrun|].
      eapply add_exif_keeps_files; eassumption.
    + injection Hrun as _ <-. eapply add_exif_keeps_files; eassumption.
Qed.

Lemma tag_images_app (pre post : list (string * datetime)) (w w1 : world) :
  tag_images a track pre w = (Ret tt, w1) ->
  tag_images a track (pre ++ post) w = tag_images a track post w1.
Proof.
  revert w. induction pre as [|[f t] pre IH]; intros w Hrun.
  - unfold tag_images in Hrun. simpl in Hrun. unfold ret in Hrun.
    now injection Hrun as <-.
  - unfold tag_images in Hrun |- *. cbn [for_each app] in Hrun |- *.
    unfold bind in Hrun |- *.
    destruct (add_exif_using_timestamp f t track (time_offset a)
                (bearing_offset a) (verbose a) w) as [[[]|e] w2].
    + now apply IH.
    + discriminate.
Qed.

(** C8: inside a batch, an image for whose query time (its refined time
    minus the clock offset) the interpolator signals out of range is
    skipped: the skip is printed with the image's name and the reason, no
    file is written, and the loop goes on with the images after it. *)
Theorem tag_images_skips_out_of_range (pre post : list (string * datetime))
    (f : string) (t : datetime) (reason : string) (w w1 : world) :
  tag_images a track pre w = (Ret tt, w1) ->
  is_Some (files w !! f) ->
  interpolate_lat_lon track (t - timedelta_seconds (time_offset a))
    = Raise (ValueError reason) ->
  let skipped := World (files w1) (stdout w1 ++ [MsgSkipping f reason]) in
  add_exif_using_timestamp f t track
    (time_offset a) (bearing_offset a) (verbose a) w1 = (Ret tt, skipped) /\
  tag_images a track (pre ++ (f, t) :: post) w
    = tag_images a track post skipped.
Proof.
  intros Hpre Hf Hint skipped.
  assert (Hf1 : is_Some (files w1 !! f))
    by (eapply tag_images_keeps_files; eassumption).
  pose proof (add_exif_skips w1 f t reason Hf1 Hint) as Hskip.
  split; [exact Hskip|].
  rewrite (tag_images_app _ _ _ _ Hpre).
  unfold tag_images at 1. cbn [for_each].
  unfold tag_image in Hskip. now rewrite (bind_Ret _ _ _ _ _ Hskip).
Qed.

(** A batch of existing images in which the interpolator only ever fails
    with [ValueError] runs to its end. *)
Lemma tag_images_completes (batch : list (string * datetime)) (w : world) :
  (forall f t, In (f, t) batch ->
     is_Some (files w !! f) /\
     forall e, interpolate_lat_lon track (query_time a t) = Raise e ->
               exists reason, e = ValueError reason) ->
  exists w', tag_images a track batch w = (Ret tt, w').
Proof.
  revert w. induction batch as [|[f t] batch IH]; intros w Hall.
  - eexists. reflexivity.
  - destruct (Hall f t (or_introl eq_refl)) as [Hf Hfail].
    assert (Hstep : exists w1, tag_image a track f t w = (Ret tt, w1)).
    { destruct (interpolate_lat_lon track (query_time a t))
        as [position|e] eqn:Hint.
      - destruct (add_exif_position w f t position Hf Hint)
          as (fs' & msgs & E & _).
        eauto.
      - destruct (Hfail e eq_refl) as [reason ->].
        rewrite (add_exif_skips w f t reason Hf Hint). eauto. }
    destruct Hstep as [w1 E1].
    destruct (IH w1) as [w' E'].
    { intros g u Hin. destruct (Hall g u (or_intror Hin)) as [Hg Hge].
      split; [|assumption].
      eapply add_exif_keeps_files; eassumption. }
    exists w'. unfold tag_images in *. cbn [for_each].
    unfold tag_image in E1. now rewrite (bind_Ret _ _ _ _ _ E1).
Qed.

End TagWriter.

(** ** Capture time reader: properties *)

(** C9 (amended): an image with a readable capture time whose sub-second
    field is missing or malformed is reported, by name and with the reason,
    and read as its whole-second capture time; the reader returns, so the
    image stays in the batch and the batch goes on. *)
Theorem exif_time_subsec_unreadable (w : world) (f : string)
    (md : gmap string exif_value) (t : datetime) :
  files w !! f = Some md ->
  md !! "Exif.Photo.DateTimeOriginal" = Some (ExifDatetime t) ->
  subsec_unreadable md ->
  exists report,
    reports_problem f report /\
    exif_time f w = (Ret t, World (files w) (stdout w ++ [report])).
Proof.
  intros Hf Ht Hsub. unfold exif_time.
  read_file Hf.
  unfold tag_value at 1. rewrite Ht.
  assert (Hzero : t + timedelta_milliseconds 0 = t)
    by (unfold timedelta_milliseconds; lia).
  destruct Hsub as [Hnone|[[msg Hbad]|(s & Htext & Hint)]];
    unfold tag_value; [rewrite Hnone|rewrite Hbad|rewrite Htext];
    simpl; try rewrite Hint; unfold bind, print, ret; simpl; rewrite Hzero;
    eexists; (split; [|reflexivity]); eexists; eauto.
Qed.

(** Without a capture time the reader prints the lookup failure and then
    trips over its own unassigned local. *)
Lemma exif_time_without_capture_time (w : world) (f : string)
    (md : gmap string exif_value) :
  files w !! f = Some md ->
  md !! "Exif.Photo.DateTimeOriginal" = None ->
  exif_time f w =
  (Raise (UnboundLocalError "image_time"),
   World (files w)
     (stdout w ++ [MsgExifKeyError f "Exif.Photo.DateTimeOriginal"])).
Proof.
  intros Hf Ht. unfold exif_time.
  read_file Hf.
  unfold tag_value. rewrite Ht. reflexivity.
Qed.

(** ** Entry point: properties *)

(** Once the estimator has produced times, the run loads the track and
    enters the loop over the images. *)
Lemma main_after_estimate (a : arguments) (file_list : list string)
    (g : gpx) (w w1 : world) (t : datetime) (ts : list datetime) :
  estimate_sub_second_time file_list (interval a) (announced a w)
    = (Ret (Some (t :: ts)), w1) ->
  main a file_list g w =
  (print MsgReadingGpx ;;;
   print (MsgStarting (length file_list) (gpx_file a)) ;;;
   tag_images a (get_lat_lon_time g (localtime a))
     (combine file_list (t :: ts)) ;;;
   print (MsgDone (length file_list))) w1.
Proof.
  intros Hest. unfold main, announced in *.
  destruct (localtime a); unfold bind, print, ret in *; simpl in *;
    rewrite Hest; reflexivity.
Qed.

(** An exception of the estimator ends the run. *)
Lemma main_estimate_raises (a : arguments) (file_list : list string)
    (g : gpx) (w w1 : world) e :
  estimate_sub_second_time file_list (interval a) (announced a w)
    = (Raise e, w1) ->
  main a file_list g w = (Raise e, w1).
Proof.
  intros Hest. unfold main, announced in *.
  destruct (localtime a); unfold bind, print, ret in *; simpl in *;
    rewrite Hest; reflexivity.
Qed.

(** ** Bearing normaliser: further properties *)

(** Two values of one turn that differ by whole turns are the same. *)
Lemma same_turn_unique (x y : Q) (k : Z) :
  (0 <= x)%Q -> (x < 360)%Q -> (0 <= y)%Q -> (y < 360)%Q ->
  (x == y + 360 * inject_Z k)%Q -> (x == y)%Q.
Proof.
  intros Hx0 Hx1 Hy0 Hy1 E.
  assert (Hlo : (inject_Z (-1) < inject_Z k)%Q)
    by (change (inject_Z (-1)) with (-1)%Q; lra).
  assert (Hhi : (inject_Z k < inject_Z 1)%Q)
    by (change (inject_Z 1) with 1%Q; lra).
  rewrite <- Zlt_Qlt in Hlo, Hhi.
  assert (k = 0) by lia. subst k.
  rewrite E. change (inject_Z 0) with 0%Q. lra.
Qed.

Lemma float_mod_turns (x m : Q) :
  (float_mod x m == x - m * inject_Z (Qfloor (x / m)))%Q.
Proof. reflexivity. Qed.

(** The result and the plain sum always point the same way: they differ
    by a whole number of turns. *)
Lemma add_bearing_offset_congruent (bearing offset : Q) :
  exists k : Z,
    (add_bearing_offset bearing offset
     == bearing + offset - 360 * inject_Z k)%Q.
Proof.
  unfold add_bearing_offset.
  destruct (Qle_bool 0 (bearing + offset) &&
            negb (Qle_bool 360 (bearing + offset))).
  - exists 0. change (inject_Z 0) with 0%Q. lra.
  - destruct (Qle_bool 360 (bearing + offset)).
    + exists (Qfloor ((bearing + offset) / 360)). apply float_mod_turns.
    + exists (- Qfloor (- (bearing + offset) / 360)).
      rewrite float_mod_turns, inject_Z_opp. lra.
Qed.

(** A sum that is not negative is reduced to its remainder modulo 360,
    which lies in [0, 360). *)
Theorem add_bearing_offset_is_modulo (bearing offset : Q) :
  (0 <= bearing + offset)%Q ->
  (add_bearing_offset bearing offset == float_mod (bearing + offset) 360)%Q /\
  (0 <= add_bearing_offset bearing offset)%Q /\
  (add_bearing_offset bearing offset < 360)%Q.
Proof.
  intros Hr.
  destruct (add_bearing_offset_nonnegative_sum bearing offset Hr) as [H0 H1].
  split; [|split; assumption].
  destruct (float_mod_range (bearing + offset) 360) as [M0 M1];
    [reflexivity|].
  destruct (add_bearing_offset_congruent bearing offset) as [k Hk].
  apply (same_turn_unique _ _ (Qfloor ((bearing + offset) / 360) - k));
    try assumption.
  rewrite Hk, float_mod_turns. unfold Z.sub.
  rewrite inject_Z_plus, inject_Z_opp. lra.
Qed.

(** ** Track loader: further properties *)

Lemma list_sort_strictly_later (l : list sample) :
  StronglySorted (fun a b => sample_time a < sample_time b) l ->
  list_sort l = l.
Proof.
  induction 1 as [|x l Hs IH Hx]; simpl; [reflexivity|].
  rewrite IH. destruct l as [|y l']; [reflexivity|]. simpl.
  inversion Hx as [|? ? Hxy _]; subst.
  destruct (sample_lt y x) eqn:E; [|reflexivity].
  apply sample_lt_true_time in E. lia.
Qed.

(** A track file whose points are already in strictly increasing time
    comes back in the order of the file. *)
Theorem get_lat_lon_time_keeps_order (g : gpx) (use_localtime : bool) :
  let convert := if use_localtime then utc_to_localtime else id in
  strictly_later convert (Spec.all_points g) ->
  get_lat_lon_time g use_localtime =
  map (Spec.to_sample convert) (Spec.all_points g).
Proof.
  intros convert Hsorted. rewrite get_lat_lon_time_unfold. fold convert.
  apply list_sort_strictly_later.
  unfold strictly_later in Hsorted.
  induction Hsorted as [|p ps Hs IH Hp]; simpl; constructor.
  - exact IH.
  - rewrite List.Forall_forall in Hp |- *.
    intros s Hin. apply in_map_iff in Hin. destruct Hin as (q & <- & Hq).
    simpl. now apply Hp.
Qed.

Lemma sample_lt_shift_time (convert : datetime -> datetime) (a b : sample) :
  order_preserving convert ->
  sample_lt (shift_time convert a) (shift_time convert b) = sample_lt a b.
Proof.
  intros Hmono.
  destruct a as [[[ta la] oa] ea], b as [[[tb lb] ob] eb]; simpl.
  destruct (Z.compare_spec ta tb) as [->|Hlt|Hgt].
  - now rewrite Z.compare_refl.
  - apply Hmono in Hlt. apply Z.compare_lt_iff in Hlt. now rewrite Hlt.
  - apply Hmono in Hgt. apply Z.compare_gt_iff in Hgt. now rewrite Hgt.
Qed.

Lemma list_sort_shift_time (convert : datetime -> datetime)
    (l : list sample) :
  order_preserving convert ->
  list_sort (map (shift_time convert) l)
  = map (shift_time convert) (list_sort l).
Proof.
  intros Hmono. induction l as [|x l IH]; simpl; [reflexivity|].
  rewrite IH. generalize (list_sort l) as sorted. clear IH.
  induction sorted as [|y sorted IH]; simpl; [reflexivity|].
  rewrite sample_lt_shift_time by assumption.
  destruct (sample_lt y x); simpl; [now rewrite IH|reflexivity].
Qed.

(** When the conversion to local time keeps earlier before later, the
    local-time flag changes the times and nothing else: the samples come in
    the order they have without the flag. *)
Theorem get_lat_lon_time_localtime_order (g : gpx) :
  order_preserving utc_to_localtime ->
  get_lat_lon_time g true
  = map (shift_time utc_to_localtime) (get_lat_lon_time g false).
Proof.
  intros Hmono. rewrite !get_lat_lon_time_unfold.
  rewrite <- list_sort_shift_time by assumption.
  f_equal. rewrite map_map. apply map_ext. now intros [t lat lon ele].
Qed.

(** ** Capture time reader: further properties *)

(** With both fields readable the reader prints nothing and returns the
    capture time plus the sub-second field taken as a number of
    milliseconds. *)
Theorem exif_time_reads_milliseconds (w : world) (f : string)
    (md : gmap string exif_value) (t : datetime) (s : string) (k : Z) :
  files w !! f = Some md ->
  md !! "Exif.Photo.DateTimeOriginal" = Some (ExifDatetime t) ->
  md !! "Exif.Photo.SubSecTimeOriginal" = Some (ExifText s) ->
  int_of_text s = Some k ->
  exif_time f w = (Ret (t + 1000 * k), w).
Proof.
  intros Hf Ht Hs Hk. unfold exif_time. read_file Hf.
  unfold tag_value. rewrite Ht, Hs. simpl. rewrite Hk.
  reflexivity.
Qed.

(** Without a readable capture time the reader reports the problem and
    then raises on its unassigned local [image_time]; it returns no time. *)
Theorem exif_time_capture_time_unreadable (w : world) (f : string)
    (md : gmap string exif_value) :
  files w !! f = Some md ->
  capture_time_unreadable md ->
  exists report,
    reports_problem f report /\
    exif_time f w =
    (Raise (UnboundLocalError "image_time"),
     World (files w) (stdout w ++ [report])).
Proof.
  intros Hf [Hnone|[msg Hbad]]; unfold exif_time; read_file Hf;
    unfold tag_value; [rewrite Hnone|rewrite Hbad];
    eexists; (split; [|reflexivity]); eexists; eauto.
Qed.

(** ** Sub-second estimator: further properties *)

Lemma prints_only_files {A} (m : M A) (w : world) :
  prints_only m -> files (snd (m w)) = files w.
Proof.
  intros Hm. destruct w as [fs out]. now rewrite (Hm fs out).
Qed.

Lemma prints_only_map_M (fs : list string) : prints_only (map_M exif_time fs).
Proof.
  induction fs as [|f fs IH]; simpl.
  - apply prints_only_ret.
  - apply prints_only_bind; [apply prints_only_exif_time|]. intros m.
    apply prints_only_bind; [exact IH|]. intros ms. apply prints_only_ret.
Qed.

Lemma prints_only_window_loop (T : timedelta) (fs : list string) (i : nat)
    (bounds : option (datetime * datetime)) :
  prints_only (window_loop T i fs bounds).
Proof.
  revert i bounds. induction fs as [|f fs IH]; intros i bounds; simpl.
  - apply prints_only_ret.
  - apply prints_only_bind; [apply prints_only_exif_time|]. intros m.
    apply prints_only_bind; [|intros b; apply IH].
    destruct (i =? 0)%nat; [apply prints_only_ret|].
    destruct bounds as [[smin smax]|];
      [apply prints_only_ret|apply prints_only_raise].
Qed.

Lemma prints_only_estimate (fs : list string) (interval : Q) :
  prints_only (estimate_sub_second_time fs interval).
Proof.
  unfold estimate_sub_second_time. destruct (Qle_bool interval 0).
  - apply prints_only_bind; [apply prints_only_map_M|].
    intros ts. apply prints_only_ret.
  - apply prints_only_bind; [apply prints_only_window_loop|].
    intros [[smin smax]|]; [|apply prints_only_raise].
    destruct (smax <? smin); [|apply prints_only_ret].
    apply prints_only_bind; [apply prints_only_print|].
    intros _. apply prints_only_ret.
Qed.

(** Whatever the images, the interval and the outcome, the estimator
    leaves every image file as it was and only adds to the output. *)
Theorem estimate_leaves_files (fs : list string) (interval : Q) (w : world) :
  files (snd (estimate_sub_second_time fs interval w)) = files w /\
  exists msgs,
    stdout (snd (estimate_sub_second_time fs interval w)) = stdout w ++ msgs.
Proof.
  split.
  - apply prints_only_files, prints_only_estimate.
  - destruct (prints_only_run (estimate_sub_second_time fs interval) w)
      as [msgs E]; [apply prints_only_estimate|].
    exists msgs. now rewrite E.
Qed.

Lemma offsets_within (T : timedelta) (s : datetime) (ms : list datetime)
    (i : nat) :
  List.Forall (fun o => o <= s) (Spec.offsets T i ms) ->
  List.Forall (fun o => s <= o + onesecond) (Spec.offsets T i ms) ->
  Forall2 (fun m r => m <= r <= m + onesecond) ms
    (map (fun j => s + Z.of_nat j * T) (seq i (length ms))).
Proof.
  revert i. induction ms as [|m ms IH]; intros i Hlo Hhi; simpl.
  - constructor.
  - simpl in Hlo, Hhi.
    inversion Hlo as [|? ? Hlo1 Hlo2]; subst.
    inversion Hhi as [|? ? Hhi1 Hhi2]; subst.
    constructor; [lia|]. now apply IH.
Qed.

(** Every refined time lies within the second its image was recorded in:
    between the recorded time and one second after it. *)
Theorem estimate_within_recorded_second (w : world) fs ms (interval : Q)
    (refined : list datetime) :
  (0 < interval)%Q -> recorded w fs ms ->
  fst (estimate_sub_second_time fs interval w) = Ret (Some refined) ->
  Forall2 (fun m r => m <= r <= m + onesecond) ms refined.
Proof.
  intros Hpos Hrec Hrun.
  destruct fs as [|f fs].
  - unfold estimate_sub_second_time in Hrun.
    rewrite (positive_interval _ Hpos) in Hrun. discriminate.
  - destruct (estimate_with_bounds w (f :: fs) ms interval Hpos Hrec)
      as (lo & hi & msgs & Hlo & Hhi & E); [discriminate|].
    rewrite E, (recorded_length _ _ _ Hrec) in Hrun.
    destruct (Z.ltb_spec hi lo) as [H|H]; [discriminate|].
    cbn [fst] in Hrun. injection Hrun as <-.
    apply maximum_greatest in Hlo. destruct Hlo as [_ Hlo].
    apply minimum_least in Hhi. destruct Hhi as [_ Hhi].
    assert (Hmid : lo <= lo + (hi - lo) / 2 <= hi).
    { clear - H. Z.div_mod_to_equations. lia. }
    apply offsets_within.
    + eapply List.Forall_impl; [|exact Hlo]. simpl. intros; lia.
    + rewrite List.Forall_forall in Hhi |- *. intros o Ho.
      assert (hi <= o + onesecond); [|lia].
      apply Hhi. apply in_map_iff. now exists o.
Qed.

(** A single image with a positive interval is moved to the middle of its
    recorded second. *)
Theorem estimate_single_image (w : world) (f : string) (m : datetime)
    (interval : Q) :
  (0 < interval)%Q -> recorded w [f] [m] ->
  fst (estimate_sub_second_time [f] interval w)
  = Ret (Some [m + onesecond / 2]).
Proof.
  intros Hpos Hrec.
  destruct (estimate_with_bounds w [f] [m] interval Hpos Hrec)
    as (lo & hi & msgs & Hlo & Hhi & E); [discriminate|].
  unfold Spec.lowerBound, Spec.upperBound in Hlo, Hhi. simpl in Hlo, Hhi.
  injection Hlo as <-. injection Hhi as <-.
  rewrite E.
  match goal with
  | |- context [?a <? ?b] => destruct (Z.ltb_spec a b) as [H|H]
  end.
  - unfold onesecond in H. lia.
  - cbn [fst length seq map]. do 3 f_equal. clear. unfold onesecond.
    Z.div_mod_to_equations. lia.
Qed.

Lemma window_loop_reader_raises (T : timedelta) (w : world) pre ms
    (f : string) (post : list string) (e : exception) :
  recorded w pre ms ->
  fst (exif_time f w) = Raise e ->
  forall (i : nat) (bounds : option (datetime * datetime)) (w' : world),
    files w' = files w -> (i = 0%nat \/ is_Some bounds) ->
    fst (window_loop T i (pre ++ f :: post) bounds w') = Raise e.
Proof.
  intros Hrec Hf. induction Hrec as [|g m pre ms Hg Hrest IH];
    intros i bounds w' Hw Hb.
  - assert (Hf' : fst (exif_time f w') = Raise e).
    { rewrite <- Hf. apply prints_only_fst;
        auto using prints_only_exif_time. }
    simpl. unfold bind. destruct (exif_time f w') as [r w1].
    simpl in Hf'. now subst r.
  - assert (Hg' : fst (exif_time g w') = Ret m).
    { rewrite <- Hg. apply prints_only_fst;
        auto using prints_only_exif_time. }
    destruct (exif_time_recorded _ _ _ Hg') as [msgs E].
    cbn [app window_loop]. rewrite (bind_Ret _ _ _ _ _ E).
    destruct (Nat.eqb_spec i 0) as [->|Hi].
    + unfold ret at 1. erewrite bind_Ret by reflexivity.
      apply IH; [assumption|right; eauto].
    + destruct Hb as [->|[[smin smax] ->]]; [contradiction|].
      unfold ret at 1. erewrite bind_Ret by reflexivity.
      apply IH; [assumption|right; eauto].
Qed.

Lemma map_M_reader_raises (w : world) pre ms (f : string)
    (post : list string) (e : exception) :
  recorded w pre ms ->
  fst (exif_time f w) = Raise e ->
  forall w', files w' = files w ->
    fst (map_M exif_time (pre ++ f :: post) w') = Raise e.
Proof.
  intros Hrec Hf. induction Hrec as [|g m pre ms Hg Hrest IH]; intros w' Hw.
  - assert (Hf' : fst (exif_time f w') = Raise e).
    { rewrite <- Hf. apply prints_only_fst;
        auto using prints_only_exif_time. }
    simpl. unfold bind. destruct (exif_time f w') as [r w1].
    simpl in Hf'. now subst r.
  - assert (Hg' : fst (exif_time g w') = Ret m).
    { rewrite <- Hg. apply prints_only_fst;
        auto using prints_only_exif_time. }
    destruct (exif_time_recorded _ _ _ Hg') as [msgs E].
    cbn [app map_M]. rewrite (bind_Ret _ _ _ _ _ E).
    specialize (IH (World (files w') (stdout w' ++ msgs)) Hw).
    unfold bind.
    destruct (map_M exif_time (pre ++ f :: post)
                (World (files w') (stdout w' ++ msgs))) as [r w1].
    simpl in IH. now subst r.
Qed.

(** One image the reader raises on ends the estimation for the whole
    sequence, with that exception, whatever the interval and whatever comes
    after the image. *)
Theorem estimate_reader_raises (w : world) pre ms (f : string)
    (post : list string) (e : exception) (interval : Q) :
  recorded w pre ms ->
  fst (exif_time f w) = Raise e ->
  fst (estimate_sub_second_time (pre ++ f :: post) interval w) = Raise e.
Proof.
  intros Hrec Hf. unfold estimate_sub_second_time.
  destruct (Qle_bool interval 0).
  - pose proof (map_M_reader_raises w pre ms f post e Hrec Hf w eq_refl) as H.
    unfold bind.
    destruct (map_M exif_time (pre ++ f :: post) w) as [r w1].
    simpl in H. now subst r.
  - pose proof (window_loop_reader_raises (timedelta_seconds interval)
                  w pre ms f post e Hrec Hf 0%nat None w eq_refl
                  (or_introl eq_refl)) as H.
    unfold bind.
    destruct (window_loop (timedelta_seconds interval) 0
                (pre ++ f :: post) None w) as [r w1].
    simpl in H. now subst r.
Qed.

(** ** Tag writer: further properties *)

Lemma int_of_float_floor (x : Q) :
  (0 <= x)%Q ->
  (inject_Z (int_of_float x) <= x)%Q /\
  (x < inject_Z (int_of_float x) + 1)%Q.
Proof.
  intros Hx. assert (E : int_of_float x = Qfloor x).
  { destruct x as [n d]. unfold int_of_float, Qfloor. simpl.
    unfold Qle in Hx. simpl in Hx.
    apply Z.quot_div_nonneg; lia. }
  rewrite E. split; [apply Qfloor_le|].
  pose proof (Qlt_floor x) as H. rewrite inject_Z_plus in H. exact H.
Qed.

Lemma int_of_float_unsigned (x : Q) : (0 <= x)%Q -> 0 <= int_of_float x.
Proof.
  clear utc_to_localtime interpolate_lat_lon decimal_to_dms int_of_text.
  destruct x as [n d]. unfold int_of_float, Qle. simpl. intros Hx.
  apply Z.quot_pos; lia.
Qed.

Lemma make_fraction_unsigned (n : Z) (d : positive) :
  0 <= n -> Qle_bool 0 (make_fraction n d) = true.
Proof.
  clear utc_to_localtime interpolate_lat_lon decimal_to_dms int_of_text.
  intros Hn. apply Qle_bool_iff. unfold make_fraction, Qle. simpl. lia.
Qed.

Lemma make_fraction_negative (n : Z) (d : positive) :
  n < 0 -> Qle_bool 0 (make_fraction n d) = false.
Proof.
  clear utc_to_localtime interpolate_lat_lon decimal_to_dms int_of_text.
  intros Hn. destruct (Qle_bool 0 (make_fraction n d)) eqn:E; [|reflexivity].
  apply Qle_bool_iff in E. unfold make_fraction, Qle in E. simpl in E. lia.
Qed.

(** Cutting towards zero and then dropping the sign is cutting the size
    downwards. *)
Lemma truncated_tenths (e : Q) :
  (Qabs (make_fraction (Z.abs (int_of_float (e * 10))) 10 - Qabs e)
   < 1 # 10)%Q.
Proof.
  clear utc_to_localtime interpolate_lat_lon decimal_to_dms int_of_text.
  assert (Habs : Z.abs (int_of_float (e * 10)) = int_of_float (Qabs (e * 10))).
  { destruct (e * 10)%Q as [n d]. unfold int_of_float. simpl.
    symmetry. apply (Z.quot_abs n (Z.pos d)). discriminate. }
  rewrite Habs.
  destruct (int_of_float_floor (Qabs (e * 10))) as [Hlo Hhi];
    [apply Qabs_nonneg|].
  set (k := int_of_float (Qabs (e * 10))) in *. clearbody k.
  rewrite Qabs_Qmult in Hlo, Hhi. change (Qabs 10) with 10%Q in Hlo, Hhi.
  assert (Hq : (make_fraction k 10 * 10 == inject_Z k)%Q).
  { unfold make_fraction, Qeq. simpl. lia. }
  set (q := make_fraction k 10) in *. clearbody q.
  set (m := Qabs e) in *. clearbody m.
  set (z := inject_Z k) in *. clearbody z.
  apply Qabs_Qlt_condition. split; lra.
Qed.

(** A sum of bearing and offset between -359.99 and -0.01 comes back as it
    is, and its hundredths are below zero. *)
Lemma negative_direction_hundredths (bearing offset : Q) :
  (- (35999 # 100) <= bearing + offset)%Q ->
  (bearing + offset <= - (1 # 100))%Q ->
  int_of_float (add_bearing_offset bearing offset * 100) < 0.
Proof.
  clear utc_to_localtime interpolate_lat_lon decimal_to_dms int_of_text.
  intros Hlo Hhi.
  destruct (add_bearing_offset_negative_sum bearing offset) as [D0 D1];
    [lra|].
  destruct (add_bearing_offset_congruent bearing offset) as [k Hk].
  set (d := add_bearing_offset bearing offset) in *. clearbody d.
  assert (H1 : (inject_Z (-1) < inject_Z k)%Q)
    by (change (inject_Z (-1)) with (-1)%Q; lra).
  assert (H2 : (inject_Z k < inject_Z 1)%Q)
    by (change (inject_Z 1) with 1%Q; lra).
  rewrite <- Zlt_Qlt in H1, H2. assert (k = 0) by lia. subst k.
  change (inject_Z 0) with 0%Q in Hk.
  assert (Hx : (d * 100 <= -1)%Q) by lra.
  destruct (d * 100)%Q as [n den]. unfold int_of_float, Qle in *.
  simpl in *. Z.quot_rem_to_equations. nia.
Qed.

Section TagWriterMore.

Variables (a : arguments) (track : list sample).

(** What a turn leaves in the image's metadata when every fraction it
    assigns is one that the tag can hold. *)
Lemma add_exif_written (w : world) (f : string) (t : datetime)
    (md : gmap string exif_value) (lat lon bearing : Q) (ele : option Q) :
  files w !! f = Some md ->
  interpolate_lat_lon track (query_time a t) = Ret (lat, lon, bearing, ele) ->
  unsigned_dms (decimal_to_dms lat "S" "N") ->
  unsigned_dms (decimal_to_dms lon "W" "E") ->
  let direction := add_bearing_offset bearing (bearing_offset a) in
  (0 <= direction)%Q ->
  exists md',
    tag_image a track f t w =
    (Ret tt,
     World (<[f := md']> (files w))
       (stdout w ++
        if verbose a then [MsgAdded f t lat lon ele direction] else [])) /\
    md' !! "Exif.GPSInfo.GPSMapDatum" = Some (ExifText "WGS-84") /\
    md' !! "Exif.GPSInfo.GPSVersionID" = Some (ExifText "2 0 0 0") /\
    md' !! "Exif.Image.GPSTag" = Some (ExifInt 654) /\
    md' !! "Exif.GPSInfo.GPSImgDirectionRef" = Some (ExifText "T") /\
    md' !! "Exif.GPSInfo.GPSImgDirection" =
      Some (ExifFraction (make_fraction (int_of_float (direction * 100)) 100))
    /\
    match ele with
    | None =>
        md' !! "Exif.GPSInfo.GPSAltitude" = md !! "Exif.GPSInfo.GPSAltitude"
        /\
        md' !! "Exif.GPSInfo.GPSAltitudeRef"
        = md !! "Exif.GPSInfo.GPSAltitudeRef"
    | Some e =>
        md' !! "Exif.GPSInfo.GPSAltitude" =
          Some (ExifFraction
                  (make_fraction (Z.abs (int_of_float (e * 10))) 10)) /\
        md' !! "Exif.GPSInfo.GPSAltitudeRef" =
          Some (ExifText (if Qle_bool 0 e then "0" else "1"))
    end /\
    forall key, ~ In key gps_keys -> md' !! key = md !! key.
Proof.
  intros Hmd Hint Hlat Hlon direction Hdir. clear utc_to_localtime int_of_text.
  unfold tag_image, add_exif_using_timestamp. read_file Hmd.
  unfold try_except_ValueError, bind, lift. fold (query_time a t).
  rewrite Hint. fold direction.
  destruct (decimal_to_dms lat "S" "N") as [[[lat_d lat_m] lat_s] lat_ref].
  destruct (decimal_to_dms lon "W" "E") as [[[lon_d lon_m] lon_s] lon_ref].
  destruct Hlat as (Hlat_d & Hlat_m & Hlat_s).
  destruct Hlon as (Hlon_d & Hlon_m & Hlon_s).
  unfold set_tag.
  rewrite (make_fraction_unsigned lat_d 1) by assumption.
  rewrite (make_fraction_unsigned (int_of_float lat_m) 1)
    by now apply int_of_float_unsigned.
  rewrite (make_fraction_unsigned (int_of_float (lat_s * 1000000)) 1000000)
    by (apply int_of_float_unsigned; clear - Hlat_s; lra).
  rewrite (make_fraction_unsigned lon_d 1) by assumption.
  rewrite (make_fraction_unsigned (int_of_float lon_m) 1)
    by now apply int_of_float_unsigned.
  rewrite (make_fraction_unsigned (int_of_float (lon_s * 1000000)) 1000000)
    by (apply int_of_float_unsigned; clear - Hlon_s; lra).
  rewrite (make_fraction_unsigned (int_of_float (direction * 100)) 100)
    by (apply int_of_float_unsigned; clear - Hdir; lra).
  destruct ele as [e|];
    [rewrite (make_fraction_unsigned (Z.abs (int_of_float (e * 10))) 10)
       by apply Z.abs_nonneg|];
    unfold write_metadata, ret; cbn [files stdout];
    (eexists; split;
     [destruct (verbose a); unfold print; cbn [files stdout];
      [reflexivity|now rewrite app_nil_r]|]);
    (repeat split;
     [repeat first [rewrite lookup_insert_ne by discriminate
                   |rewrite lookup_insert_eq]; reflexivity..
     |intros key Hkey; unfold gps_keys in Hkey; cbn [In] in Hkey;
      repeat (rewrite lookup_insert_ne by (intros E; apply Hkey; tauto));
      reflexivity]).
Qed.

(** A turn that finds a position whose direction and coordinates are not
    negative writes the image: it sets the fixed tags (datum WGS-84,
    version, GPS tag 654, direction reference "T") and leaves every tag
    that is not one of the GPS tags as it was read from the image. *)
Theorem tag_image_keeps_other_tags (w : world) (f : string) (t : datetime)
    (md : gmap string exif_value) (lat lon bearing : Q) (ele : option Q) :
  files w !! f = Some md ->
  interpolate_lat_lon track (query_time a t) = Ret (lat, lon, bearing, ele) ->
  unsigned_dms (decimal_to_dms lat "S" "N") ->
  unsigned_dms (decimal_to_dms lon "W" "E") ->
  (0 <= bearing + bearing_offset a)%Q ->
  exists md',
    files (snd (tag_image a track f t w)) !! f = Some md' /\
    md' !! "Exif.GPSInfo.GPSMapDatum" = Some (ExifText "WGS-84") /\
    md' !! "Exif.GPSInfo.GPSVersionID" = Some (ExifText "2 0 0 0") /\
    md' !! "Exif.Image.GPSTag" = Some (ExifInt 654) /\
    md' !! "Exif.GPSInfo.GPSImgDirectionRef" = Some (ExifText "T") /\
    forall key, ~ In key gps_keys -> md' !! key = md !! key.
Proof.
  intros Hmd Hint Hlat Hlon Hsum.
  destruct (add_bearing_offset_nonnegative_sum _ _ Hsum) as [H0 _].
  destruct (add_exif_written w f t md lat lon bearing ele Hmd Hint Hlat Hlon
              H0)
    as (md' & E & H1 & H2 & H3 & H4 & _ & _ & Hkeep).
  exists md'. rewrite E. cbn [snd files].
  rewrite lookup_insert_eq. auto 10.
Qed.

(** Altitude is written only when the position has an elevation.  Without
    one both altitude tags stay as they were.  With one, on an image that
    is written, the altitude is a whole number of tenths of a metre that is
    not negative and, for an elevation of at most a million metres up or
    down, less than a tenth of a metre from the size of the elevation; the
    reference is "0" at or above sea level and "1" below. *)
Theorem tag_image_altitude (w : world) (f : string) (t : datetime)
    (md : gmap string exif_value) (lat lon bearing : Q) (ele : option Q) :
  files w !! f = Some md ->
  interpolate_lat_lon track (query_time a t) = Ret (lat, lon, bearing, ele) ->
  unsigned_dms (decimal_to_dms lat "S" "N") ->
  unsigned_dms (decimal_to_dms lon "W" "E") ->
  (0 <= bearing + bearing_offset a)%Q ->
  exists md',
    files (snd (tag_image a track f t w)) !! f = Some md' /\
    match ele with
    | None =>
        md' !! "Exif.GPSInfo.GPSAltitude" = md !! "Exif.GPSInfo.GPSAltitude"
        /\
        md' !! "Exif.GPSInfo.GPSAltitudeRef"
        = md !! "Exif.GPSInfo.GPSAltitudeRef"
    | Some e =>
        (exists tenths : Z,
           md' !! "Exif.GPSInfo.GPSAltitude" =
             Some (ExifFraction (make_fraction tenths 10)) /\
           0 <= tenths /\
           ((Qabs e <= 1000000)%Q ->
            (Qabs (make_fraction tenths 10 - Qabs e) < 1 # 10)%Q)) /\
        md' !! "Exif.GPSInfo.GPSAltitudeRef" =
          Some (ExifText (if Qle_bool 0 e then "0" else "1"))
    end.
Proof.
  intros Hmd Hint Hlat Hlon Hsum.
  destruct (add_bearing_offset_nonnegative_sum _ _ Hsum) as [H0 _].
  destruct (add_exif_written w f t md lat lon bearing ele Hmd Hint Hlat Hlon
              H0)
    as (md' & E & _ & _ & _ & _ & _ & Halt & _).
  exists md'. rewrite E. cbn [snd files].
  rewrite lookup_insert_eq. split; [reflexivity|].
  destruct ele as [e|]; [|exact Halt].
  destruct Halt as [Hvalue Href]. split; [|exact Href].
  exists (Z.abs (int_of_float (e * 10))).
  split; [exact Hvalue|]. split; [apply Z.abs_nonneg|].
  intros _. clear - e. apply truncated_tenths.
Qed.

(** A sum of bearing and offset between -359.99 and -0.01 degrees is
    normalised to itself, a direction below zero that the direction tag
    cannot hold: the image is skipped with one line of output and no file
    is written. *)
Theorem tag_image_negative_direction (w : world) (f : string) (t : datetime)
    (lat lon bearing : Q) (ele : option Q) :
  is_Some (files w !! f) ->
  interpolate_lat_lon track (query_time a t) = Ret (lat, lon, bearing, ele) ->
  (- (35999 # 100) <= bearing + bearing_offset a)%Q ->
  (bearing + bearing_offset a <= - (1 # 100))%Q ->
  exists reason,
    tag_image a track f t w =
    (Ret tt, World (files w) (stdout w ++ [MsgSkipping f reason])).
Proof.
  intros [md Hmd] Hint Hlo Hhi. clear utc_to_localtime int_of_text.
  assert (Hdir : int_of_float
                   (add_bearing_offset bearing (bearing_offset a) * 100) < 0).
  { apply negative_direction_hundredths; assumption. }
  unfold tag_image, add_exif_using_timestamp. read_file Hmd.
  unfold try_except_ValueError, bind, lift. fold (query_time a t).
  rewrite Hint.
  destruct (decimal_to_dms lat "S" "N") as [[[lat_d lat_m] lat_s] lat_ref].
  destruct (decimal_to_dms lon "W" "E") as [[[lon_d lon_m] lon_s] lon_ref].
  unfold set_tag, invalid_rational.
  rewrite (make_fraction_negative _ 100 Hdir).
  repeat match goal with
         | |- context [Qle_bool 0 (make_fraction ?n ?d)] =>
             destruct (Qle_bool 0 (make_fraction n d))
         end;
    unfold print; cbn [files stdout]; eexists; reflexivity.
Qed.

End TagWriterMore.

Section TagWriterBatch.

Variables (a : arguments) (track : list sample).

(** When the sum of bearing and offset is not negative, the direction of
    an image that is written is a whole number of hundredths of a degree
    between 0 and 360. *)
Theorem tag_image_direction (w : world) (f : string) (t : datetime)
    (md : gmap string exif_value) (lat lon bearing : Q) (ele : option Q) :
  files w !! f = Some md ->
  interpolate_lat_lon track (query_time a t) = Ret (lat, lon, bearing, ele) ->
  unsigned_dms (decimal_to_dms lat "S" "N") ->
  unsigned_dms (decimal_to_dms lon "W" "E") ->
  (0 <= bearing + bearing_offset a)%Q ->
  exists md' (hundredths : Z),
    files (snd (tag_image a track f t w)) !! f = Some md' /\
    md' !! "Exif.GPSInfo.GPSImgDirection" =
      Some (ExifFraction (make_fraction hundredths 100)) /\
    0 <= hundredths <= 36000.
Proof.
  intros Hmd Hint Hlat Hlon Hsum.
  destruct (add_bearing_offset_nonnegative_sum _ _ Hsum) as [H0 H360].
  destruct (add_exif_written a track w f t md lat lon bearing ele Hmd Hint
              Hlat Hlon H0)
    as (md' & E & _ & _ & _ & _ & Hdir & _).
  set (direction := add_bearing_offset bearing (bearing_offset a)) in *.
  exists md', (int_of_float (direction * 100)).
  rewrite E. cbn [snd files]. rewrite lookup_insert_eq.
  split; [reflexivity|]. split; [exact Hdir|].
  destruct (int_of_float_floor (direction * 100)) as [Hlo Hhi]; [lra|].
  set (k := int_of_float (direction * 100)) in *.
  assert (Hk0 : (inject_Z (-1) < inject_Z k)%Q)
    by (change (inject_Z (-1)) with (-1)%Q; lra).
  assert (Hk1 : (inject_Z k < inject_Z 36000)%Q)
    by (change (inject_Z 36000) with 36000%Q; lra).
  rewrite <- Zlt_Qlt in Hk0, Hk1. lia.
Qed.

Lemma add_exif_other_files (w w' : world) (f g : string) (t : datetime) r :
  tag_image a track f t w = (r, w') -> g <> f ->
  files w' !! g = files w !! g.
Proof.
  intros Hrun Hg.
  destruct (files w !! f) as [md|] eqn:Hmd.
  - destruct (interpolate_lat_lon track (query_time a t))
      as [position|e] eqn:Hint.
    + destruct (add_exif_position a track w f t position)
        as (fs' & msgs & E & [->|[md' ->]]);
        [now rewrite Hmd|assumption| |];
        rewrite E in Hrun; injection Hrun as _ <-; simpl;
        [reflexivity|now apply lookup_insert_ne].
    + assert (Hcases : (exists reason, e = ValueError reason) \/
                       (forall reason, e <> ValueError reason)).
      { destruct e; try (right; discriminate). left. now eexists. }
      destruct Hcases as [[reason ->]|Hother].
      * rewrite (add_exif_skips a track w f t reason) in Hrun;
          [|now rewrite Hmd|assumption].
        now injection Hrun as _ <-.
      * rewrite (add_exif_propagates a track w f t e) in Hrun;
          [|now rewrite Hmd|assumption|assumption].
        now injection Hrun as _ <-.
  - unfold tag_image, add_exif_using_timestamp in Hrun.
    erewrite bind_Raise in Hrun
      by (unfold read_metadata; now rewrite Hmd).
    now injection Hrun as _ <-.
Qed.

(** However a batch ends, an image file that is not named in it is left
    exactly as it was. *)
Theorem tag_images_other_files (batch : list (string * datetime))
    (w w' : world) r (g : string) :
  tag_images a track batch w = (r, w') ->
  ~ In g (batch_files batch) ->
  files w' !! g = files w !! g.
Proof.
  clear utc_to_localtime int_of_text.
  revert w. induction batch as [|[f t] batch IH]; intros w Hrun Hg.
  - unfold tag_images in Hrun. simpl in Hrun. unfold ret in Hrun.
    now injection Hrun as _ <-.
  - simpl in Hg. unfold tag_images in Hrun. cbn [for_each] in Hrun.
    unfold bind in Hrun. fold (tag_image a track f t) in Hrun.
    destruct (tag_image a track f t w) as [[[]|e] w1] eqn:E1.
    + rewrite (IH w1); [|exact Hrun|tauto].
      eapply add_exif_other_files; [eassumption|]. intros ->. tauto.
    + injection Hrun as _ <-.
      eapply add_exif_other_files; [eassumption|]. intros ->. tauto.
Qed.

(** An exception of the interpolator that is not a [ValueError] ends the
    batch at that image: the exception comes out of the loop, and neither
    that image nor any image after it is written or reported. *)
Theorem tag_images_aborts (pre post : list (string * datetime))
    (f : string) (t : datetime) (e : exception) (w w1 : world) :
  tag_images a track pre w = (Ret tt, w1) ->
  is_Some (files w !! f) ->
  interpolate_lat_lon track (query_time a t) = Raise e ->
  (forall reason, e <> ValueError reason) ->
  tag_images a track (pre ++ (f, t) :: post) w = (Raise e, w1).
Proof.
  intros Hpre Hf Hint Hother.
  assert (Hf1 : is_Some (files w1 !! f))
    by (eapply tag_images_keeps_files; eassumption).
  rewrite (tag_images_app _ _ _ _ _ _ Hpre).
  unfold tag_images. cbn [for_each].
  pose proof (add_exif_propagates a track w1 f t e Hf1 Hint Hother) as E.
  unfold tag_image in E. now rewrite (bind_Raise _ _ _ _ _ E).
Qed.

(** Only the difference between capture time and clock offset matters: a
    capture time moved by the offset, tagged with that offset, is treated
    exactly as the unmoved time tagged with no offset. *)
Theorem add_exif_offset_round_trip (w : world) (f : string) (t : datetime)
    (offset bearing_offset : Q) :
  add_exif_using_timestamp f (t + timedelta_seconds offset) track
    offset bearing_offset false w
  = add_exif_using_timestamp f t track 0 bearing_offset false w.
Proof.
  unfold add_exif_using_timestamp.
  replace (t + timedelta_seconds offset - timedelta_seconds offset)
    with t by lia.
  change (timedelta_seconds 0) with 0.
  replace (t - 0) with t by lia.
  reflexivity.
Qed.

End TagWriterBatch.

(** ** Entry point: further properties *)

Lemma announced_files (a : arguments) (w : world) :
  files (announced a w) = files w.
Proof. unfold announced. now destruct (localtime a). Qed.

Lemma main_estimate_none (a : arguments) (file_list : list string)
    (g : gpx) (w w1 : world) :
  estimate_sub_second_time file_list (interval a) (announced a w)
    = (Ret None, w1) ->
  main a file_list g w = (Raise (SystemExit 1), w1).
Proof.
  intros Hest. unfold main, announced in *.
  destruct (localtime a); unfold bind, print, ret in *; simpl in *;
    rewrite Hest; reflexivity.
Qed.

(** An interval that does not fit the recorded times ends the run with
    exit status 1 right after the estimator has said so: the track is not
    loaded and no image file is changed. *)
Theorem main_inconsistent_interval_exits (a : arguments)
    (file_list : list string) (g : gpx) (w : world) (ms : list datetime) :
  (0 < interval a)%Q ->
  recorded w file_list ms ->
  Spec.window_empty (timedelta_seconds (interval a)) ms ->
  exists msgs,
    main a file_list g w =
    (Raise (SystemExit 1),
     World (files w)
       ((stdout (announced a w) ++ msgs) ++ [MsgIntervalIncompatible])).
Proof.
  intros Hpos Hrec (lo & hi & Hlo & Hhi & Hgt).
  assert (Hrec' : recorded (announced a w) file_list ms).
  { eapply recorded_files; [|exact Hrec]. symmetry. apply announced_files. }
  assert (Hne : file_list <> []).
  { intros Hnil. apply (recorded_nil_iff _ _ _ Hrec) in Hnil. subst ms.
    discriminate. }
  destruct (estimate_with_bounds (announced a w) file_list ms (interval a)
              Hpos Hrec' Hne) as (lo' & hi' & msgs & Hlo' & Hhi' & E).
  rewrite Hlo in Hlo'. rewrite Hhi in Hhi'.
  injection Hlo' as <-. injection Hhi' as <-.
  destruct (Z.ltb_spec hi lo) as [H|H]; [|lia].
  exists msgs. rewrite (main_estimate_none _ _ _ _ _ E).
  now rewrite announced_files.
Qed.

(** With no image at all the run ends abnormally before the track is
    loaded: with exit status 1 when no interval is given (the empty list of
    times counts as failure), and with the estimator's unassigned local
    when one is. *)
Theorem main_without_images (a : arguments) (g : gpx) (w : world) :
  main a [] g w =
  (Raise (if Qle_bool (interval a) 0
          then SystemExit 1
          else UnboundLocalError "smin"),
   announced a w).
Proof.
  unfold main, announced, estimate_sub_second_time.
  destruct (localtime a), (Qle_bool (interval a) 0); reflexivity.
Qed.

Lemma map_M_recorded (w : world) fs ms :
  recorded w fs ms ->
  forall w', files w' = files w ->
    exists msgs,
      map_M exif_time fs w' = (Ret ms, World (files w') (stdout w' ++ msgs)).
Proof.
  induction 1 as [|f m fs ms Hf Hrest IH]; intros w' Hw.
  - exists []. simpl. unfold ret. rewrite app_nil_r. now destruct w'.
  - assert (Hf' : fst (exif_time f w') = Ret m).
    { rewrite <- Hf. apply prints_only_fst;
        auto using prints_only_exif_time. }
    destruct (exif_time_recorded _ _ _ Hf') as [msgs1 E1].
    destruct (IH (World (files w') (stdout w' ++ msgs1)) Hw) as [msgs2 E2].
    exists (msgs1 ++ msgs2). cbn [map_M].
    rewrite (bind_Ret _ _ _ _ _ E1), (bind_Ret _ _ _ _ _ E2).
    unfold ret. simpl. now rewrite app_assoc.
Qed.

Lemma recorded_file_exists (w : world) fs ms (f : string) :
  recorded w fs ms -> In f fs -> is_Some (files w !! f).
Proof.
  induction 1 as [|g m fs ms Hg Hrest IH]; intros Hin; [contradiction|].
  destruct Hin as [->|Hin]; [|now apply IH].
  unfold exif_time, bind, read_metadata in Hg.
  destruct (files w !! f) as [md|]; [eauto|discriminate].
Qed.

(** A run without interval over readable images, on a track for which the
    interpolator fails by [ValueError] only, goes through every image and
    ends normally with its closing line. *)
Theorem main_completes (a : arguments) (file_list : list string) (g : gpx)
    (w : world) (ms : list datetime) :
  (interval a <= 0)%Q ->
  recorded w file_list ms ->
  file_list <> [] ->
  (forall t e,
     interpolate_lat_lon (get_lat_lon_time g (localtime a)) t = Raise e ->
     exists reason, e = ValueError reason) ->
  exists w',
    main a file_list g w = (Ret tt, w') /\
    last (stdout w') = Some (MsgDone (length file_list)).
Proof.
  intros Hle Hrec Hne Hinterp.
  destruct (map_M_recorded w file_list ms Hrec (announced a w)
              (announced_files a w)) as [msgs Emap].
  assert (Eest : estimate_sub_second_time file_list (interval a)
                   (announced a w)
                 = (Ret (Some ms),
                    World (files (announced a w))
                      (stdout (announced a w) ++ msgs))).
  { unfold estimate_sub_second_time. apply Qle_bool_iff in Hle.
    rewrite Hle. now rewrite (bind_Ret _ _ _ _ _ Emap). }
  destruct ms as [|m ms].
  { exfalso. apply Hne. now apply (recorded_nil_iff _ _ _ Hrec). }
  rewrite (main_after_estimate a file_list g w _ m ms Eest).
  set (track := get_lat_lon_time g (localtime a)) in *.
  set (w2 := World (files (announced a w))
               (((stdout (announced a w) ++ msgs) ++ [MsgReadingGpx]) ++
                [MsgStarting (length file_list) (gpx_file a)])).
  destruct (tag_images_completes a track (combine file_list (m :: ms)) w2)
    as [w3 E3].
  { intros f t Hin. split.
    - subst w2. cbn [files]. rewrite announced_files.
      eapply recorded_file_exists; [exact Hrec|].
      eapply in_combine_l; exact Hin.
    - intros e He. eapply Hinterp; exact He. }
  exists (World (files w3) (stdout w3 ++ [MsgDone (length file_list)])).
  split.
  - unfold bind, print. cbn [files stdout]. fold w2. now rewrite E3.
  - cbn [stdout]. apply last_snoc.
Qed.

End Geotag.

(** ** The properties on concrete inputs *)

(** The loader on a track recorded out of order. *)
Example get_lat_lon_time_track_file :
  get_lat_lon_time Sample.utc_to_localtime Sample.track_file false =
  [(5000000, 9%Q, 19%Q, Some 90%Q); (20000000, 10%Q, 20%Q, Some 100%Q);
   (25000000, 12%Q, 22%Q, None); (30000000, 11%Q, 21%Q, None)].
Proof. reflexivity. Qed.

Example get_lat_lon_time_track_file_local :
  map sample_time
    (get_lat_lon_time Sample.utc_to_localtime Sample.track_file true) =
  [7205000000; 7220000000; 7225000000; 7230000000].
Proof. reflexivity. Qed.

(** Samples of one time are ordered by what follows in the tuple, and a
    missing elevation comes before a present one. *)
Example list_sort_ties :
  list_sort [(7, 2%Q, 0%Q, None); (7, 1%Q, 5%Q, Some 3%Q);
             (7, 1%Q, 5%Q, None); (3, 9%Q, 9%Q, None)] =
  [(3, 9%Q, 9%Q, None); (7, 1%Q, 5%Q, None);
   (7, 1%Q, 5%Q, Some 3%Q); (7, 2%Q, 0%Q, None)].
Proof. reflexivity. Qed.

(** Bearings whose sum with the offset is not negative are wrapped. *)
Example add_bearing_offset_wraps :
  (add_bearing_offset 350 20 == 10)%Q /\ (add_bearing_offset 90 180 == 270)%Q.
Proof. split; reflexivity. Qed.

(** C2: the loader on a track file without any point returns the empty
    list, with and without the local-time flag, where the claim has it
    fail. *)
Lemma get_lat_lon_time_empty_returns :
  get_lat_lon_time Sample.utc_to_localtime Sample.empty_track_file true = [] /\
  get_lat_lon_time Sample.utc_to_localtime Sample.empty_track_file false = [].
Proof. split; reflexivity. Qed.

Lemma get_lat_lon_time_empty_witness :
  Spec.all_points Sample.empty_track_file = [] /\
  get_lat_lon_time Sample.utc_to_localtime Sample.empty_track_file true = [].
Proof.
  split; [reflexivity|].
  apply (get_lat_lon_time_empty Sample.utc_to_localtime
           Sample.empty_track_file true).
  reflexivity.
Defined.

(** Recorded times 0, 0 and 5 seconds cannot be two seconds apart. *)
Lemma estimate_fails_iff_timedelta_window_empty_witness :
  (0 < 2)%Q /\
  recorded Sample.int_of_text Sample.burst
    ["a.jpg"; "b.jpg"; "c.jpg"] [0; 0; 5000000] /\
  signals_failure
    (estimate_sub_second_time Sample.int_of_text
       ["a.jpg"; "b.jpg"; "c.jpg"] 2 Sample.burst).
Proof.
  assert (Hpos : (0 < 2)%Q) by reflexivity.
  assert (Hrec : recorded Sample.int_of_text Sample.burst
                   ["a.jpg"; "b.jpg"; "c.jpg"] [0; 0; 5000000]).
  { repeat (constructor; [vm_compute; reflexivity|]). constructor. }
  split; [exact Hpos|]. split; [exact Hrec|].
  destruct (estimate_fails_iff_timedelta_window_empty Sample.int_of_text 2
              Hpos) as (T & Hpin & Hiff).
  apply (Hiff Sample.burst _ _ Hrec).
  rewrite (whole_within_one T 2000000 (2 * 1000000) eq_refl Hpin).
  exists 1000000, (-1000000). vm_compute. repeat split; reflexivity.
Defined.

(** C3: six images recorded at seconds 0, 0, 0, 1, 1 and 2, with shots
    0.33333345 seconds apart.  The bounds of the claim, taken with the
    interval itself, are 333332.75 and 333333.1 microseconds: the largest
    [m_i - i * interval] does not exceed the smallest
    [m_i - i * interval + 1s].  The estimator holds the interval as 333333
    microseconds and gives up. *)
Lemma estimate_fails_within_claimed_window :
  recorded Sample.int_of_text Sample.drift Sample.drift_files
    Sample.drift_times /\
  (0 < Sample.drift_interval)%Q /\
  ~ Spec.real_window_empty Sample.drift_interval Sample.drift_times /\
  timedelta_seconds Sample.drift_interval = 333333 /\
  signals_failure
    (estimate_sub_second_time Sample.int_of_text Sample.drift_files
       Sample.drift_interval Sample.drift).
Proof.
  split; [|split; [|split; [|split]]].
  - repeat (constructor; [vm_compute; reflexivity|]). constructor.
  - reflexivity.
  - intros (lo & hi & Hlo & Hhi & Hlt).
    vm_compute in Hlo, Hhi. injection Hlo as <-. injection Hhi as <-.
    vm_compute in Hlt. discriminate.
  - vm_compute. reflexivity.
  - split; vm_compute; reflexivity.
Qed.

(** Recorded times 10, 12 and 14 seconds, two seconds apart: the window is
    [10s, 11s] and the images are spread from 10.5 seconds. *)
Lemma estimate_timedelta_midpoint_sequence_witness :
  (0 < 2)%Q /\
  recorded Sample.int_of_text Sample.steady
    ["a.jpg"; "b.jpg"; "c.jpg"] [10000000; 12000000; 14000000] /\
  Spec.lowerBound 2000000 [10000000; 12000000; 14000000] = Some 10000000 /\
  Spec.upperBound 2000000 [10000000; 12000000; 14000000] = Some 11000000 /\
  10000000 <= 11000000 /\
  fst (estimate_sub_second_time Sample.int_of_text
         ["a.jpg"; "b.jpg"; "c.jpg"] 2 Sample.steady)
  = Ret (Some [10500000; 12500000; 14500000]).
Proof.
  assert (Hpos : (0 < 2)%Q) by reflexivity.
  assert (Hrec : recorded Sample.int_of_text Sample.steady
                   ["a.jpg"; "b.jpg"; "c.jpg"]
                   [10000000; 12000000; 14000000]).
  { repeat (constructor; [vm_compute; reflexivity|]). constructor. }
  assert (Hle : 10000000 <= 11000000) by lia.
  repeat (split; [first [exact Hpos|exact Hrec|exact Hle|reflexivity]|]).
  destruct (estimate_timedelta_midpoint_sequence Sample.int_of_text 2 Hpos)
    as (T & Hpin & Hseq).
  rewrite (whole_within_one T 2000000 (2 * 1000000) eq_refl Hpin) in Hseq.
  exact (proj1 (Hseq Sample.steady ["a.jpg"; "b.jpg"; "c.jpg"]
                  [10000000; 12000000; 14000000] 10000000 11000000
                  Hrec eq_refl eq_refl Hle)).
Defined.

(** C4: the six images of [Sample.drift] with shots 0.33333345 seconds
    apart.  The window of the claim, [333332.75, 333333.1] microseconds, is
    not empty, and the estimator returns no sequence at all. *)
Lemma estimate_returns_nothing_in_claimed_window :
  recorded Sample.int_of_text Sample.drift Sample.drift_files
    Sample.drift_times /\
  (0 < Sample.drift_interval)%Q /\
  (exists lo hi,
     Spec.real_lowerBound Sample.drift_interval Sample.drift_times = Some lo /\
     Spec.real_upperBound Sample.drift_interval Sample.drift_times = Some hi /\
     (lo == 33333275 # 100)%Q /\ (hi == 3333331 # 10)%Q /\ (lo <= hi)%Q) /\
  fst (estimate_sub_second_time Sample.int_of_text Sample.drift_files
         Sample.drift_interval Sample.drift) = Ret None.
Proof.
  split; [|split; [|split]].
  - repeat (constructor; [vm_compute; reflexivity|]). constructor.
  - reflexivity.
  - eexists. eexists. split; [vm_compute; reflexivity|].
    split; [vm_compute; reflexivity|].
    split; [reflexivity|]. split; [reflexivity|].
    unfold Qle. simpl. lia.
  - vm_compute. reflexivity.
Qed.

(** Without an interval the recorded times come back as read. *)
Lemma estimate_without_interval_witness :
  (0 <= 0)%Q /\
  recorded Sample.int_of_text Sample.steady
    ["a.jpg"; "b.jpg"; "c.jpg"] [10000000; 12000000; 14000000] /\
  fst (estimate_sub_second_time Sample.int_of_text
         ["a.jpg"; "b.jpg"; "c.jpg"] 0 Sample.steady)
  = Ret (Some [10000000; 12000000; 14000000]).
Proof.
  assert (Hle : (0 <= 0)%Q) by (unfold Qle; simpl; lia).
  assert (Hrec : recorded Sample.int_of_text Sample.steady
                   ["a.jpg"; "b.jpg"; "c.jpg"]
                   [10000000; 12000000; 14000000]).
  { repeat (constructor; [vm_compute; reflexivity|]). constructor. }
  split; [exact Hle|]. split; [exact Hrec|].
  exact (estimate_without_interval Sample.int_of_text Sample.steady
           ["a.jpg"; "b.jpg"; "c.jpg"] [10000000; 12000000; 14000000] 0
           Hle Hrec).
Defined.

(** Shots every two seconds from 10.3 seconds on are recorded as 10, 12
    and 14 seconds; the estimate starts within half a second of 10.3. *)
Lemma estimate_recovers_real_base_witness :
  (0 < 2)%Q /\ (1 <= 3)%nat /\
  recorded Sample.int_of_text Sample.steady ["a.jpg"; "b.jpg"; "c.jpg"]
    (Spec.floor_times (103 # 10) (inject_Z 2000000 / inject_Z onesecond) 3) /\
  exists (base' : datetime) (refined : list datetime),
    fst (estimate_sub_second_time Sample.int_of_text
           ["a.jpg"; "b.jpg"; "c.jpg"] 2 Sample.steady)
    = Ret (Some refined) /\
    refined = map (fun i => base' + Z.of_nat i * 2000000) (seq 0 3) /\
    (Qabs (inject_Z base' / inject_Z onesecond - (103 # 10)) <= 1 # 2)%Q /\
    forall (i : nat) (a b : datetime),
      refined !! i = Some a -> refined !! S i = Some b ->
      b - a = 2000000.
Proof.
  assert (Hpos : (0 < 2)%Q) by reflexivity.
  assert (Hn : (1 <= 3)%nat) by lia.
  assert (Hrec : recorded Sample.int_of_text Sample.steady
                   ["a.jpg"; "b.jpg"; "c.jpg"]
                   (Spec.floor_times (103 # 10)
                      (inject_Z 2000000 / inject_Z onesecond) 3)).
  { repeat (constructor; [vm_compute; reflexivity|]). constructor. }
  split; [exact Hpos|]. split; [exact Hn|]. split; [exact Hrec|].
  destruct (estimate_recovers_real_base Sample.int_of_text 2 Hpos)
    as (T & Hpin & Hbase).
  rewrite (whole_within_one T 2000000 (2 * 1000000) eq_refl Hpin) in Hbase.
  exact (Hbase Sample.steady ["a.jpg"; "b.jpg"; "c.jpg"] (103 # 10) 3%nat
           Hn Hrec).
Defined.

(** C6: shots 0.33333345 seconds apart from 0.333333 seconds on are
    recorded as seconds 0, 0, 0, 1, 1 and 2, the times of [Sample.drift];
    on them the estimator gives up. *)
Lemma estimate_fails_on_claimed_times :
  Spec.floor_times (333333 # 1000000) Sample.drift_interval 6
    = Sample.drift_times /\
  (0 < Sample.drift_interval)%Q /\ (1 <= 6)%nat /\
  recorded Sample.int_of_text Sample.drift Sample.drift_files
    Sample.drift_times /\
  signals_failure
    (estimate_sub_second_time Sample.int_of_text Sample.drift_files
       Sample.drift_interval Sample.drift).
Proof.
  split; [vm_compute; reflexivity|]. split; [reflexivity|].
  split; [lia|]. split.
  - repeat (constructor; [vm_compute; reflexivity|]). constructor.
  - split; vm_compute; reflexivity.
Qed.

(** No image and an interval of two seconds. *)
Lemma estimate_empty_unbound_witness :
  (0 < 2)%Q /\
  estimate_sub_second_time Sample.int_of_text [] 2 Sample.steady =
  (Raise (UnboundLocalError "smin"), Sample.steady).
Proof.
  assert (Hpos : (0 < 2)%Q) by reflexivity.
  split; [exact Hpos|].
  exact (estimate_empty_unbound Sample.int_of_text Sample.steady 2 Hpos).
Defined.

(** A batch of three images on the sample track, which spans seconds 5 to
    30: the second image, taken at second 100, is skipped and the third is
    still processed. *)
Lemma tag_images_skips_out_of_range_witness :
  let track :=
    get_lat_lon_time Sample.utc_to_localtime Sample.track_file false in
  let tag_all :=
    tag_images Sample.interpolate_lat_lon Sample.decimal_to_dms
      Sample.options track in
  let w1 := snd (tag_all [("a.jpg", 20000000)] Sample.steady) in
  let skipped :=
    World (files w1)
      (stdout w1 ++
       [MsgSkipping "b.jpg" "Time t not in scope of gpx file."]) in
  tag_all [("a.jpg", 20000000)] Sample.steady = (Ret tt, w1) /\
  is_Some (files Sample.steady !! "b.jpg") /\
  Sample.interpolate_lat_lon track
    (100000000 - timedelta_seconds (time_offset Sample.options))
    = Raise (ValueError "Time t not in scope of gpx file.") /\
  add_exif_using_timestamp Sample.interpolate_lat_lon Sample.decimal_to_dms
    "b.jpg" 100000000 track (time_offset Sample.options)
    (bearing_offset Sample.options) (verbose Sample.options) w1
    = (Ret tt, skipped) /\
  tag_all [("a.jpg", 20000000); ("b.jpg", 100000000); ("c.jpg", 25000000)]
    Sample.steady
  = tag_all [("c.jpg", 25000000)] skipped.
Proof.
  intros track tag_all w1 skipped.
  assert (Hpre : tag_all [("a.jpg", 20000000)] Sample.steady = (Ret tt, w1))
    by (vm_compute; reflexivity).
  assert (Hfile : is_Some (files Sample.steady !! "b.jpg"))
    by (exists (Sample.image_at 12); vm_compute; reflexivity).
  assert (Hout : Sample.interpolate_lat_lon track
                   (100000000 - timedelta_seconds (time_offset Sample.options))
                 = Raise (ValueError "Time t not in scope of gpx file."))
    by (vm_compute; reflexivity).
  split; [exact Hpre|]. split; [exact Hfile|]. split; [exact Hout|].
  exact (tag_images_skips_out_of_range Sample.interpolate_lat_lon
           Sample.decimal_to_dms Sample.options track
           [("a.jpg", 20000000)] [("c.jpg", 25000000)]
           "b.jpg" 100000000 "Time t not in scope of gpx file."
           Sample.steady w1 Hpre Hfile Hout).
Defined.

(** The skipped image keeps its metadata and the one after it is tagged. *)
Example tag_images_sample_batch :
  let track :=
    get_lat_lon_time Sample.utc_to_localtime Sample.track_file false in
  let after :=
    snd (tag_images Sample.interpolate_lat_lon Sample.decimal_to_dms
           Sample.options track
           [("a.jpg", 20000000); ("b.jpg", 100000000); ("c.jpg", 25000000)]
           Sample.steady) in
  files after !! "b.jpg" = Some (Sample.image_at 12) /\
  stdout after = [MsgSkipping "b.jpg" "Time t not in scope of gpx file."] /\
  (exists md, files after !! "c.jpg" = Some md /\
              md !! "Exif.GPSInfo.GPSMapDatum" = Some (ExifText "WGS-84")).
Proof.
  split; [vm_compute; reflexivity|]. split; [vm_compute; reflexivity|].
  eexists. split; [reflexivity|]. vm_compute. reflexivity.
Qed.

(** An image with a capture time of 10 seconds and no sub-second field. *)
Lemma exif_time_subsec_unreadable_witness :
  files Sample.partial !! "a.jpg" = Some (Sample.image_without_subsec 10) /\
  Sample.image_without_subsec 10 !! "Exif.Photo.DateTimeOriginal"
    = Some (ExifDatetime 10000000) /\
  subsec_unreadable Sample.int_of_text (Sample.image_without_subsec 10) /\
  exists report,
    reports_problem "a.jpg" report /\
    exif_time Sample.int_of_text "a.jpg" Sample.partial =
    (Ret 10000000,
     World (files Sample.partial) (stdout Sample.partial ++ [report])).
Proof.
  assert (Hfile : files Sample.partial !! "a.jpg"
                  = Some (Sample.image_without_subsec 10))
    by (vm_compute; reflexivity).
  assert (Htime : Sample.image_without_subsec 10
                    !! "Exif.Photo.DateTimeOriginal"
                  = Some (ExifDatetime 10000000))
    by (vm_compute; reflexivity).
  assert (Hsub : subsec_unreadable Sample.int_of_text
                   (Sample.image_without_subsec 10))
    by (left; vm_compute; reflexivity).
  split; [exact Hfile|]. split; [exact Htime|]. split; [exact Hsub|].
  exact (exif_time_subsec_unreadable Sample.int_of_text Sample.partial
           "a.jpg" (Sample.image_without_subsec 10) 10000000
           Hfile Htime Hsub).
Defined.

(** C9: a batch of two images, the first without a sub-second field and
    the second without a capture time.  The first is reported and keeps its
    place with its recorded time, it is not skipped; the second makes the
    reader raise, and the exception leaves the estimator and ends the run,
    where the claim has both skipped and the batch continue. *)
Lemma exif_time_problems_not_skipped :
  estimate_sub_second_time Sample.int_of_text ["a.jpg"] 0 Sample.partial =
    (Ret (Some [10000000]),
     World (files Sample.partial)
       [MsgExifKeyError "a.jpg" "Exif.Photo.SubSecTimeOriginal"]) /\
  exif_time Sample.int_of_text "b.jpg" Sample.partial =
    (Raise (UnboundLocalError "image_time"),
     World (files Sample.partial)
       [MsgExifKeyError "b.jpg" "Exif.Photo.DateTimeOriginal"]) /\
  fst (main Sample.utc_to_localtime Sample.interpolate_lat_lon
         Sample.decimal_to_dms Sample.int_of_text Sample.options
         ["a.jpg"; "b.jpg"] Sample.track_file Sample.partial)
  = Raise (UnboundLocalError "image_time").
Proof.
  split; [vm_compute; reflexivity|].
  split; vm_compute; reflexivity.
Qed.

(** ** Further properties on concrete inputs *)

Lemma add_bearing_offset_is_modulo_witness :
  (0 <= 350 + 20)%Q /\
  (add_bearing_offset 350 20 == float_mod (350 + 20) 360)%Q /\
  (0 <= add_bearing_offset 350 20)%Q /\
  (add_bearing_offset 350 20 < 360)%Q.
Proof.
  assert (H : (0 <= 350 + 20)%Q) by (vm_compute; discriminate).
  split; [exact H|]. exact (add_bearing_offset_is_modulo 350 20 H).
Defined.

Lemma get_lat_lon_time_keeps_order_witness :
  strictly_later id (Spec.all_points Sample.ordered_track_file) /\
  get_lat_lon_time Sample.utc_to_localtime Sample.ordered_track_file false =
  map (Spec.to_sample id) (Spec.all_points Sample.ordered_track_file).
Proof.
  assert (H : strictly_later id
                (Spec.all_points Sample.ordered_track_file)).
  { unfold strictly_later. simpl.
    repeat (constructor; [|repeat (constructor; [reflexivity|]);
                           constructor]).
    constructor. }
  split; [exact H|].
  exact (get_lat_lon_time_keeps_order Sample.utc_to_localtime
           Sample.ordered_track_file false H).
Defined.

Lemma get_lat_lon_time_localtime_order_witness :
  order_preserving Sample.utc_to_localtime /\
  get_lat_lon_time Sample.utc_to_localtime Sample.track_file true =
  map (shift_time Sample.utc_to_localtime)
      (get_lat_lon_time Sample.utc_to_localtime Sample.track_file false).
Proof.
  assert (H : order_preserving Sample.utc_to_localtime).
  { intros s t Hst. unfold Sample.utc_to_localtime. lia. }
  split; [exact H|].
  exact (get_lat_lon_time_localtime_order Sample.utc_to_localtime
           Sample.track_file H).
Defined.

Lemma exif_time_reads_milliseconds_witness :
  files Sample.precise !! "a.jpg" = Some Sample.image_with_subsec /\
  Sample.image_with_subsec !! "Exif.Photo.DateTimeOriginal"
    = Some (ExifDatetime 10000000) /\
  Sample.image_with_subsec !! "Exif.Photo.SubSecTimeOriginal"
    = Some (ExifText "250") /\
  Sample.int_of_text "250" = Some 250 /\
  exif_time Sample.int_of_text "a.jpg" Sample.precise
    = (Ret (10000000 + 1000 * 250), Sample.precise).
Proof.
  assert (H1 : files Sample.precise !! "a.jpg"
               = Some Sample.image_with_subsec)
    by (vm_compute; reflexivity).
  assert (H2 : Sample.image_with_subsec !! "Exif.Photo.DateTimeOriginal"
               = Some (ExifDatetime 10000000))
    by (vm_compute; reflexivity).
  assert (H3 : Sample.image_with_subsec !! "Exif.Photo.SubSecTimeOriginal"
               = Some (ExifText "250"))
    by (vm_compute; reflexivity).
  assert (H4 : Sample.int_of_text "250" = Some 250) by reflexivity.
  repeat (split; [assumption|]).
  exact (exif_time_reads_milliseconds Sample.int_of_text Sample.precise
           "a.jpg" Sample.image_with_subsec 10000000 "250" 250
           H1 H2 H3 H4).
Defined.

Lemma exif_time_capture_time_unreadable_witness :
  files Sample.partial !! "b.jpg" = Some Sample.image_without_time /\
  capture_time_unreadable Sample.image_without_time /\
  exists report,
    reports_problem "b.jpg" report /\
    exif_time Sample.int_of_text "b.jpg" Sample.partial =
    (Raise (UnboundLocalError "image_time"),
     World (files Sample.partial) (stdout Sample.partial ++ [report])).
Proof.
  assert (H1 : files Sample.partial !! "b.jpg"
               = Some Sample.image_without_time)
    by (vm_compute; reflexivity).
  assert (H2 : capture_time_unreadable Sample.image_without_time)
    by (left; vm_compute; reflexivity).
  split; [exact H1|]. split; [exact H2|].
  exact (exif_time_capture_time_unreadable Sample.int_of_text
           Sample.partial "b.jpg" Sample.image_without_time H1 H2).
Defined.

Lemma estimate_within_recorded_second_witness :
  (0 < 2)%Q /\
  recorded Sample.int_of_text Sample.steady
    ["a.jpg"; "b.jpg"; "c.jpg"] [10000000; 12000000; 14000000] /\
  fst (estimate_sub_second_time Sample.int_of_text
         ["a.jpg"; "b.jpg"; "c.jpg"] 2 Sample.steady)
    = Ret (Some [10500000; 12500000; 14500000]) /\
  Forall2 (fun m r => m <= r <= m + onesecond)
    [10000000; 12000000; 14000000] [10500000; 12500000; 14500000].
Proof.
  assert (Hpos : (0 < 2)%Q) by reflexivity.
  assert (Hrec : recorded Sample.int_of_text Sample.steady
                   ["a.jpg"; "b.jpg"; "c.jpg"]
                   [10000000; 12000000; 14000000]).
  { repeat (constructor; [vm_compute; reflexivity|]). constructor. }
  assert (Hrun : fst (estimate_sub_second_time Sample.int_of_text
                        ["a.jpg"; "b.jpg"; "c.jpg"] 2 Sample.steady)
                 = Ret (Some [10500000; 12500000; 14500000]))
    by (vm_compute; reflexivity).
  split; [exact Hpos|]. split; [exact Hrec|]. split; [exact Hrun|].
  exact (estimate_within_recorded_second Sample.int_of_text Sample.steady
           ["a.jpg"; "b.jpg"; "c.jpg"] [10000000; 12000000; 14000000] 2
           [10500000; 12500000; 14500000] Hpos Hrec Hrun).
Defined.

Lemma estimate_single_image_witness :
  (0 < 2)%Q /\
  recorded Sample.int_of_text Sample.steady ["b.jpg"] [12000000] /\
  fst (estimate_sub_second_time Sample.int_of_text ["b.jpg"] 2
         Sample.steady)
    = Ret (Some [12000000 + onesecond / 2]).
Proof.
  assert (Hpos : (0 < 2)%Q) by reflexivity.
  assert (Hrec : recorded Sample.int_of_text Sample.steady
                   ["b.jpg"] [12000000]).
  { repeat (constructor; [vm_compute; reflexivity|]). constructor. }
  split; [exact Hpos|]. split; [exact Hrec|].
  exact (estimate_single_image Sample.int_of_text Sample.steady
           "b.jpg" 12000000 2 Hpos Hrec).
Defined.

Lemma estimate_reader_raises_witness :
  recorded Sample.int_of_text Sample.partial ["a.jpg"] [10000000] /\
  fst (exif_time Sample.int_of_text "b.jpg" Sample.partial)
    = Raise (UnboundLocalError "image_time") /\
  fst (estimate_sub_second_time Sample.int_of_text
         (["a.jpg"] ++ "b.jpg" :: ["a.jpg"]) 2 Sample.partial)
    = Raise (UnboundLocalError "image_time").
Proof.
  assert (Hrec : recorded Sample.int_of_text Sample.partial
                   ["a.jpg"] [10000000]).
  { repeat (constructor; [vm_compute; reflexivity|]). constructor. }
  assert (Hf : fst (exif_time Sample.int_of_text "b.jpg" Sample.partial)
               = Raise (UnboundLocalError "image_time"))
    by (vm_compute; reflexivity).
  split; [exact Hrec|]. split; [exact Hf|].
  exact (estimate_reader_raises Sample.int_of_text Sample.partial
           ["a.jpg"] [10000000] "b.jpg" ["a.jpg"]
           (UnboundLocalError "image_time") 2 Hrec Hf).
Defined.

(** The first image of the sample batch, at a position of the sample
    track, for a camera that looks 90.567 degrees from north. *)
Lemma tag_image_keeps_other_tags_witness :
  let track :=
    get_lat_lon_time Sample.utc_to_localtime Sample.track_file false in
  let tagged :=
    snd (tag_image Sample.interpolate_heading Sample.decimal_to_dms
           Sample.options track "a.jpg" 20000000 Sample.steady) in
  files Sample.steady !! "a.jpg" = Some (Sample.image_at 10) /\
  Sample.interpolate_heading track (query_time Sample.options 20000000)
    = Ret (9%Q, 19%Q, 90567 # 1000, Some 90%Q) /\
  unsigned_dms (Sample.decimal_to_dms 9 "S" "N") /\
  unsigned_dms (Sample.decimal_to_dms 19 "W" "E") /\
  (0 <= (90567 # 1000) + bearing_offset Sample.options)%Q /\
  exists md',
    files tagged !! "a.jpg" = Some md' /\
    md' !! "Exif.GPSInfo.GPSMapDatum" = Some (ExifText "WGS-84") /\
    md' !! "Exif.GPSInfo.GPSVersionID" = Some (ExifText "2 0 0 0") /\
    md' !! "Exif.Image.GPSTag" = Some (ExifInt 654) /\
    md' !! "Exif.GPSInfo.GPSImgDirectionRef" = Some (ExifText "T") /\
    forall key, ~ In key gps_keys -> md' !! key = Sample.image_at 10 !! key.
Proof.
  intros track tagged.
  assert (H1 : files Sample.steady !! "a.jpg" = Some (Sample.image_at 10))
    by (vm_compute; reflexivity).
  assert (H2 : Sample.interpolate_heading track
                 (query_time Sample.options 20000000)
               = Ret (9%Q, 19%Q, 90567 # 1000, Some 90%Q))
    by (vm_compute; reflexivity).
  assert (H3 : unsigned_dms (Sample.decimal_to_dms 9 "S" "N"))
    by (vm_compute; repeat split; intros H; discriminate H).
  assert (H4 : unsigned_dms (Sample.decimal_to_dms 19 "W" "E"))
    by (vm_compute; repeat split; intros H; discriminate H).
  assert (H5 : (0 <= (90567 # 1000) + bearing_offset Sample.options)%Q)
    by (vm_compute; discriminate).
  split; [exact H1|]. split; [exact H2|]. split; [exact H3|].
  split; [exact H4|]. split; [exact H5|].
  exact (tag_image_keeps_other_tags Sample.interpolate_heading
           Sample.decimal_to_dms Sample.options track Sample.steady
           "a.jpg" 20000000 (Sample.image_at 10)
           9%Q 19%Q (90567 # 1000) (Some 90%Q) H1 H2 H3 H4 H5).
Defined.

Lemma tag_image_altitude_witness :
  let track :=
    get_lat_lon_time Sample.utc_to_localtime Sample.track_file false in
  let tagged :=
    snd (tag_image Sample.interpolate_heading Sample.decimal_to_dms
           Sample.options track "a.jpg" 20000000 Sample.steady) in
  files Sample.steady !! "a.jpg" = Some (Sample.image_at 10) /\
  Sample.interpolate_heading track (query_time Sample.options 20000000)
    = Ret (9%Q, 19%Q, 90567 # 1000, Some 90%Q) /\
  unsigned_dms (Sample.decimal_to_dms 9 "S" "N") /\
  unsigned_dms (Sample.decimal_to_dms 19 "W" "E") /\
  (0 <= (90567 # 1000) + bearing_offset Sample.options)%Q /\
  exists md',
    files tagged !! "a.jpg" = Some md' /\
    (exists tenths : Z,
       md' !! "Exif.GPSInfo.GPSAltitude" =
         Some (ExifFraction (make_fraction tenths 10)) /\
       0 <= tenths /\
       ((Qabs 90 <= 1000000)%Q ->
        (Qabs (make_fraction tenths 10 - Qabs 90) < 1 # 10)%Q)) /\
    md' !! "Exif.GPSInfo.GPSAltitudeRef" =
      Some (ExifText (if Qle_bool 0 90 then "0" else "1")).
Proof.
  intros track tagged.
  assert (H1 : files Sample.steady !! "a.jpg" = Some (Sample.image_at 10))
    by (vm_compute; reflexivity).
  assert (H2 : Sample.interpolate_heading track
                 (query_time Sample.options 20000000)
               = Ret (9%Q, 19%Q, 90567 # 1000, Some 90%Q))
    by (vm_compute; reflexivity).
  assert (H3 : unsigned_dms (Sample.decimal_to_dms 9 "S" "N"))
    by (vm_compute; repeat split; intros H; discriminate H).
  assert (H4 : unsigned_dms (Sample.decimal_to_dms 19 "W" "E"))
    by (vm_compute; repeat split; intros H; discriminate H).
  assert (H5 : (0 <= (90567 # 1000) + bearing_offset Sample.options)%Q)
    by (vm_compute; discriminate).
  split; [exact H1|]. split; [exact H2|]. split; [exact H3|].
  split; [exact H4|]. split; [exact H5|].
  exact (tag_image_altitude Sample.interpolate_heading
           Sample.decimal_to_dms Sample.options track Sample.steady
           "a.jpg" 20000000 (Sample.image_at 10)
           9%Q 19%Q (90567 # 1000) (Some 90%Q) H1 H2 H3 H4 H5).
Defined.

Lemma tag_image_direction_witness :
  let track :=
    get_lat_lon_time Sample.utc_to_localtime Sample.track_file false in
  let tagged :=
    snd (tag_image Sample.interpolate_heading Sample.decimal_to_dms
           Sample.options track "a.jpg" 20000000 Sample.steady) in
  files Sample.steady !! "a.jpg" = Some (Sample.image_at 10) /\
  Sample.interpolate_heading track (query_time Sample.options 20000000)
    = Ret (9%Q, 19%Q, 90567 # 1000, Some 90%Q) /\
  unsigned_dms (Sample.decimal_to_dms 9 "S" "N") /\
  unsigned_dms (Sample.decimal_to_dms 19 "W" "E") /\
  (0 <= (90567 # 1000) + bearing_offset Sample.options)%Q /\
  exists md' (hundredths : Z),
    files tagged !! "a.jpg" = Some md' /\
    md' !! "Exif.GPSInfo.GPSImgDirection" =
      Some (ExifFraction (make_fraction hundredths 100)) /\
    0 <= hundredths <= 36000.
Proof.
  intros track tagged.
  assert (H1 : files Sample.steady !! "a.jpg" = Some (Sample.image_at 10))
    by (vm_compute; reflexivity).
  assert (H2 : Sample.interpolate_heading track
                 (query_time Sample.options 20000000)
               = Ret (9%Q, 19%Q, 90567 # 1000, Some 90%Q))
    by (vm_compute; reflexivity).
  assert (H3 : unsigned_dms (Sample.decimal_to_dms 9 "S" "N"))
    by (vm_compute; repeat split; intros H; discriminate H).
  assert (H4 : unsigned_dms (Sample.decimal_to_dms 19 "W" "E"))
    by (vm_compute; repeat split; intros H; discriminate H).
  assert (H5 : (0 <= (90567 # 1000) + bearing_offset Sample.options)%Q)
    by (vm_compute; discriminate).
  split; [exact H1|]. split; [exact H2|]. split; [exact H3|].
  split; [exact H4|]. split; [exact H5|].
  exact (tag_image_direction Sample.interpolate_heading
           Sample.decimal_to_dms Sample.options track Sample.steady
           "a.jpg" 20000000 (Sample.image_at 10)
           9%Q 19%Q (90567 # 1000) (Some 90%Q) H1 H2 H3 H4 H5).
Defined.

(** The direction 90.567 is written as 9056 hundredths, the elevation of
    90 metres as 900 tenths above sea level. *)
Example tag_image_sample_values :
  let track :=
    get_lat_lon_time Sample.utc_to_localtime Sample.track_file false in
  let tagged :=
    snd (tag_image Sample.interpolate_heading Sample.decimal_to_dms
           Sample.options track "a.jpg" 20000000 Sample.steady) in
  let tag key :=
    match files tagged !! "a.jpg" with
    | Some md' => md' !! key
    | None => None
    end in
  tag "Exif.GPSInfo.GPSImgDirection" = Some (ExifFraction (9056 # 100)) /\
  tag "Exif.GPSInfo.GPSAltitude" = Some (ExifFraction (900 # 10)) /\
  tag "Exif.GPSInfo.GPSAltitudeRef" = Some (ExifText "0").
Proof. vm_compute. repeat split; reflexivity. Qed.

(** The camera mounted backwards: the sum of 90.567 and -180 is negative
    and the image is skipped. *)
Lemma tag_image_negative_direction_witness :
  let track :=
    get_lat_lon_time Sample.utc_to_localtime Sample.track_file false in
  is_Some (files Sample.steady !! "a.jpg") /\
  Sample.interpolate_heading track
    (query_time Sample.options_reversed 20000000)
    = Ret (9%Q, 19%Q, 90567 # 1000, Some 90%Q) /\
  (- (35999 # 100)
   <= (90567 # 1000) + bearing_offset Sample.options_reversed)%Q /\
  ((90567 # 1000) + bearing_offset Sample.options_reversed
   <= - (1 # 100))%Q /\
  exists reason,
    tag_image Sample.interpolate_heading Sample.decimal_to_dms
      Sample.options_reversed track "a.jpg" 20000000 Sample.steady =
    (Ret tt,
     World (files Sample.steady)
       (stdout Sample.steady ++ [MsgSkipping "a.jpg" reason])).
Proof.
  intros track.
  assert (H1 : is_Some (files Sample.steady !! "a.jpg"))
    by (exists (Sample.image_at 10); vm_compute; reflexivity).
  assert (H2 : Sample.interpolate_heading track
                 (query_time Sample.options_reversed 20000000)
               = Ret (9%Q, 19%Q, 90567 # 1000, Some 90%Q))
    by (vm_compute; reflexivity).
  assert (H3 : (- (35999 # 100)
                <= (90567 # 1000) + bearing_offset Sample.options_reversed)%Q)
    by (vm_compute; discriminate).
  assert (H4 : ((90567 # 1000) + bearing_offset Sample.options_reversed
                <= - (1 # 100))%Q)
    by (vm_compute; discriminate).
  split; [exact H1|]. split; [exact H2|]. split; [exact H3|].
  split; [exact H4|].
  exact (tag_image_negative_direction Sample.interpolate_heading
           Sample.decimal_to_dms Sample.options_reversed track Sample.steady
           "a.jpg" 20000000 9%Q 19%Q (90567 # 1000) (Some 90%Q)
           H1 H2 H3 H4).
Defined.

(** The line printed for the image that is skipped. *)
Example tag_image_negative_direction_reason :
  let track :=
    get_lat_lon_time Sample.utc_to_localtime Sample.track_file false in
  snd (tag_image Sample.interpolate_heading Sample.decimal_to_dms
         Sample.options_reversed track "a.jpg" 20000000 Sample.steady) =
  World (files Sample.steady)
    [MsgSkipping "a.jpg" "Invalid value for EXIF type [Rational]: [-8943/100]"].
Proof. vm_compute. reflexivity. Qed.

Lemma tag_images_other_files_witness :
  let track :=
    get_lat_lon_time Sample.utc_to_localtime Sample.track_file false in
  let run :=
    tag_images Sample.interpolate_lat_lon Sample.decimal_to_dms
      Sample.options track [("a.jpg", 20000000)] Sample.steady in
  tag_images Sample.interpolate_lat_lon Sample.decimal_to_dms
    Sample.options track [("a.jpg", 20000000)] Sample.steady
    = (fst run, snd run) /\
  ~ In "b.jpg" (batch_files [("a.jpg", 20000000)]) /\
  files (snd run) !! "b.jpg" = files Sample.steady !! "b.jpg".
Proof.
  intros track run.
  assert (H1 : tag_images Sample.interpolate_lat_lon Sample.decimal_to_dms
                 Sample.options track [("a.jpg", 20000000)] Sample.steady
               = (fst run, snd run)) by apply surjective_pairing.
  assert (H2 : ~ In "b.jpg" (batch_files [("a.jpg", 20000000)])).
  { simpl. intros [H|[]]. discriminate. }
  split; [exact H1|]. split; [exact H2|].
  exact (tag_images_other_files Sample.interpolate_lat_lon
           Sample.decimal_to_dms Sample.options track
           [("a.jpg", 20000000)] Sample.steady (snd run) (fst run)
           "b.jpg" H1 H2).
Defined.

Lemma tag_images_aborts_witness :
  tag_images Sample.interpolate_lat_lon Sample.decimal_to_dms
    Sample.options [] [] Sample.steady = (Ret tt, Sample.steady) /\
  is_Some (files Sample.steady !! "a.jpg") /\
  Sample.interpolate_lat_lon [] (query_time Sample.options 20000000)
    = Raise (IndexError "list index out of range") /\
  (forall reason,
     IndexError "list index out of range" <> ValueError reason) /\
  tag_images Sample.interpolate_lat_lon Sample.decimal_to_dms
    Sample.options [] ([] ++ ("a.jpg", 20000000) :: [("b.jpg", 25000000)])
    Sample.steady
  = (Raise (IndexError "list index out of range"), Sample.steady).
Proof.
  assert (H1 : tag_images Sample.interpolate_lat_lon Sample.decimal_to_dms
                 Sample.options [] [] Sample.steady
               = (Ret tt, Sample.steady)) by reflexivity.
  assert (H2 : is_Some (files Sample.steady !! "a.jpg"))
    by (exists (Sample.image_at 10); vm_compute; reflexivity).
  assert (H3 : Sample.interpolate_lat_lon []
                 (query_time Sample.options 20000000)
               = Raise (IndexError "list index out of range"))
    by reflexivity.
  assert (H4 : forall reason,
             IndexError "list index out of range" <> ValueError reason)
    by discriminate.
  repeat (split; [assumption|]).
  exact (tag_images_aborts Sample.interpolate_lat_lon Sample.decimal_to_dms
           Sample.options [] [] [("b.jpg", 25000000)] "a.jpg" 20000000
           (IndexError "list index out of range")
           Sample.steady Sample.steady H1 H2 H3 H4).
Defined.

Lemma main_inconsistent_interval_exits_witness :
  (0 < interval Sample.options_interval)%Q /\
  recorded Sample.int_of_text Sample.burst
    ["a.jpg"; "b.jpg"; "c.jpg"] [0; 0; 5000000] /\
  Spec.window_empty (timedelta_seconds (interval Sample.options_interval))
    [0; 0; 5000000] /\
  exists msgs,
    main Sample.utc_to_localtime Sample.interpolate_lat_lon
      Sample.decimal_to_dms Sample.int_of_text Sample.options_interval
      ["a.jpg"; "b.jpg"; "c.jpg"] Sample.track_file Sample.burst =
    (Raise (SystemExit 1),
     World (files Sample.burst)
       ((stdout (announced Sample.options_interval Sample.burst) ++ msgs)
        ++ [MsgIntervalIncompatible])).
Proof.
  assert (Hpos : (0 < interval Sample.options_interval)%Q) by reflexivity.
  assert (Hrec : recorded Sample.int_of_text Sample.burst
                   ["a.jpg"; "b.jpg"; "c.jpg"] [0; 0; 5000000]).
  { repeat (constructor; [vm_compute; reflexivity|]). constructor. }
  assert (Hwin : Spec.window_empty
                   (timedelta_seconds (interval Sample.options_interval))
                   [0; 0; 5000000]).
  { exists 1000000, (-1000000). vm_compute. repeat split; reflexivity. }
  split; [exact Hpos|]. split; [exact Hrec|]. split; [exact Hwin|].
  exact (main_inconsistent_interval_exits Sample.utc_to_localtime
           Sample.interpolate_lat_lon Sample.decimal_to_dms
           Sample.int_of_text Sample.options_interval
           ["a.jpg"; "b.jpg"; "c.jpg"] Sample.track_file Sample.burst
           [0; 0; 5000000] Hpos Hrec Hwin).
Defined.

Lemma main_completes_witness :
  (interval Sample.options <= 0)%Q /\
  recorded Sample.int_of_text Sample.steady
    ["a.jpg"; "b.jpg"; "c.jpg"] [10000000; 12000000; 14000000] /\
  ["a.jpg"; "b.jpg"; "c.jpg"] <> [] /\
  (forall t e,
     Sample.interpolate_lat_lon
       (get_lat_lon_time Sample.utc_to_localtime Sample.track_file
          (localtime Sample.options)) t = Raise e ->
     exists reason, e = ValueError reason) /\
  exists w',
    main Sample.utc_to_localtime Sample.interpolate_lat_lon
      Sample.decimal_to_dms Sample.int_of_text Sample.options
      ["a.jpg"; "b.jpg"; "c.jpg"] Sample.track_file Sample.steady
    = (Ret tt, w') /\
    last (stdout w') = Some (MsgDone (length ["a.jpg"; "b.jpg"; "c.jpg"])).
Proof.
  assert (Hle : (interval Sample.options <= 0)%Q)
    by (vm_compute; discriminate).
  assert (Hrec : recorded Sample.int_of_text Sample.steady
                   ["a.jpg"; "b.jpg"; "c.jpg"]
                   [10000000; 12000000; 14000000]).
  { repeat (constructor; [vm_compute; reflexivity|]). constructor. }
  assert (Hne : ["a.jpg"; "b.jpg"; "c.jpg"] <> []) by discriminate.
  assert (Hint : forall t e,
             Sample.interpolate_lat_lon
               (get_lat_lon_time Sample.utc_to_localtime Sample.track_file
                  (localtime Sample.options)) t = Raise e ->
             exists reason, e = ValueError reason).
  { intros t e H. unfold Sample.interpolate_lat_lon in H.
    destruct (get_lat_lon_time Sample.utc_to_localtime Sample.track_file
                (localtime Sample.options)) as [|p tr] eqn:E;
      [discriminate E|].
    destruct ((t <? sample_time p) ||
              (sample_time (List.last (p :: tr) p) <? t)).
    - injection H as <-. eauto.
    - destruct p as [[[t0 lat] lon] ele]. discriminate. }
  split; [exact Hle|]. split; [exact Hrec|]. split; [exact Hne|].
  split; [exact Hint|].
  exact (main_completes Sample.utc_to_localtime Sample.interpolate_lat_lon
           Sample.decimal_to_dms Sample.int_of_text Sample.options
           ["a.jpg"; "b.jpg"; "c.jpg"] Sample.track_file Sample.steady
           [10000000; 12000000; 14000000] Hle Hrec Hne Hint).
Defined.

(** ** The date-fixing script: properties *)

Section FixDatesFacts.

(** One image stamped: the two time tags are set, every other tag of the
    image and every other file stay as they were. *)
Lemma add_exif_stamps (w : FixDates.world) (f : string)
    (md : gmap string exif_value) (start : datetime) (offset : Q)
    (v : bool) :
  FixDates.files w !! f = Some md ->
  exists md',
    FixDates.add_exif_using_timestamp f start offset v w =
    (FixDates.Done tt,
     FixDates.World (<[f := md']> (FixDates.files w))
       (FixDates.stdout w ++
        if v
        then [FixDates.MsgSetting f
                (start + timedelta_whole_seconds (int_of_float offset))
                offset]
        else [])
       (FixDates.stderr w)) /\
    md' !! "Exif.Photo.DateTimeOriginal" =
      Some (ExifDatetime
              (start + timedelta_whole_seconds (int_of_float offset))) /\
    md' !! "Exif.Photo.SubSecTimeOriginal" =
      Some (ExifText
              (str_of_int (int_of_float (float_mod offset 1 * 1000)))) /\
    forall key,
      key <> "Exif.Photo.DateTimeOriginal" ->
      key <> "Exif.Photo.SubSecTimeOriginal" ->
      md' !! key = md !! key.
Proof.
  intros Hmd. unfold FixDates.add_exif_using_timestamp. rewrite Hmd.
  exists (<["Exif.Photo.SubSecTimeOriginal" :=
             ExifText
               (str_of_int (int_of_float (float_mod offset 1 * 1000)))]>
            (<["Exif.Photo.DateTimeOriginal" :=
                ExifDatetime
                  (start + timedelta_whole_seconds (int_of_float offset))]>
               md)).
  split; [|split; [|split]].
  - destruct v; cbn [FixDates.files FixDates.stdout FixDates.stderr];
      [reflexivity|].
    now rewrite app_nil_r.
  - rewrite lookup_insert_ne by discriminate. apply lookup_insert_eq.
  - apply lookup_insert_eq.
  - intros key H1 H2. now rewrite !lookup_insert_ne by congruence.
Qed.

(** The geotagging script reads from a stamped image the start time plus
    the whole seconds of the offset plus its fraction in milliseconds. *)
Lemma stamped_read_back (int_of_text : string -> option Z)
    (w : FixDates.world) (f : string) (md : gmap string exif_value)
    (start : datetime) (offset : Q) (v : bool) (out : list message) :
  FixDates.files w !! f = Some md ->
  let ms := int_of_float (float_mod offset 1 * 1000) in
  int_of_text (str_of_int ms) = Some ms ->
  let stamped :=
    FixDates.files
      (snd (FixDates.add_exif_using_timestamp f start offset v w)) in
  exif_time int_of_text f (World stamped out)
  = (Ret (start + timedelta_whole_seconds (int_of_float offset) + 1000 * ms),
     World stamped out).
Proof.
  intros Hmd ms Hms stamped.
  destruct (add_exif_stamps w f md start offset v Hmd)
    as (md' & E & Htime & Hsub & _).
  subst stamped. rewrite E. cbn [snd FixDates.files].
  unfold exif_time.
  erewrite bind_Ret
    by (unfold read_metadata; cbn [files]; now rewrite lookup_insert_eq).
  unfold tag_value. rewrite Htime, Hsub. simpl. fold ms. rewrite Hms.
  reflexivity.
Qed.

Lemma float_mod_one (x : Q) :
  (float_mod x 1 == x - inject_Z (Qfloor x))%Q.
Proof.
  unfold float_mod.
  assert (Hdiv : (x / 1 == x)%Q) by field.
  rewrite (Qfloor_comp _ _ Hdiv). ring.
Qed.

Lemma int_of_float_nonnegative (x : Q) :
  (0 <= x)%Q -> int_of_float x = Qfloor x.
Proof.
  intros Hx. destruct x as [n d]. unfold int_of_float, Qfloor. simpl.
  unfold Qle in Hx. simpl in Hx. apply Z.quot_div_nonneg; lia.
Qed.

Lemma int_of_float_negative (x : Q) :
  (x < 0)%Q -> (inject_Z (Qfloor x) < x)%Q ->
  int_of_float x = Qfloor x + 1.
Proof.
  destruct x as [n d]. unfold int_of_float, Qfloor, Qlt. simpl.
  intros Hneg Hfrac.
  Z.div_mod_to_equations. Z.quot_rem_to_equations. nia.
Qed.

(** The milliseconds written to the sub-second field. *)
Lemma subsec_range (offset : Q) :
  let ms := int_of_float (float_mod offset 1 * 1000) in
  0 <= ms <= 999 /\
  (inject_Z ms <= (offset - inject_Z (Qfloor offset)) * 1000)%Q /\
  ((offset - inject_Z (Qfloor offset)) * 1000 < inject_Z ms + 1)%Q.
Proof.
  intros ms.
  pose proof (Qfloor_le offset) as Hlo.
  pose proof (Qlt_floor offset) as Hhi. rewrite inject_Z_plus in Hhi.
  change (inject_Z 1) with 1%Q in Hhi.
  destruct (int_of_float_floor (float_mod offset 1 * 1000)) as [Mlo Mhi].
  { rewrite float_mod_one. lra. }
  fold ms in Mlo, Mhi. rewrite float_mod_one in Mlo, Mhi.
  split; [|split; assumption].
  assert (H0 : (inject_Z (-1) < inject_Z ms)%Q)
    by (change (inject_Z (-1)) with (-1)%Q; lra).
  assert (H1 : (inject_Z ms < inject_Z 1000)%Q)
    by (change (inject_Z 1000) with 1000%Q; lra).
  rewrite <- Zlt_Qlt in H0, H1. lia.
Qed.

(** An image stamped with an offset that is not negative is read by the
    geotagging script as taken less than a millisecond from the start time
    plus the offset.  Nothing is printed on reading. *)
Theorem stamped_time_within_millisecond (int_of_text : string -> option Z)
    (w : FixDates.world) (f : string) (md : gmap string exif_value)
    (start : datetime) (offset : Q) (v : bool) (out : list message) :
  FixDates.files w !! f = Some md ->
  (0 <= offset)%Q ->
  (forall k, 0 <= k <= 1000 -> int_of_text (str_of_int k) = Some k) ->
  let stamped :=
    FixDates.files
      (snd (FixDates.add_exif_using_timestamp f start offset v w)) in
  exists t : datetime,
    exif_time int_of_text f (World stamped out)
    = (Ret t, World stamped out) /\
    (Qabs (inject_Z t - (inject_Z start + offset * 1000000)) < 1000)%Q.
Proof.
  intros Hmd Hpos Hint stamped.
  destruct (subsec_range offset) as (Hms & Mlo & Mhi).
  set (ms := int_of_float (float_mod offset 1 * 1000)) in *.
  exists (start + timedelta_whole_seconds (int_of_float offset) + 1000 * ms).
  split.
  { apply (stamped_read_back int_of_text w f md); [exact Hmd|].
    apply Hint. fold ms. lia. }
  rewrite (int_of_float_nonnegative offset Hpos).
  unfold timedelta_whole_seconds.
  rewrite !inject_Z_plus, !inject_Z_mult.
  change (inject_Z 1000000) with 1000000%Q.
  change (inject_Z 1000) with 1000%Q.
  set (fl := inject_Z (Qfloor offset)) in *. clearbody fl.
  set (m := inject_Z ms) in *. clearbody m.
  set (s := inject_Z start). clearbody s.
  apply Qabs_Qlt_condition. split; lra.
Qed.

(** With a negative offset that is not a whole number of seconds the
    seconds are cut towards zero while the fraction is counted upwards, so
    the image is stamped about one second late: the time read back lies
    between 0.99 and 1.01 seconds after the start time plus the offset. *)
Theorem stamped_time_negative_offset_late (int_of_text : string -> option Z)
    (w : FixDates.world) (f : string) (md : gmap string exif_value)
    (start : datetime) (offset : Q) (v : bool) (out : list message) :
  FixDates.files w !! f = Some md ->
  (offset < 0)%Q ->
  (inject_Z (Qfloor offset) < offset)%Q ->
  (forall k, 0 <= k <= 1000 -> int_of_text (str_of_int k) = Some k) ->
  let stamped :=
    FixDates.files
      (snd (FixDates.add_exif_using_timestamp f start offset v w)) in
  exists t : datetime,
    exif_time int_of_text f (World stamped out)
    = (Ret t, World stamped out) /\
    (inject_Z start + offset * 1000000 + 990000 <= inject_Z t)%Q /\
    (inject_Z t <= inject_Z start + offset * 1000000 + 1010000)%Q.
Proof.
  intros Hmd Hneg Hfrac Hint stamped.
  destruct (subsec_range offset) as (Hms & Mlo & Mhi).
  set (ms := int_of_float (float_mod offset 1 * 1000)) in *.
  exists (start + timedelta_whole_seconds (int_of_float offset) + 1000 * ms).
  split.
  { apply (stamped_read_back int_of_text w f md); [exact Hmd|].
    apply Hint. fold ms. lia. }
  rewrite (int_of_float_negative offset Hneg Hfrac).
  unfold timedelta_whole_seconds.
  rewrite !inject_Z_plus, !inject_Z_mult, inject_Z_plus.
  change (inject_Z 1000000) with 1000000%Q.
  change (inject_Z 1000) with 1000%Q.
  change (inject_Z 1) with 1%Q.
  set (fl := inject_Z (Qfloor offset)) in *. clearbody fl.
  set (m := inject_Z ms) in *. clearbody m.
  set (s := inject_Z start). clearbody s.
  split; lra.
Qed.

Lemma fix_sort_insert_Permutation (x : string) (l : list string) :
  Permutation (FixDates.sort_insert x l) (x :: l).
Proof.
  induction l as [|y l IH]; simpl; [reflexivity|].
  destruct (String.ltb y x); [|reflexivity].
  rewrite IH. apply perm_swap.
Qed.

Lemma fix_list_sort_Permutation (l : list string) :
  Permutation (FixDates.list_sort l) l.
Proof.
  induction l as [|x l IH]; simpl; [reflexivity|].
  rewrite fix_sort_insert_Permutation. now constructor.
Qed.

Lemma ltb_true_leb (x y : string) :
  String.ltb x y = true -> String.leb x y = true.
Proof.
  unfold String.ltb, String.leb. now destruct (String.compare x y).
Qed.

Lemma ltb_false_leb (x y : string) :
  String.ltb y x = false -> String.leb x y = true.
Proof.
  unfold String.ltb, String.leb. rewrite (String.compare_antisym x y).
  now destruct (String.compare y x).
Qed.

Lemma fix_sort_insert_Sorted (x : string) (l : list string) :
  Sorted (fun a b => String.leb a b = true) l ->
  Sorted (fun a b => String.leb a b = true) (FixDates.sort_insert x l).
Proof.
  induction 1 as [|y l Hs IH Hy]; simpl.
  - repeat constructor.
  - destruct (String.ltb y x) eqn:E.
    + constructor; [exact IH|].
      destruct l as [|z l']; simpl.
      * constructor. now apply ltb_true_leb.
      * destruct (String.ltb z x); constructor.
        -- now inversion Hy.
        -- now apply ltb_true_leb.
    + constructor; [now constructor|].
      constructor. now apply ltb_false_leb.
Qed.

Lemma fix_list_sort_Sorted (l : list string) :
  Sorted (fun a b => String.leb a b = true) (FixDates.list_sort l).
Proof.
  induction l as [|x l IH]; simpl; [constructor|].
  now apply fix_sort_insert_Sorted.
Qed.

Lemma stamp_all_spec (l : list string) (start : datetime) (off : Q)
    (v : bool) :
  forall (inc : Q) (w : FixDates.world),
    List.NoDup l ->
    (forall f, In f l -> is_Some (FixDates.files w !! f)) ->
    exists w',
      FixDates.stamp_all l start inc off v w = (FixDates.Done tt, w') /\
      (forall (k : nat) (f : string),
         l !! k = Some f ->
         exists md,
           FixDates.files w' !! f = Some md /\
           FixDates.stamped_with start
             (Nat.iter k (fun x => (x + off)%Q) inc) md) /\
      (forall g, ~ In g l ->
         FixDates.files w' !! g = FixDates.files w !! g).
Proof.
  induction l as [|f l IH]; intros inc w Hnodup Hall.
  - exists w. split; [reflexivity|]. split; [|reflexivity].
    intros k f Hk. discriminate.
  - inversion Hnodup as [|? ? Hf Hl]; subst.
    destruct (Hall f (or_introl eq_refl)) as [md Hmd].
    destruct (add_exif_stamps w f md start inc v Hmd)
      as (md' & E & Htime & Hsub & _).
    set (w1 := FixDates.World (<[f := md']> (FixDates.files w))
                 (FixDates.stdout w ++
                  if v
                  then [FixDates.MsgSetting f
                          (start +
                           timedelta_whole_seconds (int_of_float inc)) inc]
                  else [])
                 (FixDates.stderr w)) in *.
    destruct (IH (inc + off)%Q w1) as (w' & Erest & Hstamped & Hframe).
    { exact Hl. }
    { intros g Hg. subst w1. cbn [FixDates.files].
      apply lookup_insert_is_Some'. right. apply Hall. now right. }
    exists w'. split; [|split].
    + cbn [FixDates.stamp_all]. rewrite E. exact Erest.
    + intros k g Hk. destruct k as [|k]; simpl in Hk.
      * injection Hk as <-. exists md'. split; [|now split].
        rewrite Hframe.
        -- subst w1. cbn [FixDates.files]. apply lookup_insert_eq.
        -- exact Hf.
      * destruct (Hstamped k g Hk) as (mdg & Hg & Hst).
        exists mdg. split; [exact Hg|].
        now rewrite Nat.iter_succ_r.
    + intros g Hg. rewrite Hframe by (intros Hin; apply Hg; now right).
      subst w1. cbn [FixDates.files]. apply lookup_insert_ne.
      intros ->. apply Hg. now left.
Qed.

Lemma offset_at_iter (off : Q) (k : nat) :
  FixDates.offset_at off k = Nat.iter k (fun x => (x + off)%Q) 0%Q.
Proof. induction k as [|k IH]; simpl; [reflexivity|]. now rewrite IH. Qed.

Lemma offset_at_unsigned (off : Q) (k : nat) :
  (0 <= off)%Q -> (0 <= FixDates.offset_at off k)%Q.
Proof.
  intros Hoff. induction k as [|k IH]; simpl; [apply Qle_refl|]. lra.
Qed.

(** The whole seconds of the running offset never go down when the
    increment is not negative. *)
Lemma offset_seconds_monotone (off : Q) (k : nat) :
  (0 <= off)%Q ->
  0 <= int_of_float (FixDates.offset_at off k)
    <= int_of_float (FixDates.offset_at off (S k)).
Proof.
  intros Hoff.
  pose proof (offset_at_unsigned off k Hoff) as Hk.
  pose proof (offset_at_unsigned off (S k) Hoff) as HSk.
  rewrite !int_of_float_nonnegative by assumption. split.
  - change 0 with (Qfloor 0). now apply Qfloor_resp_le.
  - apply Qfloor_resp_le. simpl. lra.
Qed.

Lemma steps_Sorted (g : nat -> Z) (n : nat) :
  (forall k, g k <= g (S k)) ->
  forall i, Sorted Z.le (map g (seq i n)).
Proof.
  intros Hg. induction n as [|n IH]; intros i; simpl; constructor.
  - apply IH.
  - destruct n; simpl; constructor. apply Hg.
Qed.

(** On a directory whose images all exist, with an increment that is not
    negative, the run stamps every image and returns normally.  The images
    are taken in ascending order of their names whatever order they were
    found in: the first gets the start time itself and the sub-second field
    "0", every image gets both time tags, with a capture time of whole
    seconds that is not before the start time nor before the capture time
    of the image ahead of it; image files that were not found stay as they
    were. *)
Theorem main_stamps_names_in_time_order (strptime : string -> option Z)
    (found : list string) (a : FixDates.arguments) (w : FixDates.world)
    (seconds : Z) :
  endswith (lower (FixDates.images_path a)) ".jpg" = false ->
  strptime (FixDates.start_time a) = Some seconds ->
  List.NoDup found ->
  (forall f, In f found -> is_Some (FixDates.files w !! f)) ->
  (0 <= FixDates.increment a)%Q ->
  let start := timedelta_whole_seconds seconds in
  exists (order : list string) (times : list datetime)
         (w' : FixDates.world),
    FixDates.main strptime true found a w = (FixDates.Done tt, w') /\
    Permutation order found /\
    Sorted (fun x y => String.leb x y = true) order /\
    Forall2
      (fun f t =>
         exists md,
           FixDates.files w' !! f = Some md /\
           md !! "Exif.Photo.DateTimeOriginal" = Some (ExifDatetime t) /\
           is_Some (md !! "Exif.Photo.SubSecTimeOriginal"))
      order times /\
    (forall f, order !! 0%nat = Some f ->
       exists md,
         FixDates.files w' !! f = Some md /\
         md !! "Exif.Photo.DateTimeOriginal" = Some (ExifDatetime start) /\
         md !! "Exif.Photo.SubSecTimeOriginal" = Some (ExifText "0")) /\
    Sorted Z.le times /\
    List.Forall (fun t => start <= t /\ (onesecond | t - start)) times /\
    (forall g, ~ In g found ->
       FixDates.files w' !! g = FixDates.files w !! g).
Proof.
  intros Hpath Hstart Hnodup Hall Hinc start.
  pose proof (fix_list_sort_Permutation found) as Hperm.
  destruct (stamp_all_spec (FixDates.list_sort found) start
              (FixDates.increment a) (FixDates.verbose a) 0%Q w)
    as (w' & E & Hstamped & Hframe).
  { eapply Permutation_NoDup; [symmetry; exact Hperm|exact Hnodup]. }
  { intros f Hf. apply Hall. eapply Permutation_in; eassumption. }
  set (order := FixDates.list_sort found) in *.
  set (seconds_at := fun k : nat =>
         start + timedelta_whole_seconds
                   (int_of_float
                      (FixDates.offset_at (FixDates.increment a) k))).
  exists order, (map seconds_at (seq 0 (length order))), w'.
  split; [|split; [|split; [|split; [|split; [|split; [|split]]]]]].
  - unfold FixDates.main. rewrite Hpath, Hstart. exact E.
  - exact Hperm.
  - apply fix_list_sort_Sorted.
  - apply Forall2_same_length_lookup_2.
    + now rewrite length_map, length_seq.
    + intros k f t Hf Ht. rewrite list_lookup_fmap in Ht.
      destruct (seq 0 (length order) !! k) as [k'|] eqn:Hk; [|discriminate].
      apply lookup_seq in Hk. destruct Hk as [-> _]. simpl in Ht.
      injection Ht as <-.
      destruct (Hstamped k f Hf) as (md & Hmd & Htime & Hsub).
      rewrite <- offset_at_iter in Htime, Hsub.
      exists md. split; [exact Hmd|]. split; [exact Htime|].
      rewrite Hsub. eexists. reflexivity.
  - intros f Hf. destruct (Hstamped 0%nat f Hf) as (md & Hmd & Htime & Hsub).
    exists md. split; [exact Hmd|]. split; [|exact Hsub].
    rewrite Htime. simpl. do 2 f_equal.
    change (int_of_float 0) with 0. unfold timedelta_whole_seconds. lia.
  - apply steps_Sorted. intros k. unfold seconds_at.
    pose proof (offset_seconds_monotone (FixDates.increment a) k Hinc).
    unfold timedelta_whole_seconds. lia.
  - apply List.Forall_forall. intros t Ht. apply in_map_iff in Ht.
    destruct Ht as (k & <- & _). unfold seconds_at.
    pose proof (offset_seconds_monotone (FixDates.increment a) k Hinc).
    unfold timedelta_whole_seconds, onesecond. split; [lia|].
    exists (int_of_float (FixDates.offset_at (FixDates.increment a) k)). lia.
  - intros g Hg. apply Hframe. intros Hin. apply Hg.
    eapply Permutation_in; eassumption.
Qed.

Lemma stamp_all_failure (l : list string) (start : datetime) (off : Q)
    (v : bool) :
  forall (inc : Q) (w w' : FixDates.world) (e : FixDates.failure),
    FixDates.stamp_all l start inc off v w = (FixDates.Failed e, w') ->
    exists file, e = FixDates.IOError file.
Proof.
  induction l as [|f l IH]; intros inc w w' e Hrun; simpl in Hrun.
  - discriminate.
  - unfold FixDates.add_exif_using_timestamp in Hrun.
    destruct (FixDates.files w !! f) as [md|].
    + eapply IH. exact Hrun.
    + injection Hrun as <- _. eauto.
Qed.

(** A run that ends because the path is neither an image nor a directory,
    or because the start time cannot be parsed, has changed no image file
    and printed no progress line; only a missing image file can end a run
    that has begun stamping. *)
Theorem main_fails_before_stamping (strptime : string -> option Z)
    (isdir : bool) (found : list string) (a : FixDates.arguments)
    (w : FixDates.world) (e : FixDates.failure) :
  fst (FixDates.main strptime isdir found a w) = FixDates.Failed e ->
  (forall file, e <> FixDates.IOError file) ->
  FixDates.files (snd (FixDates.main strptime isdir found a w))
    = FixDates.files w /\
  FixDates.stdout (snd (FixDates.main strptime isdir found a w))
    = FixDates.stdout w /\
  (e = FixDates.NameError "file_list" \/
   e = FixDates.ValueError (FixDates.start_time a)).
Proof.
  unfold FixDates.main. intros Hrun Hother.
  destruct (endswith (lower (FixDates.images_path a)) ".jpg").
  - destruct (strptime (FixDates.start_time a)) as [seconds|].
    + destruct (FixDates.stamp_all _ _ _ _ _ w) as [r w'] eqn:E.
      simpl in Hrun. subst r.
      destruct (stamp_all_failure _ _ _ _ _ _ _ _ E) as [file ->].
      now destruct (Hother file).
    + simpl in Hrun. injection Hrun as <-. auto.
  - destruct isdir.
    + destruct (strptime (FixDates.start_time a)) as [seconds|].
      * destruct (FixDates.stamp_all _ _ _ _ _ w) as [r w'] eqn:E.
        simpl in Hrun. subst r.
        destruct (stamp_all_failure _ _ _ _ _ _ _ _ E) as [file ->].
        now destruct (Hother file).
      * simpl in Hrun. injection Hrun as <-. auto.
    + simpl in Hrun. injection Hrun as <-. auto.
Qed.


Lemma round_half_even_integer (x : Q) (z : Z) :
  (x == inject_Z z)%Q -> round_half_even x = z.
Proof.
  intros E. unfold round_half_even.
  rewrite (Qfloor_comp _ _ E), Qfloor_Z.
  assert (H : ((x - inject_Z z) ?= 1 # 2)%Q = Lt).
  { apply Qlt_alt. rewrite E.
    assert (Hz : (inject_Z z - inject_Z z == 0)%Q) by ring.
    rewrite Hz. reflexivity. }
  now rewrite H.
Qed.

Lemma timedelta_seconds_integer (n : Z) :
  timedelta_seconds (inject_Z n) = n * onesecond.
Proof.
  unfold timedelta_seconds. apply round_half_even_integer.
  rewrite inject_Z_mult. reflexivity.
Qed.

Lemma whole_increments (n : Z) (k : nat) :
  exists z,
    Nat.iter k (fun x => (x + inject_Z n)%Q) 0%Q = z # 1 /\
    z = Z.of_nat k * n.
Proof.
  induction k as [|k (z & E & Hz)].
  - exists 0. split; reflexivity.
  - exists (z * 1 + n * 1). split.
    + rewrite Nat.iter_succ, E. reflexivity.
    + lia.
Qed.

Lemma subsec_of_whole (z : Z) :
  int_of_float (float_mod (z # 1) 1 * 1000) = 0.
Proof.
  assert (E : (float_mod (z # 1) 1 * 1000 == 0)%Q).
  { rewrite float_mod_one.
    assert (Hf : Qfloor (z # 1) = z) by (unfold Qfloor; apply Z.div_1_r).
    rewrite Hf. unfold Qeq. simpl. lia. }
  destruct (float_mod (z # 1) 1 * 1000)%Q as [num den].
  unfold Qeq in E. simpl in E. unfold int_of_float. simpl.
  assert (num = 0) by lia. subst num. apply Z.quot_0_l. lia.
Qed.

Lemma offsets_of_steps (T start : Z) (len i : nat) :
  List.Forall (fun o => o = start)
    (Spec.offsets T i
       (map (fun k => start + Z.of_nat k * T) (seq i len))).
Proof.
  revert i. induction len as [|len IH]; intros i; simpl; constructor.
  - lia.
  - apply IH.
Qed.

(** The two scripts fit together: images that the date-fixing script has
    stamped a whole number [n] of seconds apart are accepted by the
    estimator of the geotagging script with the interval [n], which puts
    the image of index [k], in ascending order of names, half a second
    after its stamped time. *)
Theorem stamped_images_fit_interval (int_of_text : string -> option Z)
    (strptime : string -> option Z) (found : list string)
    (a : FixDates.arguments) (w : FixDates.world) (seconds n : Z)
    (out : list message) :
  endswith (lower (FixDates.images_path a)) ".jpg" = false ->
  strptime (FixDates.start_time a) = Some seconds ->
  List.NoDup found ->
  (forall f, In f found -> is_Some (FixDates.files w !! f)) ->
  found <> [] ->
  FixDates.increment a = inject_Z n ->
  0 < n ->
  int_of_text "0" = Some 0 ->
  let stamped :=
    FixDates.files (snd (FixDates.main strptime true found a w)) in
  fst (estimate_sub_second_time int_of_text (FixDates.list_sort found)
         (inject_Z n) (World stamped out))
  = Ret (Some (map (fun k => timedelta_whole_seconds seconds
                             + Z.of_nat k * (n * onesecond)
                             + onesecond / 2)
                   (seq 0 (length found)))).
Proof.
  intros Hpath Hstart Hnodup Hall Hne Hinc Hn Hzero stamped.
  set (start := timedelta_whole_seconds seconds).
  set (T := n * onesecond).
  set (order := FixDates.list_sort found).
  pose proof (fix_list_sort_Permutation found) as Hperm. fold order in Hperm.
  assert (Hlen : length order = length found)
    by (now apply Permutation_length).
  destruct (stamp_all_spec order start (FixDates.increment a)
              (FixDates.verbose a) 0%Q w)
    as (w' & E & Hstamped & _).
  { eapply Permutation_NoDup; [symmetry; exact Hperm|exact Hnodup]. }
  { intros f Hf. apply Hall. eapply Permutation_in; eassumption. }
  assert (Hmain : FixDates.main strptime true found a w
                  = (FixDates.Done tt, w')).
  { unfold FixDates.main. rewrite Hpath, Hstart. exact E. }
  subst stamped. rewrite Hmain. cbn [snd].
  set (ms := map (fun k => start + Z.of_nat k * T) (seq 0 (length order))).
  assert (Hrec : recorded int_of_text (World (FixDates.files w') out)
                   order ms).
  { apply Forall2_same_length_lookup_2.
    - unfold ms. now rewrite length_map, length_seq.
    - intros k f m Hf Hm. unfold ms in Hm.
      rewrite list_lookup_fmap in Hm.
      destruct (seq 0 (length order) !! k) as [k'|] eqn:Hk; [|discriminate].
      apply lookup_seq in Hk. destruct Hk as [-> _]. simpl in Hm.
      injection Hm as <-.
      destruct (Hstamped k f Hf) as (md & Hmd & Htime & Hsub).
      rewrite Hinc in Htime, Hsub.
      destruct (whole_increments n k) as (z & Ez & Hz).
      rewrite Ez in Htime, Hsub. rewrite subsec_of_whole in Hsub.
      unfold int_of_float in Htime. simpl in Htime.
      rewrite Z.quot_1_r in Htime.
      unfold exif_time.
      erewrite bind_Ret
        by (unfold read_metadata; cbn [files]; now rewrite Hmd).
      unfold tag_value. rewrite Htime, Hsub. simpl.
      change (str_of_int 0) with "0". rewrite Hzero. simpl.
      f_equal. unfold timedelta_whole_seconds, timedelta_milliseconds, T,
        onesecond. lia. }
  assert (Hpos : (0 < inject_Z n)%Q).
  { change 0%Q with (inject_Z 0). now rewrite <- Zlt_Qlt. }
  assert (Hne' : order <> []).
  { intros Hnil. rewrite Hnil in Hlen. destruct found; [congruence|].
    discriminate. }
  destruct (estimate_with_bounds int_of_text _ order ms (inject_Z n)
              Hpos Hrec Hne') as (lo & hi & msgs & Hlo & Hhi & Eest).
  rewrite timedelta_seconds_integer in Hlo, Hhi, Eest. fold T in Hlo, Hhi, Eest.
  pose proof (offsets_of_steps T start (length order) 0) as Hoff.
  fold ms in Hoff. rewrite List.Forall_forall in Hoff.
  apply maximum_greatest in Hlo. destruct Hlo as [Hlo _].
  apply minimum_least in Hhi. destruct Hhi as [Hhi _].
  apply Hoff in Hlo. apply in_map_iff in Hhi.
  destruct Hhi as (o & <- & Ho). apply Hoff in Ho. subst lo o.
  rewrite Eest.
  destruct (Z.ltb_spec (start + onesecond) start) as [H|H];
    [unfold onesecond in H; lia|].
  cbn [fst]. rewrite Hlen. do 2 f_equal. apply map_ext. intros k.
  replace (start + onesecond - start) with onesecond by lia. lia.
Qed.

End FixDatesFacts.


(** ** The date-fixing script on concrete inputs *)

(** The sample reader of numbers reads back what [str] prints. *)
Lemma sample_int_of_text_reads_back (k : Z) :
  0 <= k <= 1000 -> Sample.int_of_text (str_of_int k) = Some k.
Proof.
  intros Hk.
  assert (H : forallb
                (fun n =>
                   match Sample.int_of_text (str_of_int (Z.of_nat n)) with
                   | Some z => z =? Z.of_nat n
                   | None => false
                   end) (seq 0 1001) = true) by (vm_compute; reflexivity).
  rewrite forallb_forall in H. specialize (H (Z.to_nat k)).
  rewrite Z2Nat.id in H by lia.
  destruct (Sample.int_of_text (str_of_int k)) as [z|].
  - f_equal. apply Z.eqb_eq. apply H. apply in_seq. lia.
  - discriminate H. apply in_seq. lia.
Qed.

Lemma stamped_time_within_millisecond_witness :
  let stamped :=
    FixDates.files
      (snd (FixDates.add_exif_using_timestamp "a.jpg" 1000000000 0.35 false
              Sample.untagged)) in
  FixDates.files Sample.untagged !! "a.jpg" = Some ∅ /\
  (0 <= 0.35)%Q /\
  (forall k, 0 <= k <= 1000 ->
     Sample.int_of_text (str_of_int k) = Some k) /\
  exists t : datetime,
    exif_time Sample.int_of_text "a.jpg" (World stamped [])
    = (Ret t, World stamped []) /\
    (Qabs (inject_Z t - (inject_Z 1000000000 + 0.35 * 1000000)) < 1000)%Q.
Proof.
  intros stamped.
  assert (H1 : FixDates.files Sample.untagged !! "a.jpg" = Some ∅)
    by (vm_compute; reflexivity).
  assert (H2 : (0 <= 0.35)%Q) by (vm_compute; discriminate).
  split; [exact H1|]. split; [exact H2|].
  split; [exact sample_int_of_text_reads_back|].
  exact (stamped_time_within_millisecond Sample.int_of_text Sample.untagged
           "a.jpg" ∅ 1000000000 0.35 false [] H1 H2
           sample_int_of_text_reads_back).
Defined.

Lemma stamped_time_negative_offset_late_witness :
  let stamped :=
    FixDates.files
      (snd (FixDates.add_exif_using_timestamp "a.jpg" 1000000000 (-0.65)
              false Sample.untagged)) in
  FixDates.files Sample.untagged !! "a.jpg" = Some ∅ /\
  (-0.65 < 0)%Q /\
  (inject_Z (Qfloor (-0.65)) < -0.65)%Q /\
  (forall k, 0 <= k <= 1000 ->
     Sample.int_of_text (str_of_int k) = Some k) /\
  exists t : datetime,
    exif_time Sample.int_of_text "a.jpg" (World stamped [])
    = (Ret t, World stamped []) /\
    (inject_Z 1000000000 + -0.65 * 1000000 + 990000 <= inject_Z t)%Q /\
    (inject_Z t <= inject_Z 1000000000 + -0.65 * 1000000 + 1010000)%Q.
Proof.
  intros stamped.
  assert (H1 : FixDates.files Sample.untagged !! "a.jpg" = Some ∅)
    by (vm_compute; reflexivity).
  assert (H2 : (-0.65 < 0)%Q) by reflexivity.
  assert (H3 : (inject_Z (Qfloor (-0.65)) < -0.65)%Q) by reflexivity.
  split; [exact H1|]. split; [exact H2|]. split; [exact H3|].
  split; [exact sample_int_of_text_reads_back|].
  exact (stamped_time_negative_offset_late Sample.int_of_text
           Sample.untagged "a.jpg" ∅ 1000000000 (-0.65) false []
           H1 H2 H3 sample_int_of_text_reads_back).
Defined.

(** The image read back after a stamp with offset -0.5 is half a second
    after the start time, not before it. *)
Example stamped_negative_offset_value :
  fst (exif_time Sample.int_of_text "a.jpg"
         (World (FixDates.files
                   (snd (FixDates.add_exif_using_timestamp "a.jpg"
                           1000000000 (-0.5) false Sample.untagged))) []))
  = Ret 1000500000.
Proof. vm_compute. reflexivity. Qed.

Lemma sample_found_exist :
  forall f, In f Sample.found ->
    is_Some (FixDates.files Sample.untagged !! f).
Proof.
  intros f [<-|[<-|[]]]; exists ∅; vm_compute; reflexivity.
Defined.

Lemma sample_found_NoDup : List.NoDup Sample.found.
Proof.
  repeat constructor; simpl; intuition discriminate.
Defined.

Lemma main_stamps_names_in_time_order_witness :
  let start := timedelta_whole_seconds 1000 in
  endswith (lower (FixDates.images_path Sample.fix_options)) ".jpg" = false /\
  Sample.strptime (FixDates.start_time Sample.fix_options) = Some 1000 /\
  List.NoDup Sample.found /\
  (forall f, In f Sample.found ->
     is_Some (FixDates.files Sample.untagged !! f)) /\
  (0 <= FixDates.increment Sample.fix_options)%Q /\
  exists (order : list string) (times : list datetime)
         (w' : FixDates.world),
    FixDates.main Sample.strptime true Sample.found Sample.fix_options
      Sample.untagged = (FixDates.Done tt, w') /\
    Permutation order Sample.found /\
    Sorted (fun x y => String.leb x y = true) order /\
    Forall2
      (fun f t =>
         exists md,
           FixDates.files w' !! f = Some md /\
           md !! "Exif.Photo.DateTimeOriginal" = Some (ExifDatetime t) /\
           is_Some (md !! "Exif.Photo.SubSecTimeOriginal"))
      order times /\
    (forall f, order !! 0%nat = Some f ->
       exists md,
         FixDates.files w' !! f = Some md /\
         md !! "Exif.Photo.DateTimeOriginal" = Some (ExifDatetime start) /\
         md !! "Exif.Photo.SubSecTimeOriginal" = Some (ExifText "0")) /\
    Sorted Z.le times /\
    List.Forall (fun t => start <= t /\ (onesecond | t - start)) times /\
    (forall g, ~ In g Sample.found ->
       FixDates.files w' !! g = FixDates.files Sample.untagged !! g).
Proof.
  intros start.
  assert (H1 : endswith (lower (FixDates.images_path Sample.fix_options))
                 ".jpg" = false) by reflexivity.
  assert (H2 : Sample.strptime (FixDates.start_time Sample.fix_options)
               = Some 1000) by reflexivity.
  assert (H3 : (0 <= FixDates.increment Sample.fix_options)%Q)
    by (vm_compute; discriminate).
  split; [exact H1|]. split; [exact H2|].
  split; [exact sample_found_NoDup|]. split; [exact sample_found_exist|].
  split; [exact H3|].
  exact (main_stamps_names_in_time_order Sample.strptime Sample.found
           Sample.fix_options Sample.untagged 1000 H1 H2
           sample_found_NoDup sample_found_exist H3).
Defined.

(** Found as "b.jpg", "a.jpg", the images are stamped as "a.jpg" at second
    1000 and "b.jpg" one and a half seconds later. *)
Example main_stamps_sample :
  let w' :=
    snd (FixDates.main Sample.strptime true Sample.found Sample.fix_options
           Sample.untagged) in
  FixDates.files w' !! "a.jpg" =
    Some {[ "Exif.Photo.DateTimeOriginal" := ExifDatetime 1000000000;
            "Exif.Photo.SubSecTimeOriginal" := ExifText "0" ]} /\
  FixDates.files w' !! "b.jpg" =
    Some {[ "Exif.Photo.DateTimeOriginal" := ExifDatetime 1001000000;
            "Exif.Photo.SubSecTimeOriginal" := ExifText "500" ]}.
Proof. split; vm_compute; reflexivity. Qed.

Lemma main_fails_before_stamping_witness :
  let a := FixDates.Args false false "nowhere" "2014-11-27 13:01:01" 1 in
  let run := FixDates.main Sample.strptime false [] a Sample.untagged in
  fst run = FixDates.Failed (FixDates.NameError "file_list") /\
  (forall file,
     FixDates.NameError "file_list" <> FixDates.IOError file) /\
  FixDates.files (snd run) = FixDates.files Sample.untagged /\
  FixDates.stdout (snd run) = FixDates.stdout Sample.untagged /\
  (FixDates.NameError "file_list" = FixDates.NameError "file_list" \/
   FixDates.NameError "file_list"
   = FixDates.ValueError (FixDates.start_time a)).
Proof.
  intros a run.
  assert (H1 : fst run = FixDates.Failed (FixDates.NameError "file_list"))
    by reflexivity.
  assert (H2 : forall file,
             FixDates.NameError "file_list" <> FixDates.IOError file)
    by discriminate.
  split; [exact H1|]. split; [exact H2|].
  exact (main_fails_before_stamping Sample.strptime false [] a
           Sample.untagged (FixDates.NameError "file_list") H1 H2).
Defined.


Lemma stamped_images_fit_interval_witness :
  let a := FixDates.Args false false "photos" "2014-11-27 13:01:01" 2 in
  let stamped :=
    FixDates.files
      (snd (FixDates.main Sample.strptime true Sample.found a
              Sample.untagged)) in
  endswith (lower (FixDates.images_path a)) ".jpg" = false /\
  Sample.strptime (FixDates.start_time a) = Some 1000 /\
  List.NoDup Sample.found /\
  (forall f, In f Sample.found ->
     is_Some (FixDates.files Sample.untagged !! f)) /\
  Sample.found <> [] /\
  FixDates.increment a = inject_Z 2 /\
  0 < 2 /\
  Sample.int_of_text "0" = Some 0 /\
  fst (estimate_sub_second_time Sample.int_of_text
         (FixDates.list_sort Sample.found) (inject_Z 2) (World stamped []))
  = Ret (Some (map (fun k => timedelta_whole_seconds 1000
                             + Z.of_nat k * (2 * onesecond)
                             + onesecond / 2)
                   (seq 0 (length Sample.found)))).
Proof.
  intros a stamped.
  assert (H1 : endswith (lower (FixDates.images_path a)) ".jpg" = false)
    by reflexivity.
  assert (H2 : Sample.strptime (FixDates.start_time a) = Some 1000)
    by reflexivity.
  assert (H5 : Sample.found <> []) by discriminate.
  assert (H6 : FixDates.increment a = inject_Z 2) by reflexivity.
  assert (H7 : 0 < 2) by lia.
  assert (H8 : Sample.int_of_text "0" = Some 0) by reflexivity.
  split; [exact H1|]. split; [exact H2|].
  split; [exact sample_found_NoDup|]. split; [exact sample_found_exist|].
  split; [exact H5|]. split; [exact H6|]. split; [exact H7|].
  split; [exact H8|].
  exact (stamped_images_fit_interval Sample.int_of_text Sample.strptime
           Sample.found a Sample.untagged 1000 2 [] H1 H2
           sample_found_NoDup sample_found_exist H5 H6 H7 H8).
Defined.

(** The estimate for the two stamped images: half a second past seconds
    1000 and 1002. *)
Example stamped_images_estimate :
  fst (estimate_sub_second_time Sample.int_of_text ["a.jpg"; "b.jpg"] 2
         (World (FixDates.files
                   (snd (FixDates.main Sample.strptime true Sample.found
                           (FixDates.Args false false "photos"
                              "2014-11-27 13:01:01" 2)
                           Sample.untagged))) []))
  = Ret (Some [1000500000; 1002500000]).
Proof. vm_compute. reflexivity. Qed.
